(** * Temporal buffering, windowing and scheduling of the activity nodes

    A shallow embedding of

    - [uho_activity_detector.py]: [InputWindow], [InputBuffer] and the
      callbacks of [UHOActivityDetector];
    - [activity_classification/activity_classifier_tcn.py]: the window
      criteria, the runtime loop [rt_loop], the memoisation of
      [_process_window] and the COCO replay thread.

    Python objects mutated in place are threaded through a small
    state-and-exception monad; deques are lists whose head is the left end;
    dictionaries are [gmap]s. *)

From Stdlib Require Import ZArith Lia Sorting.Sorted.
From stdpp Require Import base tactics option list sorting strings gmap fin_maps.

Local Open Scope Z_scope.

(** ** Exceptions and the state-and-exception monad *)

Inductive exn : Type :=
  | ValueError
  | IndexError
  | RuntimeError
  | KeyError
  | NoActivityClassification.

Global Instance exn_eq_dec : EqDecision exn.
Proof. solve_decision. Defined.

Inductive outcome (A : Type) : Type :=
  | Return (a : A)
  | Raise (e : exn).
Arguments Return {A} a.
Arguments Raise {A} e.

(** A computation over a mutable object of type [S]: it always hands back
    the object (mutations made before an exception are kept). *)
Definition Py (S A : Type) : Type := S -> S * outcome A.

Definition ret {S A} (a : A) : Py S A := fun s => (s, Return a).
Definition raise {S A} (e : exn) : Py S A := fun s => (s, Raise e).
Definition bind {S A B} (c : Py S A) (k : A -> Py S B) : Py S B :=
  fun s => match c s with
           | (s', Return a) => k a s'
           | (s', Raise e) => (s', Raise e)
           end.
Definition get {S} : Py S S := fun s => (s, Return s).
Definition put {S} (s' : S) : Py S unit := fun _ => (s', Return tt).
Definition modify {S} (f : S -> S) : Py S unit := fun s => (f s, Return tt).
(** [try: c except e: h] *)
Definition try_except {S A} (c : Py S A) (e : exn) (h : Py S A) : Py S A :=
  fun s => match c s with
           | (s', Raise e') => if decide (e' = e :> exn) then h s' else (s', Raise e')
           | r => r
           end.
(** Lifting of a pure, fallible expression. *)
Definition lift {S A} (o : outcome A) : Py S A := fun s => (s, o).

Declare Scope py_scope.
Delimit Scope py_scope with py.
Notation "x <- c ;; k" := (bind c (fun x => k))
  (at level 100, c at next level, right associativity) : py_scope.
Notation "c ;;; k" := (bind c (fun _ => k))
  (at level 100, right associativity) : py_scope.

(** ** Time stamps *)

(** [builtin_interfaces.msg.Time] *)
Record Time : Type := mkTime { sec : Z; nanosec : Z }.

(** Modelled from the spec: [angel_utils.conversion.time_to_int] is not
    part of the sources at hand.  The timestamp key is the integer number
    of nanoseconds of the stream-native time. *)
Definition time_to_int (t : Time) : Z := sec t * 1000000000 + nanosec t.

(** ** Messages *)

(** Pixel payloads and other contents the buffer never inspects. *)
Definition NDArray : Type := list Z.

(** [sensor_msgs.msg.Image]: only the header stamp and the pixels matter. *)
Record Image : Type := mkImage { img_stamp : Time; img_data : list Z }.

(** [cv_bridge] is an external collaborator; the conversion carries the
    pixel payload over unchanged. *)
Definition imgmsg_to_cv2 (msg : Image) : NDArray := img_data msg.

(** [angel_msgs.msg.HandJointPosesUpdate] *)
Record HandJointPosesUpdate : Type := mkHand {
  hand_stamp : Time;          (* msg.header.stamp *)
  hand : string;              (* msg.hand *)
  hand_joints : list Z
}.

(** [angel_msgs.msg.ObjectDetection2dSet] *)
Record ObjectDetection2dSet : Type := mkDets {
  det_stamp : Time;           (* msg.header.stamp *)
  source_stamp : Time;        (* msg.source_stamp *)
  num_detections : Z;
  det_boxes : list Z
}.

(** ** Tolerance join *)

(** [angel_system.utils.matching.descending_match_with_tolerance] is
    imported by [uho_activity_detector.py] but is not among the sources;
    the definitions of this section follow the spec's join.  The comment in
    [InputBuffer.get_window] describes the same walk: for each frame
    backwards, reverse-iterate through the messages until one is farther in
    time or out of tolerance, which moves on to the next frame, that
    message being carried over. *)
Section Matching.
Context {T : Type}.
Variable time_from_value_fn : T -> Z.
Variable tol : Z.

(** Modelled from the spec: ties are broken by the smallest absolute
    difference, then by the most recent item; [improves] tells whether a
    difference [d] is strictly smaller than that of the best item so far,
    so that of two items equally far the one met first, the more recent
    one, is kept. *)
Definition improves (k d : Z) (best : option T) : bool :=
  match best with
  | None => true
  | Some b => d <? Z.abs (k - time_from_value_fn b)
  end.

(** Modelled from the spec: the walk for one reference timestamp [k] over
    the items in descending order.  The item cursor moves to the closest
    item whose timestamp difference is within the tolerance (inclusive); no
    qualifying item leaves the slot empty.  Returns the slot and the items
    left at the cursor; the item at which the walk stops is carried over to
    the next (older) reference timestamp. *)
Fixpoint match_key (k : Z) (best : option T) (vals : list T)
  : option T * list T :=
  match vals with
  | [] => (best, [])
  | v :: rest =>
      let vt := time_from_value_fn v in
      let d := Z.abs (k - vt) in
      if (k <? vt) && (tol <? d) then
        (* more recent than the tolerance allows: advance the cursor *)
        match_key k best rest
      else if (d <=? tol) && improves k d best then
        match_key k (Some v) rest
      else
        (* farther away, or too old: carried to the next reference *)
        (best, v :: rest)
  end.

(** Modelled from the spec: one linear pass over both sequences from the
    most recent end backward, no restart. *)
Fixpoint match_descending (keys_desc : list Z) (vals_desc : list T)
  : list (option T) :=
  match keys_desc with
  | [] => []
  | k :: ks =>
      let r := match_key k None vals_desc in
      fst r :: match_descending ks (snd r)
  end.

(** Modelled from the spec: [descending_match_with_tolerance(key_times,
    values, tol, time_from_value_fn)], one matched-or-absent item per
    reference timestamp, both sequences given in ascending order. *)
Definition descending_match_with_tolerance
    (key_times : list Z) (values : list T) : list (option T) :=
  reverse (match_descending (reverse key_times) (reverse values)).
End Matching.

(** ** Python idioms shared by both nodes *)

(** [l[i]] for a Python index, negative ones counting
    from the right end. *)
Definition py_index {A} (l : list A) (i : Z) : outcome A :=
  let n := Z.of_nat (length l) in
  let j := if i <? 0 then i + n else i in
  if (j <? 0) || (n <=? j) then Raise IndexError
  else match l !! Z.to_nat j with
       | Some x => Return x
       | None => Raise IndexError
       end.

(** [sys.maxsize] of a 64-bit CPython. *)
Definition sys_maxsize : Z := 2 ^ 63 - 1.

(** [list(itertools.islice(reversed(dq), n))[::-1]]; [islice] takes a stop
    between [0] and [sys.maxsize] and refuses any other one with
    [ValueError]. *)
Definition islice_tail {A} (dq : list A) (n : Z) : outcome (list A) :=
  if (n <? 0) || (sys_maxsize <? n) then Raise ValueError
  else Return (reverse (take (Z.to_nat n) (reverse dq))).

(** [while dq and key(dq[0]) < time_nsec: dq.popleft()] *)
Fixpoint popleft_while {A} (key : A -> Z) (time_nsec : Z) (dq : list A)
  : list A :=
  match dq with
  | [] => []
  | x :: rest =>
      if key x <? time_nsec then popleft_while key time_nsec rest else dq
  end.

(** The timestamp of [v] differs from [k] by at most [tol]. *)
Definition within_tolerance {T} (time_of : T -> Z) (tol : Z) (k : Z) (v : T)
  : Prop :=
  Z.abs (k - time_of v) <= tol.

(** A deque in ascending order of its keys. *)
Definition ascending {A} (key : A -> Z) (dq : list A) : Prop :=
  StronglySorted (fun x y => key x <= key y) dq.

(** Strictly ascending keys: in order and without duplicates. *)
Definition strictly_ascending {A} (key : A -> Z) (dq : list A) : Prop :=
  StronglySorted (fun x y => key x < key y) dq.

(** [after] is [before] without a leading run of items older than [t],
    the run ending at the first item that is not older. *)
Definition popped_prefix {A} (key : A -> Z) (t : Z) (before after : list A)
  : Prop :=
  exists removed,
    before = removed ++ after /\
    Forall (fun x => key x < t) removed /\
    (forall x, head after = Some x -> t <= key x).

(** ** [uho_activity_detector.py] *)

Module Uho.

Abbreviation Frame := (Time * NDArray)%type.

(** [InputWindow] *)
Record InputWindow : Type := mkWindow {
  w_frames : list Frame;
  w_hand_pose_left : list (option HandJointPosesUpdate);
  w_hand_pose_right : list (option HandJointPosesUpdate);
  w_obj_dets : list (option ObjectDetection2dSet)
}.

(** [InputWindow.__len__] *)
Definition window_len (w : InputWindow) : Z := Z.of_nat (length (w_frames w)).

(** [InputBuffer]: the deques, left end first.  The lock is not state of
    the model: every method body below is one atomic step. *)
Record InputBuffer : Type := mkBuffer {
  hand_msg_tolerance_nsec : Z;
  frames : list Frame;
  hand_pose_left : list HandJointPosesUpdate;
  hand_pose_right : list HandJointPosesUpdate;
  obj_dets : list ObjectDetection2dSet
}.

(** [InputBuffer(tol)]: every deque starts empty. *)
Definition new_buffer (tol : Z) : InputBuffer := mkBuffer tol [] [] [] [].

Definition set_frames (b : InputBuffer) (fs : list Frame) : InputBuffer :=
  mkBuffer (hand_msg_tolerance_nsec b) fs
           (hand_pose_left b) (hand_pose_right b) (obj_dets b).
Definition set_hand_pose_left (b : InputBuffer) l : InputBuffer :=
  mkBuffer (hand_msg_tolerance_nsec b) (frames b)
           l (hand_pose_right b) (obj_dets b).
Definition set_hand_pose_right (b : InputBuffer) l : InputBuffer :=
  mkBuffer (hand_msg_tolerance_nsec b) (frames b)
           (hand_pose_left b) l (obj_dets b).
Definition set_obj_dets (b : InputBuffer) l : InputBuffer :=
  mkBuffer (hand_msg_tolerance_nsec b) (frames b)
           (hand_pose_left b) (hand_pose_right b) l.

(** [InputBuffer.queue_image] *)
Definition queue_image (msg : Image) : Py InputBuffer unit :=
  let rgb_image_np := imgmsg_to_cv2 msg in
  modify (fun b => set_frames b (frames b ++ [(img_stamp msg, rgb_image_np)])).

(** [InputBuffer.queue_hand_pose] *)
Definition queue_hand_pose (msg : HandJointPosesUpdate) : Py InputBuffer unit :=
  if String.eqb (hand msg) "Right" then
    modify (fun b => set_hand_pose_right b (hand_pose_right b ++ [msg]))
  else if String.eqb (hand msg) "Left" then
    modify (fun b => set_hand_pose_left b (hand_pose_left b ++ [msg]))
  else
    raise ValueError.

(** [InputBuffer.queue_object_detections] *)
Definition queue_object_detections (msg : ObjectDetection2dSet)
  : Py InputBuffer unit :=
  modify (fun b => set_obj_dets b (obj_dets b ++ [msg])).

(** [InputBuffer.get_frame_time] *)
Definition get_frame_time (buff_index : Z) : Py InputBuffer Time :=
  fun b => (b, match py_index (frames b) buff_index with
               | Return f => Return (fst f)
               | Raise e => Raise e
               end).

(** [InputBuffer._hand_msg_to_time_ns] *)
Definition _hand_msg_to_time_ns (msg : HandJointPosesUpdate) : Z :=
  time_to_int (hand_stamp msg).

(** [InputBuffer._objdet_msg_to_time_ns] *)
Definition _objdet_msg_to_time_ns (msg : ObjectDetection2dSet) : Z :=
  time_to_int (source_stamp msg).

(** [InputBuffer.get_window_detections] *)
Definition get_window_detections (window_size : Z)
  : Py InputBuffer (list (option ObjectDetection2dSet)) :=
  fun b =>
    (b, match islice_tail (frames b) window_size with
        | Raise e => Raise e
        | Return window_frames =>
            let window_frame_times_ns :=
              (fun f : Frame => time_to_int (fst f)) <$> window_frames in
            Return (descending_match_with_tolerance _objdet_msg_to_time_ns 0
                      window_frame_times_ns (obj_dets b))
        end).

(** [InputBuffer.get_window] *)
Definition get_window (window_size : Z) : Py InputBuffer InputWindow :=
  fun b =>
    (b, let hand_nsec_tol := hand_msg_tolerance_nsec b in
        match islice_tail (frames b) window_size with
        | Raise e => Raise e
        | Return window_frames =>
            let window_frame_times := fst <$> window_frames in
            let window_frame_times_ns := time_to_int <$> window_frame_times in
            let window_lhand :=
              descending_match_with_tolerance _hand_msg_to_time_ns hand_nsec_tol
                window_frame_times_ns (hand_pose_left b) in
            let window_rhand :=
              descending_match_with_tolerance _hand_msg_to_time_ns hand_nsec_tol
                window_frame_times_ns (hand_pose_right b) in
            let window_dets :=
              descending_match_with_tolerance _objdet_msg_to_time_ns 0
                window_frame_times_ns (obj_dets b) in
            Return (mkWindow window_frames window_lhand window_rhand window_dets)
        end).

(** [InputBuffer.clear_before] *)
Definition clear_before (time_nsec : Z) : Py InputBuffer unit :=
  modify (fun b =>
    mkBuffer (hand_msg_tolerance_nsec b)
      (popleft_while (fun f : Frame => time_to_int (fst f)) time_nsec (frames b))
      (popleft_while _hand_msg_to_time_ns time_nsec (hand_pose_left b))
      (popleft_while _hand_msg_to_time_ns time_nsec (hand_pose_right b))
      (popleft_while _objdet_msg_to_time_ns time_nsec (obj_dets b))).

(** Images queued one after the other. *)
Fixpoint queue_images (msgs : list Image) : Py InputBuffer unit :=
  match msgs with
  | [] => ret tt
  | msg :: rest => (queue_image msg ;;; queue_images rest)%py
  end.

(** The frame [queue_image] appends for a message. *)
Definition frame_of (msg : Image) : Frame := (img_stamp msg, imgmsg_to_cv2 msg).

(** [UHOActivityDetector]: the fields the callbacks read or write. *)
Record UHOActivityDetector : Type := mkNode {
  _frames_per_det : Z;
  _topk : Z;
  _input_buffer : InputBuffer
}.

(** A buffer method called on [self._input_buffer]. *)
Definition on_buffer {A} (c : Py InputBuffer A) : Py UHOActivityDetector A :=
  fun n =>
    let r := c (_input_buffer n) in
    (mkNode (_frames_per_det n) (_topk n) (fst r), snd r).

(** [UHOActivityDetector.image_callback] *)
Definition image_callback (image : Image) : Py UHOActivityDetector unit :=
  on_buffer (queue_image image).

(** [UHOActivityDetector.hand_callback] *)
Definition hand_callback (hand_pose : HandJointPosesUpdate)
  : Py UHOActivityDetector unit :=
  on_buffer (queue_hand_pose hand_pose).

(** [len(list(filter(None, window_dets)))]: messages are truthy objects,
    so exactly the [None] slots are filtered out. *)
Definition count_present {A} (slots : list (option A)) : Z :=
  Z.of_nat (length (filter (fun o => is_Some o) slots)).

(** [UHOActivityDetector.obj_det_callback].  Logging and the debugger
    hook [breakpoint()] leave the node untouched. *)
Definition obj_det_callback (msg : ObjectDetection2dSet)
  : Py UHOActivityDetector unit :=
  (n <- get ;;
   if num_detections msg <? _topk n then ret tt
   else
     on_buffer (queue_object_detections msg) ;;;
     window_dets <- on_buffer (get_window_detections (_frames_per_det n)) ;;
     if 5 <=? count_present window_dets then
       win <- on_buffer (get_window (_frames_per_det n)) ;;
       f0 <- lift (py_index (w_frames win) 0) ;;
       let clean_ts := time_to_int (fst f0) + 1 in
       on_buffer (clear_before clean_ts)
     else ret tt)%py.

(** Messages delivered by the three subscriptions. *)
Inductive Message : Type :=
  | MsgImage (m : Image)
  | MsgHand (m : HandJointPosesUpdate)
  | MsgDets (m : ObjectDetection2dSet).

Definition deliver (m : Message) : Py UHOActivityDetector unit :=
  match m with
  | MsgImage i => image_callback i
  | MsgHand h => hand_callback h
  | MsgDets d => obj_det_callback d
  end.

(** [rclpy.spin(detector)] over the messages that arrive, in order of
    arrival; an exception escaping a callback ends the spin. *)
Fixpoint spin (msgs : list Message) : Py UHOActivityDetector unit :=
  match msgs with
  | [] => ret tt
  | m :: rest => (deliver m ;;; spin rest)%py
  end.

(** Every buffered hand pose sits in the deque of its own hand. *)
Definition hands_routed (b : InputBuffer) : Prop :=
  Forall (fun m => hand m = "Left") (hand_pose_left b) /\
  Forall (fun m => hand m = "Right") (hand_pose_right b).

End Uho.

(** The detections held by the node all carry at least [K] detections. *)
Definition enough_detections (K : Z) (n : Uho.UHOActivityDetector) : Prop :=
  Uho._topk n = K /\
  Forall (fun d => K <= num_detections d) (Uho.obj_dets (Uho._input_buffer n)).


(** ** [activity_classification/activity_classifier_tcn.py] *)

Module Tcn.

(** The pose message of the TCN node ([HandJointPosesUpdate] as the node
    reads it: [source_stamp] and the joints). *)
Record PoseUpdate : Type := mkPose {
  pose_stamp : Time;
  pose_source_stamp : Time;
  joints : list Z
}.

(** (timestamp, image or [None], frame number) *)
Abbreviation Frame := (Time * option NDArray * Z)%type.

Definition frame_time (f : Frame) : Time := fst (fst f).

(** Modelled from the spec: the [InputWindow] of
    [angel_utils.activity_classification] is not among the sources.
    Frames, detections and poses of a window, aligned one to one. *)
Record InputWindow : Type := mkWindow {
  frames : list Frame;
  obj_dets : list (option ObjectDetection2dSet);
  patient_joint_kps : list (option PoseUpdate)
}.

Definition window_len (w : InputWindow) : Z := Z.of_nat (length (frames w)).

(** Modelled from the spec: the [InputBuffer] of
    [angel_utils.activity_classification] is not among the sources.  One
    deque per stream, appended at the tail; the join and the eviction are
    those of the buffer of [uho_activity_detector.py]. *)
Record InputBuffer : Type := mkBuffer {
  hand_msg_tolerance_nsec : Z;
  b_frames : list Frame;
  b_obj_dets : list ObjectDetection2dSet;
  b_patient_joint_kps : list PoseUpdate
}.

(** Modelled from the spec: a new buffer holds nothing. *)
Definition new_buffer (tol : Z) : InputBuffer := mkBuffer tol [] [] [].

(** Modelled from the spec: [append] adds the item at the tail of its
    stream; the callbacks test the returned flag. *)
Definition queue_image (img : option NDArray) (stamp : Time) (frame_number : Z)
  : Py InputBuffer bool :=
  fun b => (mkBuffer (hand_msg_tolerance_nsec b)
              (b_frames b ++ [(stamp, img, frame_number)])
              (b_obj_dets b) (b_patient_joint_kps b), Return true).

(** Modelled from the spec: [append] on the detection stream. *)
Definition queue_object_detections (msg : ObjectDetection2dSet)
  : Py InputBuffer bool :=
  fun b => (mkBuffer (hand_msg_tolerance_nsec b) (b_frames b)
              (b_obj_dets b ++ [msg]) (b_patient_joint_kps b), Return true).

(** Modelled from the spec: [append] on the pose stream. *)
Definition queue_joint_keypoints (msg : PoseUpdate) : Py InputBuffer bool :=
  fun b => (mkBuffer (hand_msg_tolerance_nsec b) (b_frames b)
              (b_obj_dets b) (b_patient_joint_kps b ++ [msg]), Return true).

(** Modelled from the spec: [latestFrameTime()] fails when no frame is
    buffered; [rt_loop] catches that failure as [RuntimeError]. *)
Definition latest_time : Py InputBuffer Time :=
  fun b => (b, match last (b_frames b) with
               | Some f => Return (frame_time f)
               | None => Raise RuntimeError
               end).

(** Modelled from the spec: a detection item joins, and is evicted, by the
    timestamp of the frame it corresponds to. *)
Definition _objdet_msg_to_time_ns (msg : ObjectDetection2dSet) : Z :=
  time_to_int (source_stamp msg).

(** Modelled from the spec: the key of a pose item, the one under which
    [_process_window] memoises it. *)
Definition _joints_msg_to_time_ns (msg : PoseUpdate) : Z :=
  time_to_int (pose_source_stamp msg).

Definition frame_time_ns (f : Frame) : Z := time_to_int (frame_time f).

(** Modelled from the spec: a frame "has an associated detection" when
    some buffered detection carries its timestamp. *)
Definition has_detection (dets : list ObjectDetection2dSet) (f : Frame) : bool :=
  existsb (fun d => _objdet_msg_to_time_ns d =? frame_time_ns f) dets.

(** Modelled from the spec: the frames in descending order, cut back to
    the most recent frame that has an associated detection. *)
Fixpoint pin_to_detection (dets : list ObjectDetection2dSet)
    (frames_desc : list Frame) : list Frame :=
  match frames_desc with
  | [] => []
  | f :: rest =>
      if has_detection dets f then frames_desc else pin_to_detection dets rest
  end.

(** Modelled from the spec: [window(size, anchor)].  At most [size] frames
    from the tail of the frame sequence; with [have_leading_object] the
    trailing edge is the most recent frame that has a detection.  The
    streams are joined as in [uho_activity_detector.InputBuffer.
    get_window]. *)
Definition get_window (window_size : Z) (have_leading_object : bool)
  : Py InputBuffer InputWindow :=
  fun b =>
    (b, let eligible :=
          if have_leading_object
          then reverse (pin_to_detection (b_obj_dets b) (reverse (b_frames b)))
          else b_frames b in
        match islice_tail eligible window_size with
        | Raise e => Raise e
        | Return window_frames =>
            let window_frame_times_ns := frame_time_ns <$> window_frames in
            Return (mkWindow window_frames
              (descending_match_with_tolerance _objdet_msg_to_time_ns 0
                 window_frame_times_ns (b_obj_dets b))
              (descending_match_with_tolerance _joints_msg_to_time_ns
                 (hand_msg_tolerance_nsec b)
                 window_frame_times_ns (b_patient_joint_kps b)))
        end).

(** Modelled from the spec: [evictBefore(timestamp)], written as
    [uho_activity_detector.InputBuffer.clear_before] is: each deque is
    popped from the left while its head is older than the bound. *)
Definition clear_before (time_nsec : Z) : Py InputBuffer unit :=
  modify (fun b =>
    mkBuffer (hand_msg_tolerance_nsec b)
      (popleft_while frame_time_ns time_nsec (b_frames b))
      (popleft_while _objdet_msg_to_time_ns time_nsec (b_obj_dets b))
      (popleft_while _joints_msg_to_time_ns time_nsec (b_patient_joint_kps b))).

(** *** Memoisation state of [_process_window] *)

(** Artifacts built from one message (external classes of
    [angel_system.activity_classification.tcn_hpl.predict]). *)
Record ObjectDetectionsLTRB : Type := mkLTRB { ltrb_id : Z; ltrb_boxes : list Z }.
Record PatientPose : Type := mkPatientPose {
  pp_id : Z; pp_position : Z; pp_label : string
}.

(** [angel_msgs.msg.ActivityDetection] *)
Record ActivityDetection : Type := mkActivity {
  source_stamp_start_frame : Time;
  source_stamp_end_frame : Time;
  conf_vec : list Z
}.

(** The classifier collaborator: feature embedding of a window (no result
    stands for its [ValueError]) and the forward pass. *)
Class Classifier : Type := {
  objects_to_feats :
    list (option ObjectDetectionsLTRB) -> list (option (list PatientPose)) ->
    option (list Z);
  predict : list Z -> list Z
}.

(** A stand-in classifier for worked examples: no embedding when no frame
    of the window carries a detection, else the ids of the frames that do;
    the forward pass hands its input back. *)
Definition example_classifier : Classifier := {|
  objects_to_feats fod _ :=
    match omap (fun o => ltrb_id <$> o) fod with
    | [] => None
    | ids => Some ids
    end;
  predict feats := feats
|}.

(** The memo dictionaries and their id heaps.  A [heapq] list is modelled
    by the ascending list of its content: [h[0]] is its head and [heappop]
    removes it.  The three [_log] fields are ghost state: the ids for which
    an artifact was built, and the ids handed to the feature embedding. *)
Record Memo : Type := mkMemo {
  _memo_preproc_input : gmap Z ObjectDetectionsLTRB;
  _memo_preproc_input_id_heap : list Z;
  _memo_preproc_input_poses : gmap Z (list PatientPose);
  _memo_preproc_input_id_heap_poses : list Z;
  _memo_objects_to_feats : gmap Z NDArray;
  _memo_objects_to_feats_id_heap : list Z;
  _queued_pose_memo : gmap Z Z;
  preproc_log : list Z;
  preproc_poses_log : list Z;
  feats_log : list Z
}.

Definition new_memo : Memo := mkMemo ∅ [] ∅ [] ∅ [] ∅ [] [] [].

Fixpoint heappush (h : list Z) (x : Z) : list Z :=
  match h with
  | [] => [x]
  | y :: rest => if x <=? y then x :: h else y :: heappush rest x
  end.

(** [memo_preproc_input[msg_id] = v; heappush(memo_preproc_input_h, msg_id)] *)
Definition store_preproc_input (msg_id : Z) (v : ObjectDetectionsLTRB) (m : Memo)
  : Memo :=
  mkMemo (<[msg_id := v]> (_memo_preproc_input m))
         (heappush (_memo_preproc_input_id_heap m) msg_id)
         (_memo_preproc_input_poses m) (_memo_preproc_input_id_heap_poses m)
         (_memo_objects_to_feats m) (_memo_objects_to_feats_id_heap m)
         (_queued_pose_memo m)
         (preproc_log m ++ [msg_id]) (preproc_poses_log m) (feats_log m).

Definition store_preproc_input_poses (msg_id : Z) (v : list PatientPose)
    (m : Memo) : Memo :=
  mkMemo (_memo_preproc_input m) (_memo_preproc_input_id_heap m)
         (<[msg_id := v]> (_memo_preproc_input_poses m))
         (heappush (_memo_preproc_input_id_heap_poses m) msg_id)
         (_memo_objects_to_feats m) (_memo_objects_to_feats_id_heap m)
         (_queued_pose_memo m)
         (preproc_log m) (preproc_poses_log m ++ [msg_id]) (feats_log m).

Definition log_feats (ids : list Z) (m : Memo) : Memo :=
  mkMemo (_memo_preproc_input m) (_memo_preproc_input_id_heap m)
         (_memo_preproc_input_poses m) (_memo_preproc_input_id_heap_poses m)
         (_memo_objects_to_feats m) (_memo_objects_to_feats_id_heap m)
         (_queued_pose_memo m)
         (preproc_log m) (preproc_poses_log m) (feats_log m ++ ids).

Definition set_preproc_input (d : gmap Z ObjectDetectionsLTRB) (h : list Z)
    (m : Memo) : Memo :=
  mkMemo d h
         (_memo_preproc_input_poses m) (_memo_preproc_input_id_heap_poses m)
         (_memo_objects_to_feats m) (_memo_objects_to_feats_id_heap m)
         (_queued_pose_memo m)
         (preproc_log m) (preproc_poses_log m) (feats_log m).

Definition set_objects_to_feats (d : gmap Z NDArray) (h : list Z)
    (q : gmap Z Z) (m : Memo) : Memo :=
  mkMemo (_memo_preproc_input m) (_memo_preproc_input_id_heap m)
         (_memo_preproc_input_poses m) (_memo_preproc_input_id_heap_poses m)
         d h q
         (preproc_log m) (preproc_poses_log m) (feats_log m).

(** [self.keypoints_cats] *)
Definition keypoints_cats : list string :=
  ["nose"; "mouth"; "throat"; "chest"; "stomach";
   "left_upper_arm"; "right_upper_arm"; "left_lower_arm"; "right_lower_arm";
   "left_wrist"; "right_wrist"; "left_hand"; "right_hand";
   "left_upper_leg"; "right_upper_leg"; "left_knee"; "right_knee";
   "left_lower_leg"; "right_lower_leg"; "left_foot"; "right_foot"; "back"].

(** [frame_list[i] = v] on a list allocated beforehand *)
Definition assign {A} (l : list A) (i : nat) (v : A) : outcome (list A) :=
  if decide (i < length l)%nat then Return (<[i := v]> l) else Raise IndexError.

(** The loop over [enumerate(window.obj_dets)]. *)
Fixpoint preproc_dets (i : nat) (dets : list (option ObjectDetection2dSet))
    (frame_object_detections : list (option ObjectDetectionsLTRB))
  : Py Memo (list (option ObjectDetectionsLTRB)) :=
  match dets with
  | [] => ret frame_object_detections
  | None :: rest => preproc_dets (S i) rest frame_object_detections
  | Some det_msg :: rest =>
      (let msg_id := time_to_int (source_stamp det_msg) in
       m <- get ;;
       v <- match _memo_preproc_input m !! msg_id with
            | None =>
                let v := mkLTRB msg_id (det_boxes det_msg) in
                (modify (store_preproc_input msg_id v) ;;; ret v)
            | Some v => ret v
            end ;;
       fod <- lift (assign frame_object_detections i (Some v)) ;;
       preproc_dets (S i) rest fod)%py
  end.

(** [[PatientPose(msg_id, pm.pose.position, self.keypoints_cats[i])
      for i, pm in enumerate(pose_msg.joints)]] *)
Fixpoint patient_poses (msg_id : Z) (i : Z) (js : list Z)
  : outcome (list PatientPose) :=
  match js with
  | [] => Return []
  | pm :: rest =>
      match py_index keypoints_cats i with
      | Raise e => Raise e
      | Return label =>
          match patient_poses msg_id (i + 1) rest with
          | Raise e => Raise e
          | Return ps => Return (mkPatientPose msg_id pm label :: ps)
          end
      end
  end.

(** The loop over [enumerate(window.patient_joint_kps)]. *)
Fixpoint preproc_poses (i : nat) (poses : list (option PoseUpdate))
    (frame_patient_poses : list (option (list PatientPose)))
  : Py Memo (list (option (list PatientPose))) :=
  match poses with
  | [] => ret frame_patient_poses
  | None :: rest => preproc_poses (S i) rest frame_patient_poses
  | Some pose_msg :: rest =>
      (let msg_id := time_to_int (pose_source_stamp pose_msg) in
       m <- get ;;
       v <- match _memo_preproc_input_poses m !! msg_id with
            | None =>
                v <- lift (patient_poses msg_id 0 (joints pose_msg)) ;;
                modify (store_preproc_input_poses msg_id v) ;;; ret v
            | Some v => ret v
            end ;;
       fpp <- lift (assign frame_patient_poses i (Some v)) ;;
       preproc_poses (S i) rest fpp)%py
  end.

(** [while h and h[0] <= t: del memo[heappop(h)]]; the heap and the
    dictionary as they are when the loop ends or [del] raises. *)
Fixpoint expire {V} (t : Z) (h : list Z) (memo : gmap Z V)
  : list Z * gmap Z V * outcome unit :=
  match h with
  | [] => ([], memo, Return tt)
  | k :: h' =>
      if k <=? t then
        match memo !! k with
        | None => (h', memo, Raise KeyError)
        | Some _ => expire t h' (delete k memo)
        end
      else (h, memo, Return tt)
  end.

(** The second clean-up loop deletes from two dictionaries. *)
Fixpoint expire_feats (t : Z) (h : list Z) (memo : gmap Z NDArray)
    (queued : gmap Z Z) : list Z * gmap Z NDArray * gmap Z Z * outcome unit :=
  match h with
  | [] => ([], memo, queued, Return tt)
  | detection_id :: h' =>
      if detection_id <=? t then
        match memo !! detection_id with
        | None => (h', memo, queued, Raise KeyError)
        | Some _ =>
            match queued !! detection_id with
            | None => (h', delete detection_id memo, queued, Raise KeyError)
            | Some _ =>
                expire_feats t h' (delete detection_id memo)
                             (delete detection_id queued)
            end
        end
      else (h, memo, queued, Return tt)
  end.

Definition expire_preproc_input (t : Z) : Py Memo unit :=
  fun m =>
    let r := expire t (_memo_preproc_input_id_heap m) (_memo_preproc_input m) in
    (set_preproc_input (snd (fst r)) (fst (fst r)) m, snd r).

Definition expire_objects_to_feats (t : Z) : Py Memo unit :=
  fun m =>
    let r := expire_feats t (_memo_objects_to_feats_id_heap m)
               (_memo_objects_to_feats m) (_queued_pose_memo m) in
    (set_objects_to_feats (snd (fst (fst r))) (fst (fst (fst r))) (snd (fst r)) m,
     snd r).

(** The ids of the frames that carry a preprocessed detection. *)
Definition present_ids (fod : list (option ObjectDetectionsLTRB)) : list Z :=
  omap (fun o => ltrb_id <$> o) fod.

(** [ActivityClassifierTCN._process_window], on the memo state: the memo
    dictionaries are handed to neither [objects_to_feats] nor [predict]
    (the [feature_memo] and [pose_memo] arguments are commented out in the
    call). *)
Definition _process_window `{Classifier} (window : InputWindow)
  : Py Memo ActivityDetection :=
  (let n := length (frames window) in
   frame_object_detections <-
     preproc_dets 0 (obj_dets window) (replicate n None) ;;
   frame_patient_poses <-
     preproc_poses 0 (patient_joint_kps window) (replicate n None) ;;
   modify (log_feats (present_ids frame_object_detections)) ;;;
   match objects_to_feats frame_object_detections frame_patient_poses with
   | None => raise NoActivityClassification
   | Some feats =>
       let proba := predict feats in
       first_frame <- lift (py_index (frames window) 0) ;;
       last_frame <- lift (py_index (frames window) (-1)) ;;
       let activity_msg :=
         mkActivity (frame_time first_frame) (frame_time last_frame) proba in
       let window_start_time_ns := frame_time_ns first_frame in
       expire_preproc_input window_start_time_ns ;;;
       expire_objects_to_feats window_start_time_ns ;;;
       ret activity_msg
   end)%py.

(** Windows processed one after the other on the same memo fields, whatever
    the outcome of each. *)
Definition process_windows `{Classifier} (windows : list InputWindow) (m : Memo)
  : Memo :=
  foldl (fun m window => fst (_process_window window m)) m windows.

(** How many times [k] occurs in a log. *)
Definition occurrences (k : Z) (log : list Z) : nat :=
  length (filter (fun x => x = k) log).

(** What the log and the dictionary of the preprocessed detections say
    about the key [k]: an artifact was built for it at most once, and if so
    it is still stored. *)
Definition memo_inv (k : Z) (m : Memo) : Prop :=
  (occurrences k (preproc_log m) <= 1)%nat /\
  (occurrences k (preproc_log m) = 1%nat -> is_Some (_memo_preproc_input m !! k)).

(** The same for the preprocessed poses; and nothing is stored for the
    feature embedding. *)
Definition memo_poses_inv (k : Z) (m : Memo) : Prop :=
  (occurrences k (preproc_poses_log m) <= 1)%nat /\
  (occurrences k (preproc_poses_log m) = 1%nat ->
   is_Some (_memo_preproc_input_poses m !! k)) /\
  _memo_objects_to_feats m = ∅ /\
  _memo_objects_to_feats_id_heap m = [].

(** The windows of a run slide forward: the detections of a window carry
    keys after the first frame of every window processed before it. *)
Definition sliding_run (windows : list InputWindow) : Prop :=
  forall l j wl wj first_frame d,
    (l < j)%nat -> windows !! l = Some wl -> windows !! j = Some wj ->
    head (frames wl) = Some first_frame -> Some d ∈ obj_dets wj ->
    frame_time_ns first_frame < time_to_int (source_stamp d).

(** The id heap of the preprocessed detections against their dictionary:
    the heap lists, in ascending order and once each, exactly the keys the
    dictionary holds; and the id heap of the feature embeddings is
    empty. *)
Definition memo_consistent (m : Memo) : Prop :=
  NoDup (_memo_preproc_input_id_heap m) /\
  StronglySorted Z.le (_memo_preproc_input_id_heap m) /\
  (forall k, k ∈ _memo_preproc_input_id_heap m <->
             is_Some (_memo_preproc_input m !! k)) /\
  _memo_objects_to_feats_id_heap m = [].

(** *** The node *)

Record Node : Type := mkNode {
  _window_size : Z;
  _buffer_max_size_nsec : Z;
  _window_lead_with_objects : bool;
  _coco_load_thread : bool;           (* [is not None] *)
  _buffer : InputBuffer;
  _window_extracted_time_ns : option Z;
  _window_processed_time_ns : option Z;
  memo : Memo;
  _rt_awake_evt : bool;
  _rt_active : bool;
  _rt_thread_alive : bool;            (* [self._rt_thread.is_alive()] *)
  _current_frame_number : Z;
  published : list ActivityDetection  (* sent on the activity topic *)
}.

(** The node as [__init__] leaves it, the runtime thread started. *)
Definition new_node (window_size buffer_max_size_nsec : Z)
    (window_lead_with_objects coco : bool) : Node :=
  mkNode window_size buffer_max_size_nsec window_lead_with_objects coco
         (new_buffer 0) None None new_memo false true true (-1) [].

Definition set_buffer (b : InputBuffer) (n : Node) : Node :=
  mkNode (_window_size n) (_buffer_max_size_nsec n) (_window_lead_with_objects n)
         (_coco_load_thread n) b (_window_extracted_time_ns n)
         (_window_processed_time_ns n) (memo n) (_rt_awake_evt n) (_rt_active n)
         (_rt_thread_alive n) (_current_frame_number n) (published n).
Definition set_window_extracted_time_ns (t : option Z) (n : Node) : Node :=
  mkNode (_window_size n) (_buffer_max_size_nsec n) (_window_lead_with_objects n)
         (_coco_load_thread n) (_buffer n) t
         (_window_processed_time_ns n) (memo n) (_rt_awake_evt n) (_rt_active n)
         (_rt_thread_alive n) (_current_frame_number n) (published n).
Definition set_window_processed_time_ns (t : option Z) (n : Node) : Node :=
  mkNode (_window_size n) (_buffer_max_size_nsec n) (_window_lead_with_objects n)
         (_coco_load_thread n) (_buffer n) (_window_extracted_time_ns n)
         t (memo n) (_rt_awake_evt n) (_rt_active n)
         (_rt_thread_alive n) (_current_frame_number n) (published n).
Definition set_memo (m : Memo) (n : Node) : Node :=
  mkNode (_window_size n) (_buffer_max_size_nsec n) (_window_lead_with_objects n)
         (_coco_load_thread n) (_buffer n) (_window_extracted_time_ns n)
         (_window_processed_time_ns n) m (_rt_awake_evt n) (_rt_active n)
         (_rt_thread_alive n) (_current_frame_number n) (published n).
Definition set_rt_awake_evt (e : bool) (n : Node) : Node :=
  mkNode (_window_size n) (_buffer_max_size_nsec n) (_window_lead_with_objects n)
         (_coco_load_thread n) (_buffer n) (_window_extracted_time_ns n)
         (_window_processed_time_ns n) (memo n) e (_rt_active n)
         (_rt_thread_alive n) (_current_frame_number n) (published n).
Definition set_rt_active (a : bool) (n : Node) : Node :=
  mkNode (_window_size n) (_buffer_max_size_nsec n) (_window_lead_with_objects n)
         (_coco_load_thread n) (_buffer n) (_window_extracted_time_ns n)
         (_window_processed_time_ns n) (memo n) (_rt_awake_evt n) a
         (_rt_thread_alive n) (_current_frame_number n) (published n).
Definition set_rt_thread_alive (a : bool) (n : Node) : Node :=
  mkNode (_window_size n) (_buffer_max_size_nsec n) (_window_lead_with_objects n)
         (_coco_load_thread n) (_buffer n) (_window_extracted_time_ns n)
         (_window_processed_time_ns n) (memo n) (_rt_awake_evt n) (_rt_active n)
         a (_current_frame_number n) (published n).
Definition set_current_frame_number (k : Z) (n : Node) : Node :=
  mkNode (_window_size n) (_buffer_max_size_nsec n) (_window_lead_with_objects n)
         (_coco_load_thread n) (_buffer n) (_window_extracted_time_ns n)
         (_window_processed_time_ns n) (memo n) (_rt_awake_evt n) (_rt_active n)
         (_rt_thread_alive n) k (published n).
Definition publish (msg : ActivityDetection) : Py Node unit :=
  modify (fun n =>
  mkNode (_window_size n) (_buffer_max_size_nsec n) (_window_lead_with_objects n)
         (_coco_load_thread n) (_buffer n) (_window_extracted_time_ns n)
         (_window_processed_time_ns n) (memo n) (_rt_awake_evt n) (_rt_active n)
         (_rt_thread_alive n) (_current_frame_number n) (published n ++ [msg])).

(** A method called on [self._buffer], resp. on the memo fields. *)
Definition on_buffer {A} (c : Py InputBuffer A) : Py Node A :=
  fun n => let r := c (_buffer n) in (set_buffer (fst r) n, snd r).
Definition on_memo {A} (c : Py Memo A) : Py Node A :=
  fun n => let r := c (memo n) in (set_memo (fst r) n, snd r).

(** *** Window criteria *)

(** [_window_criterion_correct_size]; the warning and the bookkeeping of
    the rejected window in the results collector do not touch the node
    state modelled here. *)
Definition _window_criterion_correct_size (n : Node) (window : InputWindow)
  : bool :=
  window_len window =? _window_size n.

(** [_window_criterion_new_leading_frame] *)
Definition _window_criterion_new_leading_frame (n : Node) (window : InputWindow)
  : bool :=
  if window_len window =? 0 then false
  else
    match last (frames window) with
    | None => false
    | Some f =>
        let cur_leading_time_ns := frame_time_ns f in
        match _window_processed_time_ns n with
        | Some prev_leading_time_ns =>
            let window_ok := prev_leading_time_ns <? cur_leading_time_ns in
            if negb window_ok then false else true
        | None => true
        end
    end.

(** [_window_criterion_coco_input_mode]; a frame is a tuple, never [None]. *)
Definition _window_criterion_coco_input_mode (n : Node) (window : InputWindow)
  : bool :=
  if window_len window =? 0 then true
  else if existsb (fun o : option ObjectDetection2dSet => negb (bool_decide (is_Some o)))
            (obj_dets window)
  then false
  else true.

Definition window_processing_criterion_fn_list (n : Node)
  : list (InputWindow -> bool) :=
  [_window_criterion_correct_size n; _window_criterion_new_leading_frame n]
  ++ (if _coco_load_thread n then [_window_criterion_coco_input_mode n] else []).

(** *** The runtime loop *)

(** [rt_loop], from the window extraction to [window_time_ns]. *)
Definition rt_extract : Py Node (InputWindow * option Z) :=
  (n <- get ;;
   window <- on_buffer (get_window (_window_size n) (_window_lead_with_objects n)) ;;
   let window_time_ns := frame_time_ns <$> last (frames window) in
   ret (window, window_time_ns))%py.

(** [with self._window_extracted_time_ns_cond: ...; notify_all()] *)
Definition rt_record (window_time_ns : option Z) : Py Node unit :=
  modify (set_window_extracted_time_ns window_time_ns).

(** [rt_loop], from the criterion check to the end of the iteration. *)
Definition rt_handle `{Classifier} (window : InputWindow)
    (window_time_ns : option Z) : Py Node unit :=
  (n <- get ;;
   if forallb (fun fn => fn window) (window_processing_criterion_fn_list n) then
     second_frame <- lift (py_index (frames window) 1) ;;
     on_buffer (clear_before (frame_time_ns second_frame)) ;;;
     try_except
       (act_msg <- on_memo (_process_window window) ;; publish act_msg)
       NoActivityClassification
       (ret tt) ;;;
     modify (set_window_processed_time_ns window_time_ns)
   else
     try_except
       (latest <- on_buffer latest_time ;;
        on_buffer (clear_before (time_to_int latest - _buffer_max_size_nsec n)))
       RuntimeError
       (ret tt))%py.

(** One awakened pass of the [while] loop of [rt_loop]. *)
Definition rt_iteration `{Classifier} : Py Node unit :=
  (r <- rt_extract ;;
   rt_record (snd r) ;;;
   rt_handle (fst r) (snd r))%py.

(** Did the window extracted in node state [n] pass every criterion? *)
Definition window_accepted (n : Node) (window : InputWindow) : bool :=
  forallb (fun fn => fn window) (window_processing_criterion_fn_list n).

(** The buffer after the eviction that follows a rejected window: cleared
    up to the maximum buffer size before the latest frame, untouched when
    no frame is buffered. *)
Definition evicted_to_bound (n : Node) : InputBuffer :=
  match last (b_frames (_buffer n)) with
  | Some f =>
      fst (clear_before (frame_time_ns f - _buffer_max_size_nsec n) (_buffer n))
  | None => _buffer n
  end.

(** *** Ingestion callbacks *)

(** [img_ts_callback] *)
Definition img_ts_callback (msg : Time) : Py Node unit :=
  (modify (fun n => set_current_frame_number (_current_frame_number n + 1) n) ;;;
   n <- get ;;
   if _rt_thread_alive n then
     queued <- on_buffer (queue_image None msg (_current_frame_number n)) ;;
     if (queued : bool) && negb (_window_lead_with_objects n)
     then modify (set_rt_awake_evt true)
     else ret tt
   else ret tt)%py.

(** [det_callback] *)
Definition det_callback (msg : ObjectDetection2dSet) : Py Node unit :=
  (n <- get ;;
   if _rt_thread_alive n then
     queued <- on_buffer (queue_object_detections msg) ;;
     if (queued : bool) && _window_lead_with_objects n
     then modify (set_rt_awake_evt true)
     else ret tt
   else ret tt)%py.

(** [pose_callback] *)
Definition pose_callback (msg : PoseUpdate) : Py Node unit :=
  (n <- get ;;
   if _rt_thread_alive n then
     queued <- on_buffer (queue_joint_keypoints msg) ;;
     ret tt
   else ret tt)%py.

(** A detection set for the frame stamped [stamp], then the frame. *)
Definition push_frame (stamp : Time) : Py Node unit :=
  (det_callback (mkDets stamp stamp 1 []) ;;; img_ts_callback stamp)%py.

(** *** COCO replay: the loader thread against the runtime thread *)

(** One image of the input dataset: its [frame_index] and its annotations. *)
Record CocoImage : Type := mkCocoImage { frame_index : Z; annots : list Z }.

(** [sorted(..., key=lambda v: v[1])]: ascending [frame_index], stable. *)
Fixpoint insert_by_frame_index (x : CocoImage) (l : list CocoImage)
  : list CocoImage :=
  match l with
  | [] => [x]
  | y :: rest =>
      if frame_index x <? frame_index y then x :: l
      else y :: insert_by_frame_index x rest
  end.
Definition sorted_by_frame_index (l : list CocoImage) : list CocoImage :=
  foldr insert_by_frame_index [] (reverse l).

Definition coco_image_ts (img : CocoImage) : Time := mkTime 0 (frame_index img).

(** The detection set message built for one image. *)
Definition coco_det_msg (img : CocoImage) : ObjectDetection2dSet :=
  mkDets (coco_image_ts img) (coco_image_ts img)
         (Z.of_nat (length (annots img))) (annots img).

(** Where [_thread_populate_from_coco] stands in its loop. *)
Inductive loader_pc : Type :=
  | LoaderDet (todo : list CocoImage)                (* before [det_callback] *)
  | LoaderImg (img : CocoImage) (rest : list CocoImage) (* before [img_ts_callback] *)
  | LoaderWait (image_ts_ns : Z) (rest : list CocoImage) (* in [wait_for] *)
  | LoaderDone.

(** Where [rt_loop] stands. *)
Inductive rt_pc : Type :=
  | RtLoop                                  (* at [_rt_keep_looping()] *)
  | RtWait                                  (* in [wait_and_clear] *)
  | RtAwake                                 (* before [get_window] *)
  | RtExtracted (window : InputWindow) (window_time_ns : option Z)
  | RtRecorded (window : InputWindow) (window_time_ns : option Z)
  | RtEnded.                                (* returned, or died on an exception *)

(** The two threads over the shared node.  [pushed] and [recorded] are
    ghost histories: the timestamps of the tuples the loader has pushed,
    and the values the runtime loop has written to
    [_window_extracted_time_ns]. *)
Record System : Type := mkSystem {
  node : Node;
  loader : loader_pc;
  rt : rt_pc;
  pushed : list Z;
  recorded : list (option Z)
}.

Definition init_system (n : Node) (dataset : list CocoImage) : System :=
  mkSystem n (LoaderDet (sorted_by_frame_index dataset)) RtLoop [] [].

(** The predicate of [wait_for]. *)
Definition window_extracted_reached (n : Node) (image_ts_ns : Z) : bool :=
  match _window_extracted_time_ns n with
  | Some t => image_ts_ns <=? t
  | None => false
  end.

(** One atomic action of the loader thread; [None] while it is blocked in
    [wait_for] or after it has returned. *)
Definition loader_step (s : System) : option System :=
  match loader s with
  | LoaderDet [] =>
      Some (mkSystem (set_rt_active false (node s)) LoaderDone (rt s)
                     (pushed s) (recorded s))
  | LoaderDet (img :: rest) =>
      let r := det_callback (coco_det_msg img) (node s) in
      Some (mkSystem (fst r)
              (match snd r with Return _ => LoaderImg img rest | Raise _ => LoaderDone end)
              (rt s) (pushed s) (recorded s))
  | LoaderImg img rest =>
      let image_ts := coco_image_ts img in
      let r := img_ts_callback image_ts (node s) in
      Some (mkSystem (fst r)
              (match snd r with
               | Return _ => LoaderWait (time_to_int image_ts) rest
               | Raise _ => LoaderDone
               end)
              (rt s) (pushed s ++ [time_to_int image_ts]) (recorded s))
  | LoaderWait image_ts_ns rest =>
      if window_extracted_reached (node s) image_ts_ns
      then Some (mkSystem (node s) (LoaderDet rest) (rt s) (pushed s) (recorded s))
      else None
  | LoaderDone => None
  end.

(** One atomic action of the runtime thread.  The thread ends when the
    loop test fails, and also when an exception escapes the loop body. *)
Definition rt_step `{Classifier} (s : System) : option System :=
  let ended n :=
    mkSystem (set_rt_thread_alive false n) (loader s) RtEnded
             (pushed s) (recorded s) in
  match rt s with
  | RtLoop =>
      if _rt_active (node s)
      then Some (mkSystem (node s) (loader s) RtWait (pushed s) (recorded s))
      else Some (ended (node s))
  | RtWait =>
      if _rt_awake_evt (node s)
      then Some (mkSystem (set_rt_awake_evt false (node s)) (loader s) RtAwake
                          (pushed s) (recorded s))
      else Some (mkSystem (node s) (loader s) RtLoop (pushed s) (recorded s))
  | RtAwake =>
      match rt_extract (node s) with
      | (n, Return (window, window_time_ns)) =>
          Some (mkSystem n (loader s) (RtExtracted window window_time_ns)
                         (pushed s) (recorded s))
      | (n, Raise _) => Some (ended n)
      end
  | RtExtracted window window_time_ns =>
      match rt_record window_time_ns (node s) with
      | (n, Return _) =>
          Some (mkSystem n (loader s) (RtRecorded window window_time_ns)
                         (pushed s) (recorded s ++ [window_time_ns]))
      | (n, Raise _) => Some (ended n)
      end
  | RtRecorded window window_time_ns =>
      match rt_handle window window_time_ns (node s) with
      | (n, Return _) =>
          Some (mkSystem n (loader s) RtLoop (pushed s) (recorded s))
      | (n, Raise _) => Some (ended n)
      end
  | RtEnded => None
  end.

Inductive thread : Type := LoaderThread | RtThread.

(** A thread that cannot move leaves the system as it is. *)
Definition step `{Classifier} (t : thread) (s : System) : System :=
  default s (match t with
             | LoaderThread => loader_step s
             | RtThread => rt_step s
             end).

(** The system after the interleaving [schedule]. *)
Definition run `{Classifier} (schedule : list thread) (s : System) : System :=
  foldl (fun s t => step t s) s schedule.

(** The pushed tuples the loader has moved past: all of them, but the last
    one while the loader still waits for it. *)
Definition moved_past (s : System) : list Z :=
  match loader s with
  | LoaderWait _ _ => removelast (pushed s)
  | _ => pushed s
  end.

(** The runtime loop has recorded an extracted window time that reaches
    the timestamp [ts]. *)
Definition acknowledged (s : System) (ts : Z) : Prop :=
  exists e, Some e ∈ recorded s /\ ts <= e.

(** What holds of the two threads at every point of every interleaving. *)
Definition replay_inv (s : System) : Prop :=
  (forall e, _window_extracted_time_ns (node s) = Some e -> Some e ∈ recorded s) /\
  (forall ts, ts ∈ moved_past s -> acknowledged s ts) /\
  (forall ts rest, loader s = LoaderWait ts rest -> last (pushed s) = Some ts).

(** *** Subscriptions and shutdown *)

(** Messages delivered by the three subscriptions of the node. *)
Inductive Message : Type :=
  | MsgImageTs (m : Time)
  | MsgDets (m : ObjectDetection2dSet)
  | MsgPose (m : PoseUpdate).

Definition deliver (m : Message) : Py Node unit :=
  match m with
  | MsgImageTs t => img_ts_callback t
  | MsgDets d => det_callback d
  | MsgPose p => pose_callback p
  end.

(** The callbacks run one after the other on the messages that arrive; an
    exception escaping a callback ends the spin. *)
Fixpoint spin (msgs : list Message) : Py Node unit :=
  match msgs with
  | [] => ret tt
  | m :: rest => (deliver m ;;; spin rest)%py
  end.

(** How many image timestamps are among [msgs]. *)
Fixpoint image_count (msgs : list Message) : Z :=
  match msgs with
  | [] => 0
  | MsgImageTs _ :: rest => 1 + image_count rest
  | _ :: rest => image_count rest
  end.

(** [rt_stop] *)
Definition rt_stop : Py Node unit :=
  (modify (set_rt_active false) ;;;
   modify (set_rt_awake_evt true))%py.  (* intentionally second *)

(** How many turns an interleaving gives to the runtime thread. *)
Fixpoint rt_turns (schedule : list thread) : nat :=
  match schedule with
  | [] => 0
  | RtThread :: rest => S (rt_turns rest)
  | LoaderThread :: rest => rt_turns rest
  end.

(** The longest way of the runtime thread from a point of [rt_loop] to its
    end once [_rt_keep_looping()] answers no: a pass that is already under
    way is finished first. *)
Definition rt_steps_left (pc : rt_pc) : nat :=
  match pc with
  | RtWait => 5
  | RtAwake => 4
  | RtExtracted _ _ => 3
  | RtRecorded _ _ => 2
  | RtLoop => 1
  | RtEnded => 0
  end.

(** The timestamps of the images of a dataset, in nanoseconds, in the
    order in which [_thread_populate_from_coco] scans them. *)
Definition replay_order (dataset : list CocoImage) : list Z :=
  (fun img => time_to_int (coco_image_ts img)) <$> sorted_by_frame_index dataset.

(** The timestamps of the images the loader has still to push. *)
Definition pending (pc : loader_pc) : list Z :=
  (fun img => time_to_int (coco_image_ts img)) <$>
    match pc with
    | LoaderDet todo => todo
    | LoaderImg img rest => img :: rest
    | LoaderWait _ rest => rest
    | LoaderDone => []
    end.

End Tcn.


(** * Properties *)

Lemma filter_all {A} (P : A -> Prop) `{forall x, Decision (P x)} (l : list A) :
  Forall P l -> filter P l = l.
Proof.
  induction 1 as [|x l Hx _ IH]; [done|].
  rewrite filter_cons_True by done. by rewrite IH.
Qed.

(** ** The eviction loop *)

Section Popleft.
Context {A : Type} (key : A -> Z) (t : Z).

Lemma popleft_while_popped_prefix (dq : list A) :
  popped_prefix key t dq (popleft_while key t dq).
Proof.
  induction dq as [|x dq IH]; simpl.
  - exists []. split; [done|]. split; [constructor|]. intros x [=].
  - destruct (Z.ltb_spec (key x) t) as [Hlt|Hge].
    + destruct IH as (removed & Heq & Hall & Hhd).
      exists (x :: removed). split; [simpl; by f_equal|].
      split; [by constructor|done].
    + exists []. split; [done|]. split; [constructor|].
      intros y [= <-]. done.
Qed.

Lemma popleft_while_ascending (dq : list A) :
  ascending key dq ->
  popleft_while key t dq = filter (fun x => t <= key x) dq.
Proof.
  induction 1 as [|x dq Hs IH Hx]; simpl; [done|].
  destruct (Z.ltb_spec (key x) t) as [Hlt|Hge].
  - rewrite filter_cons_False by lia. done.
  - rewrite filter_cons_True by done. f_equal.
    symmetry. apply filter_all.
    eapply Forall_impl; [exact Hx|]. simpl. intros. lia.
Qed.

Lemma popleft_while_sublist (dq : list A) : popleft_while key t dq `suffix_of` dq.
Proof.
  destruct (popleft_while_popped_prefix dq) as (removed & Heq & _).
  by exists removed.
Qed.

Lemma popleft_while_last (dq : list A) x :
  last (popleft_while key t dq) = Some x -> last dq = Some x.
Proof.
  destruct (popleft_while_popped_prefix dq) as (removed & Heq & _).
  intros Hl. rewrite Heq at 1.
  destruct (popleft_while key t dq) as [|y l] eqn:E; [done|].
  rewrite last_app. by rewrite Hl.
Qed.

End Popleft.

(** ** [InputBuffer.clear_before] *)

(** C4, as the claim states it, fails: with the frame deque [5; 1] (not in
    ascending order) [clear_before(3)] stops at the head, whose key is not
    older than 3, and the frame keyed 1 stays in the deque. *)
Lemma clear_before_keeps_older_unsorted :
  let old := (mkTime 0 1, []) : Uho.Frame in
  let b := Uho.mkBuffer 0 [(mkTime 0 5, []); old] [] [] [] in
  old ∈ Uho.frames (fst (Uho.clear_before 3 b)) /\ time_to_int (fst old) < 3.
Proof. vm_compute. split; [|done]. apply list_elem_of_In. simpl. tauto. Qed.

(** C4 (amended): for every buffer and every bound, [clear_before] returns
    and pops from each of the four deques, independently, the leading run
    of items whose key is older than the bound, up to the first item that
    is not older; no item with a key at or after the bound is removed.  On
    a deque in ascending key order this removes exactly the items older
    than the bound. *)
Theorem clear_before_pops_leading_older (b : Uho.InputBuffer) (t : Z) :
  let b' := fst (Uho.clear_before t b) in
  let fkey := fun f : Uho.Frame => time_to_int (fst f) in
  snd (Uho.clear_before t b) = Return tt /\
  Uho.hand_msg_tolerance_nsec b' = Uho.hand_msg_tolerance_nsec b /\
  popped_prefix fkey t (Uho.frames b) (Uho.frames b') /\
  popped_prefix Uho._hand_msg_to_time_ns t
    (Uho.hand_pose_left b) (Uho.hand_pose_left b') /\
  popped_prefix Uho._hand_msg_to_time_ns t
    (Uho.hand_pose_right b) (Uho.hand_pose_right b') /\
  popped_prefix Uho._objdet_msg_to_time_ns t (Uho.obj_dets b) (Uho.obj_dets b') /\
  (ascending fkey (Uho.frames b) ->
   Uho.frames b' = filter (fun x => t <= fkey x) (Uho.frames b)) /\
  (ascending Uho._hand_msg_to_time_ns (Uho.hand_pose_left b) ->
   Uho.hand_pose_left b' =
   filter (fun x => t <= Uho._hand_msg_to_time_ns x) (Uho.hand_pose_left b)) /\
  (ascending Uho._hand_msg_to_time_ns (Uho.hand_pose_right b) ->
   Uho.hand_pose_right b' =
   filter (fun x => t <= Uho._hand_msg_to_time_ns x) (Uho.hand_pose_right b)) /\
  (ascending Uho._objdet_msg_to_time_ns (Uho.obj_dets b) ->
   Uho.obj_dets b' =
   filter (fun x => t <= Uho._objdet_msg_to_time_ns x) (Uho.obj_dets b)).
Proof.
  simpl. repeat split; try apply popleft_while_popped_prefix;
    apply popleft_while_ascending.
Qed.

Lemma clear_before_pops_leading_older_witness :
  let b := Uho.mkBuffer 0 [(mkTime 0 1, []); (mkTime 0 5, [])] [] []
             [mkDets (mkTime 0 1) (mkTime 0 1) 5 []] in
  Uho.frames (fst (Uho.clear_before 3 b)) = [(mkTime 0 5, [])] /\
  Uho.obj_dets (fst (Uho.clear_before 3 b)) = [].
Proof.
  intros b.
  destruct (clear_before_pops_leading_older b 3)
    as (_ & _ & _ & _ & _ & _ & Hf & _ & _ & Hd).
  split.
  - rewrite Hf; [reflexivity|].
    repeat constructor; vm_compute; discriminate.
  - rewrite Hd; [reflexivity|]. repeat constructor.
Defined.

(** ** [InputBuffer.queue_hand_pose] *)

(** C9: [queue_hand_pose] raises exactly when [msg.hand] is neither
    ["Right"] nor ["Left"]; the exception is [ValueError] and the buffer is
    left as it was.  Otherwise the message is appended to the deque of its
    hand and nothing else changes. *)
Theorem queue_hand_pose_raises_iff (msg : HandJointPosesUpdate) (b : Uho.InputBuffer) :
  let r := Uho.queue_hand_pose msg b in
  ((exists e, snd r = Raise e) <-> (hand msg <> "Right" /\ hand msg <> "Left")) /\
  (forall e, snd r = Raise e -> e = ValueError /\ fst r = b) /\
  (hand msg = "Right" ->
   r = (Uho.set_hand_pose_right b (Uho.hand_pose_right b ++ [msg]), Return tt)) /\
  (hand msg = "Left" ->
   r = (Uho.set_hand_pose_left b (Uho.hand_pose_left b ++ [msg]), Return tt)).
Proof.
  unfold Uho.queue_hand_pose.
  destruct (String.eqb_spec (hand msg) "Right") as [HR|HR].
  { cbn. split_and!.
    - split; [intros [e He]; discriminate He | intros [? _]; done].
    - intros e He; discriminate He.
    - done.
    - rewrite HR. intros He; discriminate He. }
  destruct (String.eqb_spec (hand msg) "Left") as [HL|HL].
  { cbn. split_and!.
    - split; [intros [e He]; discriminate He | intros [_ ?]; done].
    - intros e He; discriminate He.
    - done.
    - done. }
  cbn. split_and!.
  - split; [done | intros _; by exists ValueError].
  - intros e He. injection He as <-. done.
  - done.
  - done.
Qed.

Lemma queue_hand_pose_raises_iff_witness :
  snd (Uho.queue_hand_pose (mkHand (mkTime 0 1) "left" []) (Uho.new_buffer 0))
  = Raise ValueError /\
  fst (Uho.queue_hand_pose (mkHand (mkTime 0 1) "left" []) (Uho.new_buffer 0))
  = Uho.new_buffer 0.
Proof.
  destruct (queue_hand_pose_raises_iff
              (mkHand (mkTime 0 1) "left" []) (Uho.new_buffer 0))
    as (_ & Hraise & _).
  split; [reflexivity|].
  apply (Hraise ValueError). reflexivity.
Defined.

(** ** [InputBuffer.get_window]: the frames of a window *)

Lemma islice_tail_drop {A} (dq : list A) (n : Z) :
  0 <= n <= sys_maxsize ->
  islice_tail dq n = Return (drop (length dq - Z.to_nat n) dq).
Proof.
  intros Hn. unfold islice_tail.
  destruct (Z.ltb_spec n 0) as [?|_]; [lia|].
  destruct (Z.ltb_spec sys_maxsize n) as [?|_]; [lia|]. cbn [orb].
  by rewrite take_reverse, reverse_involutive.
Qed.

Lemma islice_tail_Raise {A} (dq : list A) (n : Z) :
  n < 0 \/ sys_maxsize < n -> islice_tail dq n = Raise ValueError.
Proof.
  intros Hn. unfold islice_tail.
  destruct (Z.ltb_spec n 0) as [?|?]; [done|].
  destruct (Z.ltb_spec sys_maxsize n) as [?|?]; [done|lia].
Qed.

Lemma queue_images_frames (msgs : list Image) (b : Uho.InputBuffer) :
  snd (Uho.queue_images msgs b) = Return tt /\
  Uho.frames (fst (Uho.queue_images msgs b)) =
    Uho.frames b ++ (Uho.frame_of <$> msgs).
Proof.
  revert b. induction msgs as [|msg msgs IH]; intros b; simpl.
  - by rewrite app_nil_r.
  - unfold bind. simpl.
    destruct (IH (Uho.set_frames b (Uho.frames b ++ [(img_stamp msg, imgmsg_to_cv2 msg)])))
      as [Hs Hf].
    split; [exact Hs|]. rewrite Hf. simpl. by rewrite <- app_assoc.
Qed.

Lemma get_window_frames (b : Uho.InputBuffer) (size : Z) :
  0 <= size <= sys_maxsize ->
  exists w,
    Uho.get_window size b = (b, Return w) /\
    Uho.w_frames w = drop (length (Uho.frames b) - Z.to_nat size) (Uho.frames b).
Proof.
  intros Hn. unfold Uho.get_window.
  rewrite (islice_tail_drop _ _ Hn). eexists. split; [reflexivity|]. done.
Qed.

(** C2, as the claim states it, fails: one frame is buffered and
    [2 ** 63] frames are asked for.  Fewer frames than the size are
    buffered, yet [get_window] does not return them: [islice] refuses a
    stop above [sys.maxsize] and [ValueError] leaves the method. *)
Lemma get_window_refuses_size_above_maxsize :
  let b := fst (Uho.queue_images [mkImage (mkTime 0 1) [1]] (Uho.new_buffer 0)) in
  Z.of_nat (length (Uho.frames b)) < 2 ^ 63 /\
  Uho.get_window (2 ^ 63) b = (b, Raise ValueError).
Proof. split; reflexivity. Qed.

(** C2 (amended): after any sequence of frame appends (whatever the
    timestamps, so also for strictly increasing ones) and for every size
    from [0] to [sys.maxsize], [get_window(size)] returns, and its frames
    are the last [size] frames appended, in the order appended, whenever
    [size] is at most the number of buffered frames; with fewer than
    [size] frames buffered it returns all of them. *)
Theorem get_window_last_frames
    (b0 : Uho.InputBuffer) (msgs : list Image) (size : Z) :
  0 <= size <= sys_maxsize ->
  let b := fst (Uho.queue_images msgs b0) in
  let appended := Uho.frames b0 ++ (Uho.frame_of <$> msgs) in
  exists w,
    Uho.get_window size b = (b, Return w) /\
    (size <= Z.of_nat (length appended) ->
     Uho.w_frames w = drop (length appended - Z.to_nat size) appended /\
     Z.of_nat (length (Uho.w_frames w)) = size) /\
    (Z.of_nat (length appended) < size -> Uho.w_frames w = appended).
Proof.
  intros Hn b appended.
  destruct (get_window_frames b size Hn) as (w & Hw & Hf).
  exists w. split; [exact Hw|].
  assert (Uho.frames b = appended) as Hb by apply queue_images_frames.
  rewrite Hb in Hf. rewrite Hf. split.
  - intros Hle. split; [done|]. rewrite length_drop. lia.
  - intros Hlt. replace (length appended - Z.to_nat size)%nat with 0%nat by lia.
    done.
Qed.

Lemma get_window_last_frames_witness :
  let img n := mkImage (mkTime 0 n) [n] in
  exists w,
    Uho.get_window 2 (fst (Uho.queue_images [img 1; img 2; img 3] (Uho.new_buffer 0)))
    = (fst (Uho.queue_images [img 1; img 2; img 3] (Uho.new_buffer 0)), Return w) /\
    Uho.w_frames w = [(mkTime 0 2, [2]); (mkTime 0 3, [3])].
Proof.
  intros img.
  destruct (get_window_last_frames (Uho.new_buffer 0) [img 1; img 2; img 3] 2)
    as (w & Hw & Hle & _); [by vm_compute|].
  exists w. split; [exact Hw|].
  destruct Hle as [Hf _]; [simpl; lia|]. exact Hf.
Defined.

(** ** The tolerance join *)

Section MatchingFacts.
Context {T : Type} (time_of : T -> Z) (tol : Z).

Lemma match_key_sound (k : Z) (vals : list T) :
  forall best,
    (forall v, fst (match_key time_of tol k best vals) = Some v ->
               best = Some v \/ (v ∈ vals /\ within_tolerance time_of tol k v)) /\
    (forall x, x ∈ snd (match_key time_of tol k best vals) -> x ∈ vals).
Proof.
  induction vals as [|v vals IH]; intros best; simpl.
  - split; [intros; by left | done].
  - destruct ((k <? time_of v) && (tol <? Z.abs (k - time_of v))) eqn:Eskip.
    + destruct (IH best) as [IH1 IH2]. split.
      * intros w Hw. destruct (IH1 w Hw) as [?|[? ?]]; [by left|right].
        split; [by apply elem_of_cons; right | done].
      * intros x Hx. apply elem_of_cons. right. by apply IH2.
    + destruct ((Z.abs (k - time_of v) <=? tol)
                && improves time_of k (Z.abs (k - time_of v)) best) eqn:Etake.
      * apply andb_true_iff in Etake as [Hd _]. apply Z.leb_le in Hd.
        destruct (IH (Some v)) as [IH1 IH2]. split.
        -- intros w Hw. right. destruct (IH1 w Hw) as [[= ->]|[? ?]].
           ++ split; [apply elem_of_cons; by left | exact Hd].
           ++ split; [by apply elem_of_cons; right | done].
        -- intros x Hx. apply elem_of_cons. right. by apply IH2.
      * simpl. split; [intros; by left | done].
Qed.

Lemma match_descending_length (ks : list Z) :
  forall vs, length (match_descending time_of tol ks vs) = length ks.
Proof. induction ks as [|k ks IH]; intros vs; simpl; [done|]. by rewrite IH. Qed.

Lemma match_descending_sound (ks : list Z) :
  forall vs i v,
    match_descending time_of tol ks vs !! i = Some (Some v) ->
    v ∈ vs /\ exists k, ks !! i = Some k /\ within_tolerance time_of tol k v.
Proof.
  induction ks as [|k ks IH]; intros vs i v; simpl; [done|].
  destruct (match_key_sound k vs None) as [Hm Hrest].
  destruct i as [|i]; simpl.
  - intros [= Hv]. destruct (Hm v Hv) as [[=]|[? ?]]. split; [done|]. by exists k.
  - intros Hi. destruct (IH _ _ _ Hi) as [Hin Hk]. split; [by apply Hrest | exact Hk].
Qed.


(** Every filled slot holds a queued item within the tolerance of the
    reference timestamp of that slot. *)
Lemma descending_match_sound (ks : list Z) (vs : list T) (i : nat) (v : T) :
  descending_match_with_tolerance time_of tol ks vs !! i = Some (Some v) ->
  v ∈ vs /\ exists k, ks !! i = Some k /\ within_tolerance time_of tol k v.
Proof.
  unfold descending_match_with_tolerance. intros Hi.
  apply reverse_lookup_Some in Hi as [Hi Hlt].
  rewrite match_descending_length, length_reverse in Hi, Hlt.
  apply match_descending_sound in Hi as [Hin (k & Hk & Hw)].
  split; [exact (proj1 (elem_of_reverse _ _) Hin)|].
  exists k. split; [|done].
  apply reverse_lookup_Some in Hk as [Hk Hlt'].
  replace (length ks - S (length ks - S i))%nat with i in Hk by lia. done.
Qed.

End MatchingFacts.

(** *** The join on time-ordered sequences *)





Section SortedMatch.
Context {T : Type} (time_of : T -> Z) (tol : Z).







End SortedMatch.

(** ** [InputBuffer.get_window]: the joined streams *)

Lemma islice_tail_Return {A} (dq : list A) (n : Z) (l : list A) :
  islice_tail dq n = Return l ->
  0 <= n /\ l = drop (length dq - Z.to_nat n) dq.
Proof.
  unfold islice_tail. destruct (Z.ltb_spec n 0) as [?|Hn]; [done|].
  destruct (Z.ltb_spec sys_maxsize n) as [?|Hm]; [done|]. cbn [orb].
  intros [= <-]. split; [done|]. by rewrite take_reverse, reverse_involutive.
Qed.

Lemma get_window_Return (b : Uho.InputBuffer) (size : Z) (b' : Uho.InputBuffer)
    (w : Uho.InputWindow) :
  Uho.get_window size b = (b', Return w) ->
  let wf := drop (length (Uho.frames b) - Z.to_nat size) (Uho.frames b) in
  let times := time_to_int <$> (fst <$> wf) in
  0 <= size /\ b' = b /\
  Uho.w_frames w = wf /\
  Uho.w_hand_pose_left w =
    descending_match_with_tolerance Uho._hand_msg_to_time_ns
      (Uho.hand_msg_tolerance_nsec b) times (Uho.hand_pose_left b) /\
  Uho.w_hand_pose_right w =
    descending_match_with_tolerance Uho._hand_msg_to_time_ns
      (Uho.hand_msg_tolerance_nsec b) times (Uho.hand_pose_right b) /\
  Uho.w_obj_dets w =
    descending_match_with_tolerance Uho._objdet_msg_to_time_ns 0 times
      (Uho.obj_dets b).
Proof.
  unfold Uho.get_window. intros [= <- Hw].
  destruct (islice_tail (Uho.frames b) size) as [l|e] eqn:E; [|done].
  apply islice_tail_Return in E as [Hn ->]. injection Hw as <-.
  by split_and!.
Qed.

Lemma window_times_lookup (wf : list Uho.Frame) (i : nat) (k : Z) :
  (time_to_int <$> (fst <$> wf)) !! i = Some k ->
  exists f, wf !! i = Some f /\ time_to_int (fst f) = k.
Proof.
  intros H. apply list_lookup_fmap_Some in H as (t & -> & H).
  apply list_lookup_fmap_Some in H as (f & -> & H). by exists f.
Qed.

(** A filled detection slot holds a queued detection stamped exactly as the
    frame of the slot. *)
Lemma get_window_obj_dets_sound
    (b : Uho.InputBuffer) (size : Z) (w : Uho.InputWindow) :
  Uho.get_window size b = (b, Return w) ->
  forall i d,
    Uho.w_obj_dets w !! i = Some (Some d) ->
    d ∈ Uho.obj_dets b /\
    exists f, Uho.w_frames w !! i = Some f /\ f ∈ Uho.frames b /\
              Uho._objdet_msg_to_time_ns d = time_to_int (fst f).
Proof.
  intros Hw i d Hi.
  destruct (get_window_Return _ _ _ _ Hw) as (Hn & _ & Hf & _ & _ & Hd).
  rewrite Hd in Hi.
  apply descending_match_sound in Hi as (Hin & k & Hk & Hwithin).
  split; [done|].
  apply window_times_lookup in Hk as (f & Hfi & Hfk).
  exists f. rewrite Hf. split; [done|]. split.
  - rewrite lookup_drop in Hfi. by eapply list_elem_of_lookup_2.
  - unfold within_tolerance in Hwithin. lia.
Qed.






(** *** Tolerant matching of the hand poses *)



(** ** [UHOActivityDetector.obj_det_callback] *)

Lemma popleft_while_Forall {A} (key : A -> Z) (t : Z) (P : A -> Prop) (dq : list A) :
  Forall P dq -> Forall P (popleft_while key t dq).
Proof.
  induction 1 as [|x dq Hx Hdq IH]; simpl; [constructor|].
  destruct (key x <? t); [exact IH | by constructor].
Qed.

Lemma obj_det_callback_enough (K : Z) (msg : ObjectDetection2dSet)
    (n : Uho.UHOActivityDetector) :
  enough_detections K n -> enough_detections K (fst (Uho.obj_det_callback msg n)).
Proof.
  intros [<- Hall]. unfold enough_detections.
  unfold Uho.obj_det_callback, bind, get, ret, lift, Uho.on_buffer.
  destruct (Z.ltb_spec (num_detections msg) (Uho._topk n)) as [Hlt|Hge]; [done|].
  assert (Forall (fun d => Uho._topk n <= num_detections d)
            (Uho.obj_dets (Uho._input_buffer n) ++ [msg])) as Hall'.
  { apply Forall_app. split; [done|]. by repeat constructor. }
  cbn.
  repeat (case_match; cbn in *; simplify_eq); try done.
  split; [done|]. by apply popleft_while_Forall.
Qed.

Lemma image_callback_enough (K : Z) (msg : Image) (n : Uho.UHOActivityDetector) :
  enough_detections K n -> enough_detections K (fst (Uho.image_callback msg n)).
Proof. intros [<- Hall]. by split. Qed.

Lemma hand_callback_enough (K : Z) (msg : HandJointPosesUpdate)
    (n : Uho.UHOActivityDetector) :
  enough_detections K n -> enough_detections K (fst (Uho.hand_callback msg n)).
Proof.
  intros [<- Hall].
  unfold Uho.hand_callback, Uho.on_buffer, Uho.queue_hand_pose.
  repeat case_match; by split.
Qed.

Lemma spin_enough (K : Z) (msgs : list Uho.Message) :
  forall n, enough_detections K n -> enough_detections K (fst (Uho.spin msgs n)).
Proof.
  induction msgs as [|m msgs IH]; intros n Hn; simpl; [done|].
  unfold bind.
  assert (enough_detections K (fst (Uho.deliver m n))) as Hm.
  { destruct m; simpl;
      [by apply image_callback_enough | by apply hand_callback_enough
      | by apply obj_det_callback_enough]. }
  destruct (Uho.deliver m n) as [n' [[]|e]]; simpl in *; [by apply IH | done].
Qed.

(** C10: a detection set message with fewer than [top_k] detections makes
    [obj_det_callback] return at once: nothing is raised and the node, its
    buffer included, is left as it was.  Hence, whatever messages the
    three callbacks are fed from a buffer without such detection sets (the
    empty one in particular), no such message is ever queued, and every
    detection found in a slot of a window extracted afterwards carries at
    least [top_k] detections. *)
Theorem obj_det_callback_skips_below_topk
    (n0 : Uho.UHOActivityDetector) (msgs : list Uho.Message) :
  Forall (fun d => Uho._topk n0 <= num_detections d)
         (Uho.obj_dets (Uho._input_buffer n0)) ->
  (forall n msg,
     num_detections msg < Uho._topk n ->
     Uho.obj_det_callback msg n = (n, Return tt)) /\
  let n := fst (Uho.spin msgs n0) in
  Uho._topk n = Uho._topk n0 /\
  (forall d, d ∈ Uho.obj_dets (Uho._input_buffer n) ->
             Uho._topk n0 <= num_detections d) /\
  (forall size w i d,
     Uho.get_window size (Uho._input_buffer n) = (Uho._input_buffer n, Return w) ->
     Uho.w_obj_dets w !! i = Some (Some d) ->
     Uho._topk n0 <= num_detections d).
Proof.
  intros H0. split.
  { intros n msg Hlt. unfold Uho.obj_det_callback, bind, get.
    destruct (Z.ltb_spec (num_detections msg) (Uho._topk n)) as [_|?]; [done|lia]. }
  intros n.
  destruct (spin_enough (Uho._topk n0) msgs n0) as [HK Hall]; [by split|].
  fold n in HK, Hall. split_and!.
  - exact HK.
  - by apply Forall_forall.
  - intros size w i d Hw Hi.
    destruct (get_window_obj_dets_sound _ _ _ Hw i d Hi) as [Hin _].
    by apply (proj1 (Forall_forall _ _) Hall).
Qed.

Lemma obj_det_callback_skips_below_topk_witness :
  let n0 := Uho.mkNode 32 5 (Uho.new_buffer 0) in
  let few := mkDets (mkTime 0 1) (mkTime 0 1) 4 [] in
  Uho.obj_det_callback few n0 = (n0, Return tt) /\
  Uho.obj_dets (Uho._input_buffer
    (fst (Uho.spin [Uho.MsgImage (mkImage (mkTime 0 1) []); Uho.MsgDets few] n0))) = [].
Proof.
  intros n0 few.
  destruct (obj_det_callback_skips_below_topk n0
              [Uho.MsgImage (mkImage (mkTime 0 1) []); Uho.MsgDets few])
    as (Hskip & _); [constructor|].
  split; [apply Hskip; simpl; lia | reflexivity].
Defined.

(** ** The progress criterion of the runtime loop *)

Section RuntimeLoop.
Context `{Tcn.Classifier}.

(** What an iteration leaves in [_window_processed_time_ns]. *)
Lemma rt_handle_processed (w : Tcn.InputWindow) (t : option Z) (n n' : Tcn.Node) :
  Tcn.rt_handle w t n = (n', Return tt) ->
  Tcn._window_processed_time_ns n' =
    if Tcn.window_accepted n w then t else Tcn._window_processed_time_ns n.
Proof.
  unfold Tcn.rt_handle, Tcn.window_accepted, bind, get, lift, try_except, modify, ret.
  destruct (forallb _ _) eqn:Hacc;
    unfold Tcn.on_buffer, Tcn.on_memo, Tcn.publish, Tcn.latest_time, modify; cbn;
    repeat (case_match; cbn in *; simplify_eq); try done;
    intros; simplify_eq; done.
Qed.

Lemma rt_handle_extracted (w : Tcn.InputWindow) (t : option Z) (n : Tcn.Node) :
  Tcn._window_extracted_time_ns (fst (Tcn.rt_handle w t n))
  = Tcn._window_extracted_time_ns n.
Proof.
  unfold Tcn.rt_handle, Tcn.window_accepted, bind, get, lift, try_except, modify, ret.
  destruct (forallb _ _) eqn:Hacc;
    unfold Tcn.on_buffer, Tcn.on_memo, Tcn.publish, Tcn.latest_time, modify; cbn;
    repeat (case_match; cbn in *; simplify_eq); done.
Qed.

(** The processing branch of [rt_loop], step by step. *)
Lemma rt_handle_accepted (w : Tcn.InputWindow) (t : option Z) (n : Tcn.Node) :
  Tcn.window_accepted n w = true ->
  Tcn.rt_handle w t n =
    match py_index (Tcn.frames w) 1 with
    | Raise e => (n, Raise e)
    | Return second_frame =>
        let n1 := Tcn.set_buffer
                    (fst (Tcn.clear_before (Tcn.frame_time_ns second_frame)
                            (Tcn._buffer n))) n in
        let r := Tcn._process_window w (Tcn.memo n) in
        match snd r with
        | Return act_msg =>
            (Tcn.set_window_processed_time_ns t
               (fst (Tcn.publish act_msg (Tcn.set_memo (fst r) n1))), Return tt)
        | Raise e =>
            if decide (e = NoActivityClassification)
            then (Tcn.set_window_processed_time_ns t (Tcn.set_memo (fst r) n1),
                  Return tt)
            else (Tcn.set_memo (fst r) n1, Raise e)
        end
    end.
Proof.
  intros Hacc. unfold Tcn.rt_handle, bind, get, lift.
  unfold Tcn.window_accepted in Hacc. rewrite Hacc.
  destruct (py_index (Tcn.frames w) 1) as [f1|e]; [|done].
  unfold try_except, Tcn.on_buffer, Tcn.on_memo, modify, ret. cbn.
  destruct (Tcn._process_window w (Tcn.memo n)) as [m' [msg|e]]; cbn; [done|].
  by destruct (decide (e = NoActivityClassification)).
Qed.

(** C1 (amended): on a window with at least one frame, the progress
    criterion accepts exactly when no window is on record, or the timestamp
    of the last (most recent) frame of the window is strictly greater than
    the recorded one; equal and smaller timestamps are refused.  The record
    is empty on a fresh node (so the first window passes).  An iteration of
    the runtime loop that returns sets the record to the trailing timestamp
    of its window when the window passed all criteria, and leaves it alone
    otherwise; it sets it whether [_process_window] returned a
    classification, which is then published, or ended in
    [NoActivityClassification], where nothing is published. *)
Theorem new_leading_frame_criterion (n : Tcn.Node) (window : Tcn.InputWindow) :
  Tcn.frames window <> [] ->
  let window_time_ns := Tcn.frame_time_ns <$> last (Tcn.frames window) in
  (Tcn._window_criterion_new_leading_frame n window = true <->
   Tcn._window_processed_time_ns n = None \/
   exists prev f,
     Tcn._window_processed_time_ns n = Some prev /\
     last (Tcn.frames window) = Some f /\
     prev < Tcn.frame_time_ns f) /\
  (forall ws D lead coco,
     Tcn._window_processed_time_ns (Tcn.new_node ws D lead coco) = None) /\
  (forall n',
     Tcn.rt_handle window window_time_ns n = (n', Return tt) ->
     Tcn._window_processed_time_ns n' =
       if Tcn.window_accepted n window
       then window_time_ns
       else Tcn._window_processed_time_ns n) /\
  (forall n',
     Tcn.rt_handle window window_time_ns n = (n', Return tt) ->
     Tcn.window_accepted n window = true ->
     (exists act_msg,
        snd (Tcn._process_window window (Tcn.memo n)) = Return act_msg /\
        Tcn.published n' = Tcn.published n ++ [act_msg]) \/
     (snd (Tcn._process_window window (Tcn.memo n)) = Raise NoActivityClassification /\
      Tcn.published n' = Tcn.published n)).
Proof.
  intros Hne window_time_ns. split_and!.
  - unfold Tcn._window_criterion_new_leading_frame, Tcn.window_len.
    destruct (Z.eqb_spec (Z.of_nat (length (Tcn.frames window))) 0) as [H0|_].
    { destruct (Tcn.frames window); [done | simpl in H0; lia]. }
    destruct (last (Tcn.frames window)) as [f|] eqn:Hl.
    2:{ apply last_None in Hl. done. }
    destruct (Tcn._window_processed_time_ns n) as [prev|].
    + destruct (Z.ltb_spec prev (Tcn.frame_time_ns f)) as [Hlt|Hge]; simpl.
      * split; [intros _|done]. right. by exists prev, f.
      * split; [done|]. intros [[=] | (p & g & [= <-] & [= <-] & Hlt)]. lia.
    + split; [intros _; by left | done].
  - done.
  - intros n'. apply rt_handle_processed.
  - intros n' Hrun Hacc. rewrite rt_handle_accepted in Hrun by done.
    destruct (py_index (Tcn.frames window) 1) as [f1|e]; [|done].
    cbn zeta in Hrun.
    destruct (Tcn._process_window window (Tcn.memo n)) as [m' [act_msg|e]];
      cbn [fst snd] in *.
    + injection Hrun as <-. left. by exists act_msg.
    + destruct (decide (e = NoActivityClassification)) as [->|]; [|done].
      injection Hrun as <-. by right.
Qed.

End RuntimeLoop.

Lemma new_leading_frame_criterion_witness :
  let window :=
    Tcn.mkWindow [(mkTime 0 23, None, 0); (mkTime 0 24, None, 1)]
                 [None; None] [None; None] in
  let fresh := Tcn.new_node 2 15000000000 false false in
  let n := Tcn.set_window_processed_time_ns (Some 24) fresh in
  Tcn._window_criterion_new_leading_frame fresh window = true /\
  Tcn._window_criterion_new_leading_frame n window = false.
Proof.
  intros window fresh n. split.
  - apply (new_leading_frame_criterion (H := Tcn.example_classifier) fresh window);
      [discriminate | by left].
  - destruct (Tcn._window_criterion_new_leading_frame n window) eqn:E; [|done].
    apply (new_leading_frame_criterion (H := Tcn.example_classifier) n window) in E;
      [|discriminate].
    destruct E as [E | (prev & f & E1 & E2 & Hlt)]; [discriminate E|].
    injection E1 as <-. injection E2 as <-. vm_compute in Hlt. discriminate Hlt.
Defined.

(** C1, as the claim states it, fails: a fresh node processes a window
    ending at 10 and publishes its classification.  The next window, ending
    at 24, passes all criteria, and [_process_window] ends in
    [NoActivityClassification] (none of its frames carries a detection):
    nothing is published, but the iteration records 24.  The last window
    processed successfully is still the one ending at 10, and the
    criterion now refuses the window ending at 24. *)
Lemma criterion_refuses_after_no_classification :
  let d n := Some (mkDets (mkTime 0 n) (mkTime 0 n) 1 []) in
  let fr n := (mkTime 0 n, None, n) : Tcn.Frame in
  let w1 := Tcn.mkWindow [fr 9; fr 10] [d 9; d 10] [None; None] in
  let w2 := Tcn.mkWindow [fr 23; fr 24] [None; None] [None; None] in
  let fresh := Tcn.new_node 2 15000000000 false false in
  let r1 := Tcn.rt_handle (H := Tcn.example_classifier) w1 (Some 10) fresh in
  let r2 := Tcn.rt_handle (H := Tcn.example_classifier) w2 (Some 24) (fst r1) in
  snd r1 = Return tt /\
  Tcn.source_stamp_end_frame <$> Tcn.published (fst r1) = [mkTime 0 10] /\
  Tcn.window_accepted (fst r1) w2 = true /\
  snd (Tcn._process_window (H := Tcn.example_classifier) w2 (Tcn.memo (fst r1)))
    = Raise NoActivityClassification /\
  snd r2 = Return tt /\
  Tcn.published (fst r2) = Tcn.published (fst r1) /\
  Tcn._window_processed_time_ns (fst r2) = Some 24 /\
  time_to_int (mkTime 0 10) < Tcn.frame_time_ns (fr 24) /\
  Tcn._window_criterion_new_leading_frame (fst r2) w2 = false.
Proof. vm_compute. by split_and!. Qed.

(** ** Buffer retention after an iteration of the runtime loop *)

Section RetentionBound.
Context `{Tcn.Classifier}.

Lemma set_buffer_same (n : Tcn.Node) : Tcn.set_buffer (Tcn._buffer n) n = n.
Proof. by destruct n. Qed.

Lemma rt_extract_node (n n1 : Tcn.Node) r :
  Tcn.rt_extract n = (n1, r) -> n1 = n.
Proof.
  unfold Tcn.rt_extract, bind, get, ret, Tcn.on_buffer, Tcn.get_window. cbn.
  rewrite set_buffer_same. destruct (islice_tail _ _); by intros [= <- _].
Qed.

Lemma window_accepted_extracted (n : Tcn.Node) (w : Tcn.InputWindow) t :
  Tcn.window_accepted (Tcn.set_window_extracted_time_ns t n) w
  = Tcn.window_accepted n w.
Proof. reflexivity. Qed.

Lemma rt_handle_rejected (n : Tcn.Node) (w : Tcn.InputWindow) (t : option Z) :
  Tcn.window_accepted n w = false ->
  Tcn.rt_handle w t n = (Tcn.set_buffer (Tcn.evicted_to_bound n) n, Return tt).
Proof.
  intros Hrej. unfold Tcn.rt_handle, bind, get.
  unfold Tcn.window_accepted in Hrej. rewrite Hrej.
  unfold try_except, Tcn.on_buffer, Tcn.latest_time, Tcn.evicted_to_bound. cbn.
  destruct (last (Tcn.b_frames (Tcn._buffer n))) as [f|]; cbn.
  - rewrite set_buffer_same. reflexivity.
  - by rewrite set_buffer_same.
Qed.

Lemma rt_iteration_rejected (n : Tcn.Node) (w : Tcn.InputWindow) (t : option Z) :
  Tcn.rt_extract n = (n, Return (w, t)) ->
  Tcn.window_accepted n w = false ->
  Tcn.rt_iteration n =
    (Tcn.set_buffer (Tcn.evicted_to_bound n)
       (Tcn.set_window_extracted_time_ns t n),
     Return tt).
Proof.
  intros Hx Hrej. unfold Tcn.rt_iteration, bind. rewrite Hx.
  unfold Tcn.rt_record, modify. cbn [fst snd].
  rewrite rt_handle_rejected by (by rewrite window_accepted_extracted).
  reflexivity.
Qed.

(** C5 (amended): after every iteration of the runtime loop whose
    extracted window is rejected by the criteria, the iteration returns
    and, whenever a frame remains buffered, the frame at the head of the
    frame deque is no older than the latest buffered frame minus the
    configured maximum buffer size; on a frame deque in ascending
    timestamp order the same holds for every frame that remains. *)
Theorem rejected_iteration_bounds_retention
    (n n1 n' : Tcn.Node) (window : Tcn.InputWindow) (t : option Z)
    (o : outcome unit) :
  Tcn.rt_extract n = (n1, Return (window, t)) ->
  Tcn.window_accepted n1 window = false ->
  Tcn.rt_iteration n = (n', o) ->
  let D := Tcn._buffer_max_size_nsec n in
  let remaining := Tcn.b_frames (Tcn._buffer n') in
  o = Return tt /\
  (forall oldest latest,
     head remaining = Some oldest -> last remaining = Some latest ->
     Tcn.frame_time_ns latest - D <= Tcn.frame_time_ns oldest) /\
  (ascending Tcn.frame_time_ns (Tcn.b_frames (Tcn._buffer n)) ->
   forall f latest,
     f ∈ remaining -> last remaining = Some latest ->
     Tcn.frame_time_ns latest - D <= Tcn.frame_time_ns f).
Proof.
  intros Hx Hrej Hit D remaining.
  pose proof (rt_extract_node _ _ _ Hx) as ->.
  rewrite (rt_iteration_rejected _ _ _ Hx Hrej) in Hit.
  injection Hit as <- <-. subst remaining. cbn [Tcn._buffer Tcn.set_buffer].
  split; [done|].
  unfold Tcn.evicted_to_bound.
  destruct (last (Tcn.b_frames (Tcn._buffer n))) as [fl|] eqn:Hl.
  2:{ apply last_None in Hl. rewrite Hl. split; [done|].
      intros _ f latest Hf. by apply elem_of_nil in Hf. }
  cbn [fst Tcn.clear_before modify Tcn.b_frames].
  set (bound := Tcn.frame_time_ns fl - Tcn._buffer_max_size_nsec n).
  assert (Hlatest : forall latest,
    last (popleft_while Tcn.frame_time_ns bound (Tcn.b_frames (Tcn._buffer n)))
      = Some latest -> latest = fl).
  { intros latest Hlast. apply popleft_while_last in Hlast. congruence. }
  split.
  - intros oldest latest Hhd Hlast. rewrite (Hlatest _ Hlast).
    destruct (popleft_while_popped_prefix Tcn.frame_time_ns bound
                (Tcn.b_frames (Tcn._buffer n))) as (_ & _ & _ & Hhead).
    by apply Hhead.
  - intros Hasc f latest Hf Hlast. rewrite (Hlatest _ Hlast).
    rewrite (popleft_while_ascending _ _ _ Hasc) in Hf.
    by apply list_elem_of_filter in Hf as [Hb _].
Qed.

End RetentionBound.

Lemma rejected_iteration_bounds_retention_witness :
  let n := fst ((Tcn.push_frame (mkTime 0 0) ;;; Tcn.push_frame (mkTime 20 0) ;;;
                 Tcn.push_frame (mkTime 40 0))%py
                (Tcn.new_node 5 15000000000 false false)) in
  snd (Tcn.rt_iteration (H := Tcn.example_classifier) n) = Return tt /\
  Tcn.frame_time_ns (mkTime 40 0, None, 2) - 15000000000
  <= Tcn.frame_time_ns (mkTime 40 0, None, 2).
Proof.
  intros n.
  edestruct (rejected_iteration_bounds_retention (H := Tcn.example_classifier) n)
    as (Ho & Hhead & _).
  - vm_compute. reflexivity.
  - vm_compute. reflexivity.
  - apply surjective_pairing.
  - split; [exact Ho|]. apply Hhead; vm_compute; reflexivity.
Defined.

(** C5, as the claim states it, fails on a processed window: with a window
    of 3 frames, a maximum buffer size of 15 s and frames stamped 0 s, 20 s
    and 40 s, the window passes the criteria, the buffer is cleared before
    the second frame of the window only, and the frame stamped 20 s stays
    although it is more than 15 s older than the latest frame. *)
Lemma processed_iteration_exceeds_retention :
  let n := fst ((Tcn.push_frame (mkTime 0 0) ;;; Tcn.push_frame (mkTime 20 0) ;;;
                 Tcn.push_frame (mkTime 40 0))%py
                (Tcn.new_node 3 15000000000 false false)) in
  let r := Tcn.rt_iteration (H := Tcn.example_classifier) n in
  let oldest := (mkTime 20 0, None, 1) in
  let latest := (mkTime 40 0, None, 2) in
  snd r = Return tt /\
  length (Tcn.published (fst r)) = 1%nat /\
  head (Tcn.b_frames (Tcn._buffer (fst r))) = Some oldest /\
  last (Tcn.b_frames (Tcn._buffer (fst r))) = Some latest /\
  Tcn.frame_time_ns oldest < Tcn.frame_time_ns latest - Tcn._buffer_max_size_nsec n.
Proof. vm_compute. by split_and!. Qed.

(** ** Memoisation in [_process_window] *)

Section Memo.
Context `{Tcn.Classifier}.
Variable k : Z.
Local Arguments Tcn.occurrences : simpl never.

Lemma occurrences_snoc (log : list Z) (x : Z) :
  Tcn.occurrences k (log ++ [x]) =
  (Tcn.occurrences k log + if decide (x = k) then 1 else 0)%nat.
Proof.
  unfold Tcn.occurrences. rewrite filter_app, length_app. f_equal.
  rewrite filter_cons. by destruct (decide (x = k)).
Qed.

(** Storing a freshly built artifact under a key the dictionary does not
    hold keeps the count of the log at one at most. *)
Lemma store_fresh {V} (log : list Z) (memo : gmap Z V) (x : Z) (v : V) :
  (Tcn.occurrences k log <= 1)%nat ->
  (Tcn.occurrences k log = 1%nat -> is_Some (memo !! k)) ->
  memo !! x = None ->
  (Tcn.occurrences k (log ++ [x]) <= 1)%nat /\
  (Tcn.occurrences k (log ++ [x]) = 1%nat -> is_Some (<[x := v]> memo !! k)).
Proof.
  intros H1 H2 Hx. rewrite occurrences_snoc.
  destruct (decide (x = k)) as [->|Hk].
  - assert (Tcn.occurrences k log = 0%nat) as H0.
    { destruct (Tcn.occurrences k log) as [|[|c]] eqn:E; [done| |lia].
      destruct (H2 eq_refl) as [v' Hv]. congruence. }
    rewrite H0. split; [done|]. intros _. rewrite lookup_insert_eq. eauto.
  - rewrite Nat.add_0_r. split; [done|].
    intros Hc. rewrite lookup_insert_ne by done. by apply H2.
Qed.

(** The loop over the detections: an artifact is built for a key only when
    the dictionary does not hold it. *)
Lemma preproc_dets_inv (dets : list (option ObjectDetection2dSet)) :
  forall i acc m,
    let m' := fst (Tcn.preproc_dets i dets acc m) in
    (Tcn.memo_inv k m -> Tcn.memo_inv k m') /\
    (Tcn.memo_poses_inv k m -> Tcn.memo_poses_inv k m') /\
    (is_Some (Tcn._memo_preproc_input m !! k) ->
     is_Some (Tcn._memo_preproc_input m' !! k) /\
     Tcn.occurrences k (Tcn.preproc_log m') = Tcn.occurrences k (Tcn.preproc_log m)) /\
    Tcn.feats_log m' = Tcn.feats_log m.
Proof.
  induction dets as [|[d|] dets IH]; intros i acc m; cbn [Tcn.preproc_dets].
  - done.
  - unfold bind, get. cbn.
    destruct (Tcn._memo_preproc_input m !! time_to_int (source_stamp d))
      as [v|] eqn:Hlk; cbn.
    + unfold lift. destruct (Tcn.assign acc i (Some v)); cbn; [by apply IH|done].
    + set (m1 := Tcn.store_preproc_input _ _ m).
      assert ((Tcn.memo_inv k m -> Tcn.memo_inv k m1) /\
              (Tcn.memo_poses_inv k m -> Tcn.memo_poses_inv k m1) /\
              (is_Some (Tcn._memo_preproc_input m !! k) ->
               is_Some (Tcn._memo_preproc_input m1 !! k) /\
               Tcn.occurrences k (Tcn.preproc_log m1)
               = Tcn.occurrences k (Tcn.preproc_log m)) /\
              Tcn.feats_log m1 = Tcn.feats_log m) as (Ha & Hb & Hc & Hd).
      { split_and!; [| done | | done].
        - intros [H1 H2]. by apply store_fresh.
        - intros Hs. unfold m1. cbn. rewrite occurrences_snoc.
          destruct (decide (time_to_int (source_stamp d) = k)) as [Hk|Hk].
          + rewrite <- Hk, Hlk in Hs. by destruct Hs.
          + rewrite lookup_insert_ne by done. split; [done|lia]. }
      unfold lift. destruct (Tcn.assign acc i _) as [acc'|e]; cbn; [|done].
      destruct (IH (S i) acc' m1) as (Ia & Ib & Ic & Id). split_and!.
      * auto.
      * auto.
      * intros Hs. destruct (Hc Hs) as [Hs1 He1]. destruct (Ic Hs1) as [Hs2 He2].
        split; [done|congruence].
      * congruence.
  - by apply IH.
Qed.

Lemma preproc_poses_inv (poses : list (option Tcn.PoseUpdate)) :
  forall i acc m,
    let m' := fst (Tcn.preproc_poses i poses acc m) in
    (Tcn.memo_poses_inv k m -> Tcn.memo_poses_inv k m') /\
    Tcn._memo_preproc_input m' = Tcn._memo_preproc_input m /\
    Tcn.preproc_log m' = Tcn.preproc_log m /\
    Tcn.feats_log m' = Tcn.feats_log m.
Proof.
  induction poses as [|[p|] poses IH]; intros i acc m; cbn [Tcn.preproc_poses].
  - done.
  - unfold bind, get. cbn.
    destruct (Tcn._memo_preproc_input_poses m !! time_to_int (Tcn.pose_source_stamp p))
      as [v|] eqn:Hlk; cbn.
    + unfold lift. destruct (Tcn.assign acc i (Some v)); cbn; [by apply IH|done].
    + destruct (Tcn.patient_poses _ 0 (Tcn.joints p)) as [v|e]; cbn; [|done].
      set (m1 := Tcn.store_preproc_input_poses _ _ m).
      assert (Tcn.memo_poses_inv k m -> Tcn.memo_poses_inv k m1) as Ha.
      { intros (H1 & H2 & H3 & H4). unfold Tcn.memo_poses_inv, m1. cbn.
        destruct (store_fresh _ _ _ v H1 H2 Hlk). by split_and!. }
      destruct (Tcn.assign acc i _) as [acc'|e]; cbn; [|done].
      destruct (IH (S i) acc' m1) as (Ia & Ib & Ic & Id).
      split_and!; [auto | by rewrite Ib | by rewrite Ic | by rewrite Id].
  - by apply IH.
Qed.

(** The clean-up loop deletes no key beyond its bound. *)
Lemma expire_lookup {V} (t : Z) (h : list Z) :
  forall (memo : gmap Z V),
    t < k -> (Tcn.expire t h memo).1.2 !! k = memo !! k.
Proof.
  induction h as [|x h IH]; intros memo Ht; simpl; [done|].
  destruct (Z.leb_spec x t) as [Hle|Hgt]; [|done].
  destruct (memo !! x) eqn:Hx; [|done].
  rewrite IH by done. apply lookup_delete_ne. lia.
Qed.

Lemma py_index_head {A} (l : list A) (x : A) :
  py_index l 0 = Return x -> head l = Some x.
Proof.
  unfold py_index. cbn. destruct l as [|y l]; cbn; [done|].
  destruct (Z.leb_spec (Z.pos (Pos.of_succ_nat (length l))) 0); cbn; [done|].
  by intros [= ->].
Qed.

Lemma process_window_inv (window : Tcn.InputWindow) (m : Tcn.Memo) :
  let m' := fst (Tcn._process_window window m) in
  ((forall f, head (Tcn.frames window) = Some f -> Tcn.frame_time_ns f < k) ->
   Tcn.memo_inv k m -> Tcn.memo_inv k m') /\
  (Tcn.memo_poses_inv k m -> Tcn.memo_poses_inv k m') /\
  (is_Some (Tcn._memo_preproc_input m !! k) ->
   Tcn.occurrences k (Tcn.preproc_log m') = Tcn.occurrences k (Tcn.preproc_log m)).
Proof.
  unfold Tcn._process_window, bind.
  destruct (preproc_dets_inv (Tcn.obj_dets window) 0
              (replicate (length (Tcn.frames window)) None) m) as (D1 & D2 & D3 & _).
  destruct (Tcn.preproc_dets _ _ _ m) as [m1 [fod|e]]; cbn [fst] in *.
  2:{ split_and!; [auto | auto | intros Hs; by destruct (D3 Hs)]. }
  destruct (preproc_poses_inv (Tcn.patient_joint_kps window) 0
              (replicate (length (Tcn.frames window)) None) m1) as (P1 & P2 & P3 & _).
  destruct (Tcn.preproc_poses _ _ _ m1) as [m2 [fpp|e]]; cbn [fst] in *.
  2:{ split_and!.
      - intros _ Hm. destruct (D1 Hm) as [E1 E2]. unfold Tcn.memo_inv.
        by rewrite P2, P3.
      - auto.
      - intros Hs. destruct (D3 Hs) as [_ <-]. by rewrite P3. }
  assert (Hdets : Tcn.memo_inv k m -> Tcn.memo_inv k m2).
  { intros Hm. destruct (D1 Hm) as [E1 E2]. unfold Tcn.memo_inv. by rewrite P2, P3. }
  assert (Hlog : is_Some (Tcn._memo_preproc_input m !! k) ->
                 Tcn.occurrences k (Tcn.preproc_log m2)
                 = Tcn.occurrences k (Tcn.preproc_log m)).
  { intros Hs. destruct (D3 Hs) as [_ <-]. by rewrite P3. }
  cbn [modify].
  destruct (Tcn.objects_to_feats fod fpp) as [feats|]; [|by split_and!; auto].
  unfold lift.
  destruct (py_index (Tcn.frames window) 0) as [f0|e] eqn:E0; [|by split_and!; auto].
  destruct (py_index (Tcn.frames window) (-1)) as [fl|e] eqn:El; [|by split_and!; auto].
  unfold Tcn.expire_preproc_input, Tcn.expire_objects_to_feats. cbn.
  assert (Hposes : Tcn.memo_poses_inv k m ->
    Tcn._memo_objects_to_feats m2 = ∅ /\ Tcn._memo_objects_to_feats_id_heap m2 = []).
  { intros Hm. by destruct (P1 (D2 Hm)) as (_ & _ & ? & ?). }
  assert (Hinv : forall mm,
     Tcn.preproc_log mm = Tcn.preproc_log m2 ->
     Tcn.preproc_poses_log mm = Tcn.preproc_poses_log m2 ->
     Tcn._memo_preproc_input_poses mm = Tcn._memo_preproc_input_poses m2 ->
     Tcn._memo_preproc_input mm
       = (Tcn.expire (Tcn.frame_time_ns f0) (Tcn._memo_preproc_input_id_heap m2)
            (Tcn._memo_preproc_input m2)).1.2 ->
     (Tcn.memo_poses_inv k m -> Tcn._memo_objects_to_feats mm = ∅ /\
                               Tcn._memo_objects_to_feats_id_heap mm = []) ->
     ((forall f, head (Tcn.frames window) = Some f -> Tcn.frame_time_ns f < k) ->
      Tcn.memo_inv k m -> Tcn.memo_inv k mm) /\
     (Tcn.memo_poses_inv k m -> Tcn.memo_poses_inv k mm) /\
     (is_Some (Tcn._memo_preproc_input m !! k) ->
      Tcn.occurrences k (Tcn.preproc_log mm) = Tcn.occurrences k (Tcn.preproc_log m))).
  { intros mm L1 L2 L3 L4 L5. split_and!.
    - intros Hstart Hm. destruct (Hdets Hm) as [E1 E2]. unfold Tcn.memo_inv.
      rewrite L1, L4. split; [done|]. intros Hc.
      rewrite expire_lookup by (apply Hstart; by apply py_index_head). by apply E2.
    - intros Hm. destruct (P1 (D2 Hm)) as (Q1 & Q2 & _). destruct (L5 Hm) as [Q3 Q4].
      unfold Tcn.memo_poses_inv. rewrite L2, L3. by split_and!.
    - intros Hs. rewrite L1. by apply Hlog. }
  destruct (Tcn.expire _ _ _) as [[h4 d4] [[]|e]] eqn:E4; cbn.
  2:{ by apply (Hinv (Tcn.set_preproc_input d4 h4
                        (Tcn.log_feats (Tcn.present_ids fod) m2))). }
  destruct (Tcn.expire_feats _ _ _ _) as [[[h5 d5] q5] o5] eqn:E5; cbn.
  assert (Tcn.memo_poses_inv k m -> d5 = ∅ /\ h5 = []) as Hfe.
  { intros Hm. destruct (Hposes Hm) as [Q3 Q4]. rewrite Q3, Q4 in E5.
    cbn in E5. by injection E5 as <- <- _ _. }
  destruct o5 as [[]|e]; cbn;
    by apply (Hinv (Tcn.set_objects_to_feats d5 h5 q5
                      (Tcn.set_preproc_input d4 h4
                         (Tcn.log_feats (Tcn.present_ids fod) m2)))).
Qed.

Lemma process_windows_inv (windows : list Tcn.InputWindow) :
  forall m,
    let m' := Tcn.process_windows windows m in
    ((forall w f, w ∈ windows -> head (Tcn.frames w) = Some f ->
                  Tcn.frame_time_ns f < k) ->
     Tcn.memo_inv k m -> Tcn.memo_inv k m') /\
    (Tcn.memo_poses_inv k m -> Tcn.memo_poses_inv k m').
Proof.
  induction windows as [|w ws IH]; intros m; [done|].
  cbn. destruct (process_window_inv w m) as (W1 & W2 & _).
  destruct (IH (fst (Tcn._process_window w m))) as [I1 I2]. split.
  - intros Hstart Hm. apply I1.
    + intros w' f Hw'. apply Hstart. by apply elem_of_cons; right.
    + apply W1; [|done]. intros f. apply Hstart. apply elem_of_cons. by left.
  - auto.
Qed.

(** A window without a detection keyed [k] builds nothing for [k]. *)
Lemma preproc_dets_log_absent (dets : list (option ObjectDetection2dSet)) :
  (forall d, Some d ∈ dets -> time_to_int (source_stamp d) <> k) ->
  forall i acc m,
    Tcn.occurrences k (Tcn.preproc_log (fst (Tcn.preproc_dets i dets acc m)))
    = Tcn.occurrences k (Tcn.preproc_log m).
Proof.
  induction dets as [|[d|] dets IH]; intros Hno i acc m; cbn [Tcn.preproc_dets].
  - done.
  - assert (forall d', Some d' ∈ dets -> time_to_int (source_stamp d') <> k) as Hno'.
    { intros d' Hd'. apply Hno. by apply elem_of_cons; right. }
    unfold bind, get. cbn.
    destruct (Tcn._memo_preproc_input m !! time_to_int (source_stamp d))
      as [v|] eqn:Hlk; cbn.
    + unfold lift. destruct (Tcn.assign acc i (Some v)); cbn; [by apply IH|done].
    + unfold lift. destruct (Tcn.assign acc i _) as [acc'|e]; cbn.
      * rewrite IH by done. cbn. rewrite occurrences_snoc.
        destruct (decide (time_to_int (source_stamp d) = k)) as [Hk|_]; [|lia].
        exfalso. apply (Hno d); [apply elem_of_cons; by left|done].
      * rewrite occurrences_snoc.
        destruct (decide (time_to_int (source_stamp d) = k)) as [Hk|_]; [|lia].
        exfalso. apply (Hno d); [apply elem_of_cons; by left|done].
  - apply IH. intros d' Hd'. apply Hno. by apply elem_of_cons; right.
Qed.

(** Only the loop over the detections writes to the log of the detection
    structures. *)
Lemma process_window_preproc_log (window : Tcn.InputWindow) (m : Tcn.Memo) :
  Tcn.preproc_log (fst (Tcn._process_window window m))
  = Tcn.preproc_log
      (fst (Tcn.preproc_dets 0 (Tcn.obj_dets window)
              (replicate (length (Tcn.frames window)) None) m)).
Proof.
  unfold Tcn._process_window, bind.
  destruct (Tcn.preproc_dets _ _ _ m) as [m1 [fod|e]]; cbn [fst]; [|done].
  destruct (preproc_poses_inv (Tcn.patient_joint_kps window) 0
              (replicate (length (Tcn.frames window)) None) m1) as (_ & _ & P3 & _).
  destruct (Tcn.preproc_poses _ _ _ m1) as [m2 [fpp|e]]; cbn [fst] in *; [|done].
  cbn [modify].
  destruct (Tcn.objects_to_feats fod fpp) as [feats|]; [|done].
  unfold lift.
  destruct (py_index (Tcn.frames window) 0) as [f0|e]; [|done].
  destruct (py_index (Tcn.frames window) (-1)) as [fl|e]; [|done].
  unfold Tcn.expire_preproc_input, Tcn.expire_objects_to_feats. cbn.
  destruct (Tcn.expire _ _ _) as [[h4 d4] [[]|e]]; cbn; [|done].
  destruct (Tcn.expire_feats _ _ _ _) as [[[h5 d5] q5] [[]|e]]; cbn; done.
Qed.

Lemma process_windows_log_absent (windows : list Tcn.InputWindow) :
  (forall w d, w ∈ windows -> Some d ∈ Tcn.obj_dets w ->
               time_to_int (source_stamp d) <> k) ->
  forall m,
    Tcn.occurrences k (Tcn.preproc_log (Tcn.process_windows windows m))
    = Tcn.occurrences k (Tcn.preproc_log m).
Proof.
  induction windows as [|w ws IH]; intros Hno m; [done|].
  change (Tcn.process_windows (w :: ws) m)
    with (Tcn.process_windows ws (fst (Tcn._process_window w m))).
  rewrite IH.
  - rewrite process_window_preproc_log. apply preproc_dets_log_absent.
    intros d. apply Hno. apply elem_of_cons. by left.
  - intros w' d Hw'. apply Hno. by apply elem_of_cons; right.
Qed.

Lemma sliding_run_cons (w : Tcn.InputWindow) (ws : list Tcn.InputWindow) :
  Tcn.sliding_run (w :: ws) ->
  Tcn.sliding_run ws /\
  (forall wj first_frame d,
     wj ∈ ws -> head (Tcn.frames w) = Some first_frame ->
     Some d ∈ Tcn.obj_dets wj ->
     Tcn.frame_time_ns first_frame < time_to_int (source_stamp d)).
Proof.
  intros Hs. split.
  - intros l j wl wj f d Hlj Hl Hj. apply (Hs (S l) (S j) wl wj f d); [lia|done|done].
  - intros wj f d Hin Hf Hd. apply list_elem_of_lookup in Hin as [j Hj].
    apply (Hs 0%nat (S j) w wj f d); [lia|done|done|done|done].
Qed.

(** Over windows that slide forward the detection structure of [k] is
    built once at most: while a later window still carries [k] no window
    has evicted it, and after the last one nothing is built for it. *)
Lemma process_windows_sliding (windows : list Tcn.InputWindow) :
  forall m,
    Tcn.sliding_run windows -> Tcn.memo_inv k m ->
    (Tcn.occurrences k (Tcn.preproc_log (Tcn.process_windows windows m)) <= 1)%nat.
Proof.
  induction windows as [|w ws IH]; intros m Hs Hm; [by destruct Hm|].
  apply sliding_run_cons in Hs as [Hs Hw].
  change (Tcn.process_windows (w :: ws) m)
    with (Tcn.process_windows ws (fst (Tcn._process_window w m))).
  destruct (decide (Exists (fun wj : Tcn.InputWindow =>
              Exists (fun o : option ObjectDetection2dSet =>
                        (fun d => time_to_int (source_stamp d)) <$> o = Some k)
                     (Tcn.obj_dets wj)) ws)) as [Hlater|Hnone].
  - apply IH; [done|].
    apply (process_window_inv w m); [|done].
    intros f Hf. apply Exists_exists in Hlater as (wj & Hwj & Hd).
    apply Exists_exists in Hd as ([d|] & Hd & Hk); [|done].
    injection Hk as <-. by apply (Hw wj f d).
  - rewrite process_windows_log_absent.
    + rewrite process_window_preproc_log.
      by destruct (proj1 (preproc_dets_inv (Tcn.obj_dets w) 0
                            (replicate (length (Tcn.frames w)) None) m) Hm).
    + intros wj d Hwj Hd Hk. apply Hnone.
      apply Exists_exists. exists wj. split; [done|].
      apply Exists_exists. exists (Some d). split; [done|]. cbn. by rewrite Hk.
Qed.

End Memo.

Section MemoReuse.

Lemma assign_Return {A} (l : list A) (i : nat) (v : A) (l' : list A) :
  Tcn.assign l i v = Return l' -> (i < length l)%nat /\ l' = <[i := v]> l.
Proof. unfold Tcn.assign. case_decide; [|done]. by intros [= <-]. Qed.

(** The slots filled by the loop over the detections: a slot whose message
    key is stored when the loop starts receives the stored value. *)
Lemma preproc_dets_slots (dets : list (option ObjectDetection2dSet)) :
  forall i acc m m' fod,
    Tcn.preproc_dets i dets acc m = (m', Return fod) ->
    length fod = length acc /\
    (forall j, (j < i)%nat -> fod !! j = acc !! j) /\
    (forall j d v,
       dets !! j = Some (Some d) ->
       Tcn._memo_preproc_input m !! time_to_int (source_stamp d) = Some v ->
       fod !! (i + j)%nat = Some (Some v)).
Proof.
  induction dets as [|[d0|] dets IH]; intros i acc m m' fod; cbn [Tcn.preproc_dets].
  - intros [= <- <-]. split_and!; [done | done | intros j d v Hj; done].
  - unfold bind, get. cbn.
    set (k0 := time_to_int (source_stamp d0)).
    destruct (Tcn._memo_preproc_input m !! k0) as [v0|] eqn:Hlk; cbn.
    + unfold lift. destruct (Tcn.assign acc i (Some v0)) as [acc1|e] eqn:Ea; cbn; [|done].
      apply assign_Return in Ea as [Hi ->]. intros Hrun.
      destruct (IH _ _ _ _ _ Hrun) as (Hlen & Hbefore & Hslots).
      rewrite length_insert in Hlen. split_and!; [done | |].
      * intros j Hj. rewrite Hbefore by lia. apply list_lookup_insert_ne. lia.
      * intros [|j] d v Hd Hv.
        -- injection Hd as <-. fold k0 in Hv. rewrite Hlk in Hv. injection Hv as <-.
           rewrite Nat.add_0_r, Hbefore by lia. by apply list_lookup_insert_eq.
        -- replace (i + S j)%nat with (S i + j)%nat by lia. by eapply Hslots.
    + unfold lift.
      destruct (Tcn.assign acc i _) as [acc1|e] eqn:Ea; cbn; [|done].
      apply assign_Return in Ea as [Hi ->]. intros Hrun.
      destruct (IH _ _ _ _ _ Hrun) as (Hlen & Hbefore & Hslots).
      rewrite length_insert in Hlen. split_and!; [done | |].
      * intros j Hj. rewrite Hbefore by lia. apply list_lookup_insert_ne. lia.
      * intros [|j] d v Hd Hv.
        -- injection Hd as <-. fold k0 in Hv. congruence.
        -- replace (i + S j)%nat with (S i + j)%nat by lia.
           apply (Hslots j d v Hd). cbn.
           rewrite lookup_insert_ne; [done|]. intros Heq. fold k0 in Heq.
           rewrite <- Heq in Hv. congruence.
  - intros Hrun. destruct (IH _ _ _ _ _ Hrun) as (Hlen & Hbefore & Hslots).
    split_and!; [done | |].
    + intros j Hj. apply Hbefore. lia.
    + intros [|j] d v Hd Hv; [done|].
      replace (i + S j)%nat with (S i + j)%nat by lia. by eapply Hslots.
Qed.

End MemoReuse.

(** C7, as the claim states it, fails.  For the feature embeddings: two
    windows of 3 frames that share the frames stamped 2 and 3 are processed
    one after the other, each yielding a classification.  The detections of
    the shared frames are preprocessed once, but they are handed to the
    feature embedding with each window, and the embedding memo holds
    nothing after the first window that the second could reuse.  For the
    preprocessed detections: a window that is processed a second time
    finds the key of its first frame evicted and builds its structure
    again. *)
Lemma feature_embedding_not_memoised :
  let n0 := fst ((Tcn.push_frame (mkTime 0 1) ;;; Tcn.push_frame (mkTime 0 2) ;;;
                  Tcn.push_frame (mkTime 0 3))%py
                 (Tcn.new_node 3 15000000000 false false)) in
  let n1 := fst (Tcn.rt_iteration (H := Tcn.example_classifier) n0) in
  let n2 := fst (Tcn.rt_iteration (H := Tcn.example_classifier)
                   (fst (Tcn.push_frame (mkTime 0 4) n1))) in
  let d n := Some (mkDets (mkTime 0 n) (mkTime 0 n) 1 []) in
  let fr n := (mkTime 0 n, None, n) : Tcn.Frame in
  let w := Tcn.mkWindow [fr 1; fr 2] [d 1; d 2] [None; None] in
  length (Tcn.published n1) = 1%nat /\
  length (Tcn.published n2) = 2%nat /\
  Tcn._memo_objects_to_feats (Tcn.memo n1) !! 2 = None /\
  Tcn.preproc_log (Tcn.memo n2) = [1; 2; 3; 4] /\
  Tcn.feats_log (Tcn.memo n2) = [1; 2; 3; 2; 3; 4] /\
  Tcn.occurrences 2 (Tcn.feats_log (Tcn.memo n2)) = 2%nat /\
  Tcn.preproc_log
    (Tcn.process_windows (H := Tcn.example_classifier) [w; w] Tcn.new_memo)
  = [1; 2; 1].
Proof. vm_compute. by split_and!. Qed.

(** C7 (amended): [_process_window] builds the preprocessed structure of a
    detection or pose message only when its timestamp key is not stored in
    the memo, and stores it.  So over any run of processed windows from
    empty memos the pose structure of a key is built at most once, and the
    detection structure of a key is built at most once when the windows
    slide forward (the detections of a window lie after the first frame of
    every window processed before it) or all start before that key: keys
    at or before the first frame of a processed window are evicted.  While
    a detection key is stored, processing a window builds nothing for it
    and every slot of the window whose message carries that key receives
    the stored value.  The memo of the feature embeddings is never
    filled. *)
Theorem preproc_memo_builds_once `{Tcn.Classifier}
    (windows : list Tcn.InputWindow) (k : Z) :
  let m := Tcn.process_windows windows Tcn.new_memo in
  (Tcn.sliding_run windows ->
   (Tcn.occurrences k (Tcn.preproc_log m) <= 1)%nat) /\
  ((forall w f, w ∈ windows -> head (Tcn.frames w) = Some f ->
                Tcn.frame_time_ns f < k) ->
   (Tcn.occurrences k (Tcn.preproc_log m) <= 1)%nat) /\
  (Tcn.occurrences k (Tcn.preproc_poses_log m) <= 1)%nat /\
  (forall w m0,
     is_Some (Tcn._memo_preproc_input m0 !! k) ->
     Tcn.occurrences k (Tcn.preproc_log (fst (Tcn._process_window w m0)))
     = Tcn.occurrences k (Tcn.preproc_log m0)) /\
  (forall w m0 m' frame_object_detections v i d,
     Tcn._memo_preproc_input m0 !! k = Some v ->
     Tcn.preproc_dets 0 (Tcn.obj_dets w)
       (replicate (length (Tcn.frames w)) None) m0
       = (m', Return frame_object_detections) ->
     Tcn.obj_dets w !! i = Some (Some d) ->
     time_to_int (source_stamp d) = k ->
     frame_object_detections !! i = Some (Some v)) /\
  Tcn._memo_objects_to_feats m = ∅.
Proof.
  intros m.
  destruct (process_windows_inv k windows Tcn.new_memo) as [Hd Hp].
  destruct Hp as (P1 & _ & P3 & _); [by split_and!; cbn; try lia|].
  split_and!; [| | done | | | done].
  - intros Hs. apply process_windows_sliding; [done|]. by split; [cbn; lia|].
  - intros Hstart. destruct (Hd Hstart) as [D1 _]; [by split; [cbn; lia|]|]. done.
  - intros w m0 Hs. by apply (process_window_inv k w m0).
  - intros w m0 m' fod v i d Hv Hrun Hd' Hk.
    destruct (preproc_dets_slots _ _ _ _ _ _ Hrun) as (_ & _ & Hslots).
    apply (Hslots i d v Hd'). by rewrite Hk.
Qed.

Lemma preproc_memo_builds_once_witness :
  let d n := Some (mkDets (mkTime 0 n) (mkTime 0 n) 1 []) in
  let fr n := (mkTime 0 n, None, n) : Tcn.Frame in
  let w1 := Tcn.mkWindow [fr 1; fr 2; fr 3] [d 1; d 2; d 3] [None; None; None] in
  let w2 := Tcn.mkWindow [fr 2; fr 3; fr 4] [d 2; d 3; d 4] [None; None; None] in
  let w3 := Tcn.mkWindow [fr 3; fr 4; fr 5] [d 3; d 4; d 5] [None; None; None] in
  let m := Tcn.process_windows (H := Tcn.example_classifier) [w1; w2; w3]
             Tcn.new_memo in
  Tcn.preproc_log m = [1; 2; 3; 4; 5] /\
  (Tcn.occurrences 2 (Tcn.preproc_log m) <= 1)%nat.
Proof.
  intros d fr w1 w2 w3 m. split; [reflexivity|].
  apply (proj1 (preproc_memo_builds_once (H := Tcn.example_classifier)
                  [w1; w2; w3] 2)).
  intros l j wl wj f x Hlj Hl Hj Hf Hx.
  destruct j as [|[|[|j]]]; [lia | | |done];
    destruct l as [|[|l]]; try lia;
    injection Hl as <-; injection Hj as <-; injection Hf as <-;
    repeat (apply elem_of_cons in Hx as [Hx|Hx];
            [injection Hx as ->; vm_compute; reflexivity|]);
    by apply elem_of_nil in Hx.
Defined.

(** ** Replay backpressure *)

Section Replay.
Context `{Tcn.Classifier}.

Lemma det_callback_extracted (msg : ObjectDetection2dSet) (n : Tcn.Node) :
  Tcn._window_extracted_time_ns (fst (Tcn.det_callback msg n))
  = Tcn._window_extracted_time_ns n.
Proof.
  unfold Tcn.det_callback, bind, get, ret, modify, Tcn.on_buffer. cbn.
  repeat (case_match; cbn in *; simplify_eq); done.
Qed.

Lemma img_ts_callback_extracted (msg : Time) (n : Tcn.Node) :
  Tcn._window_extracted_time_ns (fst (Tcn.img_ts_callback msg n))
  = Tcn._window_extracted_time_ns n /\
  snd (Tcn.img_ts_callback msg n) = Return tt.
Proof.
  unfold Tcn.img_ts_callback, bind, get, ret, modify, Tcn.on_buffer. cbn.
  repeat (case_match; cbn in *; simplify_eq); done.
Qed.

Lemma acknowledged_mono (s s' : Tcn.System) (ts : Z) :
  Tcn.recorded s ⊆ Tcn.recorded s' ->
  Tcn.acknowledged s ts -> Tcn.acknowledged s' ts.
Proof. intros Hsub (e & He & Hle). exists e. split; [by apply Hsub|done]. Qed.

Lemma loader_step_inv (s s' : Tcn.System) :
  Tcn.loader_step s = Some s' -> Tcn.replay_inv s -> Tcn.replay_inv s'.
Proof.
  unfold Tcn.loader_step, Tcn.replay_inv, Tcn.moved_past.
  intros Hstep (Hrec & Hack & Hlast).
  destruct (Tcn.loader s) as [[|img todo]|img rest|ts rest|] eqn:Hpc.
  - injection Hstep as <-. cbn [Tcn.node Tcn.loader Tcn.pushed Tcn.recorded]. split_and!; [done | | done].
    intros ts Hts. destruct (Hack ts Hts) as (e & ? & ?). by exists e.
  - injection Hstep as <-. cbn [Tcn.node Tcn.loader Tcn.pushed Tcn.recorded]. rewrite det_callback_extracted. split_and!.
    + done.
    + intros ts Hts. assert (ts ∈ Tcn.pushed s) as Hin by (by destruct (snd _)).
      destruct (Hack ts Hin) as (e & ? & ?). by exists e.
    + intros ts rest. by destruct (snd _).
  - injection Hstep as <-. cbn [Tcn.node Tcn.loader Tcn.pushed Tcn.recorded].
    destruct (img_ts_callback_extracted (Tcn.coco_image_ts img) (Tcn.node s))
      as [-> ->]. split_and!.
    + done.
    + intros ts. rewrite removelast_last. intros Hts.
      destruct (Hack ts Hts) as (e & ? & ?). by exists e.
    + intros ts rest' [= <- <-]. apply last_snoc.
  - assert (exists e, Tcn._window_extracted_time_ns (Tcn.node s) = Some e /\ ts <= e /\
              s' = Tcn.mkSystem (Tcn.node s) (Tcn.LoaderDet rest) (Tcn.rt s)
                     (Tcn.pushed s) (Tcn.recorded s)) as (e & He & Hle & ->).
    { unfold Tcn.window_extracted_reached in Hstep.
      destruct (Tcn._window_extracted_time_ns (Tcn.node s)) as [e|]; [|done].
      destruct (Z.leb_spec ts e) as [Hle|]; [|done].
      injection Hstep as <-. by exists e. }
    cbn [Tcn.node Tcn.loader Tcn.pushed Tcn.recorded]. split_and!; [done | | done].
    intros ts' Hts'.
    destruct (proj1 (last_Some _ _) (Hlast ts rest eq_refl)) as [l' Hl'].
    rewrite Hl' in Hts'. apply elem_of_app in Hts' as [Hin|Hin].
    + destruct (Hack ts') as (e' & ? & ?); [by rewrite Hl', removelast_last|].
      by exists e'.
    + apply list_elem_of_singleton in Hin as ->. exists e. split; [by apply Hrec|done].
  - done.
Qed.

Lemma replay_inv_rt (s s' : Tcn.System) :
  Tcn.loader s' = Tcn.loader s ->
  Tcn.pushed s' = Tcn.pushed s ->
  Tcn.recorded s ⊆ Tcn.recorded s' ->
  (forall e, Tcn._window_extracted_time_ns (Tcn.node s') = Some e ->
             Some e ∈ Tcn.recorded s') ->
  Tcn.replay_inv s -> Tcn.replay_inv s'.
Proof.
  intros Hl Hp Hr Hx (Hrec & Hack & Hlast).
  unfold Tcn.replay_inv, Tcn.moved_past in *. rewrite Hl, Hp. split_and!.
  - done.
  - intros ts Hts. eapply acknowledged_mono; [done|]. by apply Hack.
  - done.
Qed.

Lemma rt_step_inv (s s' : Tcn.System) :
  Tcn.rt_step s = Some s' -> Tcn.replay_inv s -> Tcn.replay_inv s'.
Proof.
  unfold Tcn.rt_step. intros Hstep Hinv.
  pose proof Hinv as (Hrec & _ & _).
  destruct (Tcn.rt s) as [| | |w t|w t|] eqn:Hpc.
  - destruct (Tcn._rt_active (Tcn.node s)); injection Hstep as <-;
      by apply (replay_inv_rt s).
  - destruct (Tcn._rt_awake_evt (Tcn.node s)); injection Hstep as <-;
      by apply (replay_inv_rt s).
  - destruct (Tcn.rt_extract (Tcn.node s)) as [n r] eqn:Hx.
    pose proof (rt_extract_node _ _ _ Hx) as ->.
    destruct r as [[w t]|e]; injection Hstep as <-; by apply (replay_inv_rt s).
  - cbn in Hstep. injection Hstep as <-.
    apply (replay_inv_rt s); cbn; [done | done | | | done].
    + intros x Hx. apply elem_of_app. by left.
    + intros e ->. apply elem_of_app. right. by apply list_elem_of_singleton.
  - pose proof (rt_handle_extracted w t (Tcn.node s)) as Hx.
    destruct (Tcn.rt_handle w t (Tcn.node s)) as [n [[]|e]]; cbn in Hx;
      injection Hstep as <-; apply (replay_inv_rt s); cbn; try done;
      rewrite Hx; done.
  - done.
Qed.

Lemma step_inv (t : Tcn.thread) (s : Tcn.System) :
  Tcn.replay_inv s -> Tcn.replay_inv (Tcn.step t s).
Proof.
  intros Hinv. unfold Tcn.step.
  destruct t.
  - destruct (Tcn.loader_step s) as [s'|] eqn:E; [|done].
    by apply (loader_step_inv s).
  - destruct (Tcn.rt_step s) as [s'|] eqn:E; [|done].
    by apply (rt_step_inv s).
Qed.

Lemma run_inv (schedule : list Tcn.thread) :
  forall s, Tcn.replay_inv s -> Tcn.replay_inv (Tcn.run schedule s).
Proof.
  induction schedule as [|t schedule IH]; intros s Hinv; [done|].
  cbn. apply IH. by apply step_inv.
Qed.

Lemma init_system_inv (n : Tcn.Node) (dataset : list Tcn.CocoImage) :
  Tcn._window_extracted_time_ns n = None ->
  Tcn.replay_inv (Tcn.init_system n dataset).
Proof.
  intros Hn. unfold Tcn.replay_inv, Tcn.moved_past. cbn. rewrite Hn.
  split_and!; [done | | done]. intros ts Hts. by apply elem_of_nil in Hts.
Qed.

(** C8: in replay mode, at every point of every interleaving of the loader
    thread and the runtime loop, each tuple the loader has moved past (all
    the tuples pushed, but the last one while the loader still waits for
    it) has a timestamp that the runtime loop has reached with a recorded
    extracted window time; the loader blocked on the tuple stamped [ts]
    takes its next step only in a state where the last extracted time is
    set, is at least [ts], and was recorded by the runtime loop. *)
Theorem replay_backpressure
    (window_size max_size : Z) (lead : bool)
    (dataset : list Tcn.CocoImage) (schedule : list Tcn.thread) :
  let s := Tcn.run schedule
             (Tcn.init_system (Tcn.new_node window_size max_size lead true) dataset) in
  (forall ts, ts ∈ Tcn.moved_past s ->
     exists e, Some e ∈ Tcn.recorded s /\ ts <= e) /\
  (forall ts rest s',
     Tcn.loader s = Tcn.LoaderWait ts rest ->
     Tcn.loader_step s = Some s' ->
     exists e, Tcn._window_extracted_time_ns (Tcn.node s) = Some e /\ ts <= e /\
               Some e ∈ Tcn.recorded s /\ Tcn.pushed s' = Tcn.pushed s) /\
  (forall ts rest,
     Tcn.loader s = Tcn.LoaderWait ts rest ->
     Tcn.window_extracted_reached (Tcn.node s) ts = false ->
     Tcn.step Tcn.LoaderThread s = s).
Proof.
  intros s.
  assert (Tcn.replay_inv s) as (Hrec & Hack & Hlast).
  { apply run_inv, init_system_inv. reflexivity. }
  split_and!.
  - exact Hack.
  - intros ts rest s' Hpc. unfold Tcn.loader_step, Tcn.window_extracted_reached.
    rewrite Hpc.
    destruct (Tcn._window_extracted_time_ns (Tcn.node s)) as [e|] eqn:He; [|done].
    destruct (Z.leb_spec ts e) as [Hle|]; [|done].
    intros [= <-]. exists e. split_and!; [done | done | by apply Hrec | done].
  - intros ts rest Hpc Hno. unfold Tcn.step, Tcn.loader_step.
    by rewrite Hpc, Hno.
Qed.

End Replay.

Lemma replay_backpressure_witness :
  let dataset := [Tcn.mkCocoImage 2 [7]; Tcn.mkCocoImage 1 [8]; Tcn.mkCocoImage 3 []] in
  let schedule :=
    [Tcn.LoaderThread; Tcn.LoaderThread; Tcn.LoaderThread; Tcn.LoaderThread;
     Tcn.RtThread; Tcn.RtThread; Tcn.RtThread; Tcn.RtThread; Tcn.RtThread;
     Tcn.LoaderThread; Tcn.LoaderThread; Tcn.LoaderThread; Tcn.LoaderThread;
     Tcn.RtThread; Tcn.RtThread; Tcn.RtThread] in
  let s := Tcn.run (H := Tcn.example_classifier) schedule
             (Tcn.init_system (Tcn.new_node 2 15000000000 false true) dataset) in
  Tcn.pushed s = [1; 2] /\
  Tcn.loader s = Tcn.LoaderWait 2 [Tcn.mkCocoImage 3 []] /\
  exists e, Some e ∈ Tcn.recorded s /\ 1 <= e.
Proof.
  intros dataset schedule s. split; [reflexivity|]. split; [reflexivity|].
  apply (replay_backpressure (H := Tcn.example_classifier)
           2 15000000000 false dataset schedule).
  vm_compute. constructor.
Defined.

(** ** The scenarios of the specification, evaluated *)

(** Scenario A: 25 frames stamped 0 to 24 and a window size of 25: the
    window is accepted and its trailing timestamp is 24.  Scenario B: the
    same with 24 frames only is refused by the size criterion. *)
Example scenario_window_size :
  let feed k := foldl (fun n t => fst (Tcn.push_frame (mkTime 0 t) n))
                      (Tcn.new_node 25 15000000000 false false) (seqZ 0 k) in
  (exists w, Tcn.rt_extract (feed 25) = (feed 25, Return (w, Some 24)) /\
             Tcn.window_accepted (feed 25) w = true) /\
  (exists w t, Tcn.rt_extract (feed 24) = (feed 24, Return (w, t)) /\
               Tcn._window_criterion_correct_size (feed 24) w = false).
Proof.
  split.
  - eexists. split; [vm_compute; reflexivity | vm_compute; reflexivity].
  - eexists _, _. split; [vm_compute; reflexivity | vm_compute; reflexivity].
Qed.

(** Scenario C: a detection for frame 10 and none for frame 11. *)
Example scenario_detection_slots :
  let d := mkDets (mkTime 0 12) (mkTime 0 10) 5 [] in
  let b := Uho.mkBuffer 0 [(mkTime 0 10, []); (mkTime 0 11, [])] [] [] [d] in
  exists w, Uho.get_window 2 b = (b, Return w) /\
            Uho.w_obj_dets w = [Some d; None].
Proof. eexists. split; vm_compute; reflexivity. Qed.

(** * Further properties of [uho_activity_detector.py] *)

(** ** [InputBuffer.get_frame_time] *)

Lemma py_index_in_range {A} (l : list A) (i : Z) :
  (exists x, py_index l i = Return x) <->
  - Z.of_nat (length l) <= i < Z.of_nat (length l).
Proof.
  unfold py_index.
  destruct (Z.ltb_spec i 0) as [Hneg|Hpos].
  - destruct (Z.ltb_spec (i + Z.of_nat (length l)) 0) as [?|Hj]; cbn.
    { split; [intros [x [=]] | lia]. }
    destruct (Z.leb_spec (Z.of_nat (length l)) (i + Z.of_nat (length l))) as [?|Hlt].
    { lia. }
    destruct (l !! Z.to_nat (i + Z.of_nat (length l))) as [x|] eqn:E.
    + split; [lia | by exists x].
    + apply lookup_ge_None in E. lia.
  - destruct (Z.ltb_spec i 0) as [?|_]; [lia|]. cbn.
    destruct (Z.leb_spec (Z.of_nat (length l)) i) as [?|Hlt].
    { split; [intros [x [=]] | lia]. }
    destruct (l !! Z.to_nat i) as [x|] eqn:E.
    + split; [lia | by exists x].
    + apply lookup_ge_None in E. lia.
Qed.

Lemma py_index_not_in_range {A} (l : list A) (i : Z) :
  ~ (- Z.of_nat (length l) <= i < Z.of_nat (length l)) ->
  py_index l i = Raise IndexError.
Proof.
  intros Hout. destruct (py_index l i) as [x|e] eqn:E.
  - exfalso. apply Hout. apply py_index_in_range. by exists x.
  - unfold py_index in E. repeat case_match; congruence.
Qed.

Lemma py_index_last {A} (l : list A) :
  py_index l (-1) = match last l with
                    | Some x => Return x
                    | None => Raise IndexError
                    end.
Proof.
  destruct (last l) as [x|] eqn:El.
  - apply last_Some in El as [l' ->]. unfold py_index.
    rewrite length_app. cbn [length].
    destruct (Z.ltb_spec (-1) 0) as [_|?]; [|lia].
    destruct (Z.ltb_spec (-1 + Z.of_nat (length l' + 1)) 0) as [?|_]; [lia|].
    destruct (Z.leb_spec (Z.of_nat (length l' + 1)) (-1 + Z.of_nat (length l' + 1)))
      as [?|_]; [lia|]. cbn.
    replace (Z.to_nat (-1 + Z.of_nat (length l' + 1))) with (length l') by lia.
    by rewrite list_lookup_middle.
  - apply last_None in El as ->. reflexivity.
Qed.

(** X1: [get_frame_time] never changes the buffer; it returns the stamp of
    a frame exactly for the indices Python accepts on the frame deque (from
    minus its length up to its length, excluded) and raises [IndexError]
    for every other index, so always on an empty buffer; with the default
    index -1 it returns the stamp of the most recent frame. *)
Theorem get_frame_time_indexing (b : Uho.InputBuffer) (buff_index : Z) :
  let n := Z.of_nat (length (Uho.frames b)) in
  let r := Uho.get_frame_time buff_index b in
  fst r = b /\
  ((exists t, snd r = Return t) <-> - n <= buff_index < n) /\
  (~ (- n <= buff_index < n) -> snd r = Raise IndexError) /\
  (forall f, last (Uho.frames b) = Some f ->
             snd (Uho.get_frame_time (-1) b) = Return (fst f)).
Proof.
  intros n r. subst n r. unfold Uho.get_frame_time. cbn [fst snd]. split_and!.
  - done.
  - rewrite <- (py_index_in_range (Uho.frames b) buff_index).
    destruct (py_index (Uho.frames b) buff_index) as [f|e].
    + split; [intros _; by exists f | intros _; by exists (fst f)].
    + split; [intros [t [=]] | intros [x [=]]].
  - intros Hout. by rewrite py_index_not_in_range.
  - intros f Hl. by rewrite py_index_last, Hl.
Qed.

Lemma get_frame_time_indexing_witness :
  snd (Uho.get_frame_time 0 (Uho.new_buffer 0)) = Raise IndexError.
Proof.
  destruct (get_frame_time_indexing (Uho.new_buffer 0) 0) as (_ & _ & Hout & _).
  apply Hout. simpl. lia.
Defined.

(** ** [InputBuffer.get_window_detections] and [InputBuffer.get_window] *)

(** X2: [get_window_detections] is the detection column of [get_window]:
    for every buffer and size both leave the buffer alone, both raise the
    same exception, or [get_window_detections] returns the [obj_dets] of
    the window that [get_window] returns. *)
Theorem get_window_detections_agree (b : Uho.InputBuffer) (window_size : Z) :
  fst (Uho.get_window_detections window_size b) = b /\
  fst (Uho.get_window window_size b) = b /\
  snd (Uho.get_window_detections window_size b) =
    match snd (Uho.get_window window_size b) with
    | Return w => Return (Uho.w_obj_dets w)
    | Raise e => Raise e
    end.
Proof.
  unfold Uho.get_window_detections, Uho.get_window. cbn [fst snd].
  split_and!; [done | done |].
  destruct (islice_tail (Uho.frames b) window_size) as [wf|e]; [|done].
  cbn. by rewrite <- list_fmap_compose.
Qed.

(** X3: a negative window size makes both window queries fail on
    [islice], before anything is matched: [get_window] and
    [get_window_detections] raise [ValueError] and leave the buffer as it
    is, whatever it holds. *)
Theorem get_window_negative_size (b : Uho.InputBuffer) (window_size : Z) :
  window_size < 0 ->
  Uho.get_window window_size b = (b, Raise ValueError) /\
  Uho.get_window_detections window_size b = (b, Raise ValueError).
Proof.
  intros Hneg. unfold Uho.get_window, Uho.get_window_detections, islice_tail. cbn.
  by destruct (Z.ltb_spec window_size 0) as [_|?]; [|lia].
Qed.

Lemma get_window_negative_size_witness :
  let b := fst (Uho.queue_images [mkImage (mkTime 0 1) []] (Uho.new_buffer 0)) in
  Uho.get_window (-3) b = (b, Raise ValueError).
Proof.
  intros b. apply (get_window_negative_size b (-3)). lia.
Defined.

(** ** [InputBuffer.clear_before], composed *)

Lemma popleft_while_compose {A} (key : A -> Z) (t1 t2 : Z) (dq : list A) :
  t1 <= t2 ->
  popleft_while key t2 (popleft_while key t1 dq) = popleft_while key t2 dq.
Proof.
  intros Hle. induction dq as [|x dq IH]; simpl; [done|].
  destruct (Z.ltb_spec (key x) t1) as [H1|H1].
  - destruct (Z.ltb_spec (key x) t2) as [_|?]; [exact IH | lia].
  - done.
Qed.

(** X4: clearing before [t1] and then before a later or equal [t2] leaves
    the buffer that clearing before [t2] alone leaves, whatever the order
    of the deques; in particular clearing twice before the same timestamp
    is clearing once. *)
Theorem clear_before_compose (b : Uho.InputBuffer) (t1 t2 : Z) :
  t1 <= t2 ->
  fst (Uho.clear_before t2 (fst (Uho.clear_before t1 b)))
  = fst (Uho.clear_before t2 b) /\
  fst (Uho.clear_before t2 (fst (Uho.clear_before t2 b)))
  = fst (Uho.clear_before t2 b).
Proof.
  intros Hle. unfold Uho.clear_before, modify. cbn.
  split; f_equal; apply popleft_while_compose; lia.
Qed.

Lemma clear_before_compose_witness :
  let mk l := Uho.mkBuffer 0 ((fun n => (mkTime 0 n, [])) <$> l) [] [] [] in
  fst (Uho.clear_before 4 (fst (Uho.clear_before 2 (mk [1; 5; 3; 7]))))
  = mk [5; 3; 7].
Proof.
  intros mk.
  rewrite (proj1 (clear_before_compose (mk [1; 5; 3; 7]) 2 4 ltac:(lia))).
  reflexivity.
Defined.

(** ** [UHOActivityDetector.obj_det_callback], the queueing path *)

(** X5: with a negative [frames_per_det], every message that has enough
    detections to be queued makes [obj_det_callback] raise the
    [ValueError] of [islice]: the message has been queued by then and
    stays in the buffer, and nothing else of the node changes. *)
Theorem obj_det_callback_negative_window
    (n : Uho.UHOActivityDetector) (msg : ObjectDetection2dSet) :
  Uho._topk n <= num_detections msg ->
  Uho._frames_per_det n < 0 ->
  Uho.obj_det_callback msg n
  = (Uho.mkNode (Uho._frames_per_det n) (Uho._topk n)
       (Uho.set_obj_dets (Uho._input_buffer n)
          (Uho.obj_dets (Uho._input_buffer n) ++ [msg])),
     Raise ValueError).
Proof.
  intros Hge Hneg.
  unfold Uho.obj_det_callback, bind, get, ret, lift, Uho.on_buffer.
  destruct (Z.ltb_spec (num_detections msg) (Uho._topk n)) as [Hlt|_]; [lia|].
  cbn [fst snd Uho.queue_object_detections modify Uho._input_buffer
       Uho._frames_per_det Uho._topk].
  unfold Uho.get_window_detections, islice_tail.
  destruct (Z.ltb_spec (Uho._frames_per_det n) 0) as [_|Hpos]; [|lia].
  reflexivity.
Qed.

Lemma obj_det_callback_negative_window_witness :
  let n := Uho.mkNode (-1) 5 (Uho.new_buffer 0) in
  let msg := mkDets (mkTime 0 1) (mkTime 0 1) 5 [] in
  snd (Uho.obj_det_callback msg n) = Raise ValueError /\
  Uho.obj_dets (Uho._input_buffer (fst (Uho.obj_det_callback msg n))) = [msg].
Proof.
  intros n msg.
  rewrite (obj_det_callback_negative_window n msg) by (simpl; lia).
  split; reflexivity.
Defined.

(** ** Routing of the hand poses *)

Lemma deliver_hands_routed (m : Uho.Message) (n : Uho.UHOActivityDetector) :
  Uho.hands_routed (Uho._input_buffer n) ->
  Uho.hands_routed (Uho._input_buffer (fst (Uho.deliver m n))).
Proof.
  intros [HL HR]. destruct m as [i|h|d]; cbn [Uho.deliver].
  - by split.
  - unfold Uho.hand_callback, Uho.on_buffer, Uho.queue_hand_pose.
    destruct (String.eqb_spec (hand h) "Right") as [Hr|_].
    { cbn. split; [done|]. apply Forall_app. split; [done|]. by repeat constructor. }
    destruct (String.eqb_spec (hand h) "Left") as [Hl|_].
    { cbn. split; [|done]. apply Forall_app. split; [done|]. by repeat constructor. }
    by split.
  - unfold Uho.obj_det_callback, bind, get, ret, lift, Uho.on_buffer, Uho.hands_routed.
    cbn. repeat (case_match; cbn in *; simplify_eq); try done.
    split; by apply popleft_while_Forall.
Qed.

(** X6: the callbacks route every hand pose to the deque of its hand and
    keep it there: if the left deque holds only ["Left"] poses and the
    right deque only ["Right"] poses (as in an empty buffer), this still
    holds after any sequence of delivered messages, including the ones the
    clean-up removes items for and the one that ends the spin with an
    exception. *)
Theorem spin_keeps_hands_routed
    (msgs : list Uho.Message) (n0 : Uho.UHOActivityDetector) :
  Uho.hands_routed (Uho._input_buffer n0) ->
  Uho.hands_routed (Uho._input_buffer (fst (Uho.spin msgs n0))).
Proof.
  revert n0. induction msgs as [|m msgs IH]; intros n0 H0; [done|].
  cbn [Uho.spin]. unfold bind.
  pose proof (deliver_hands_routed m n0 H0) as Hm.
  destruct (Uho.deliver m n0) as [n' [[]|e]]; cbn [fst] in *; [by apply IH | done].
Qed.

Lemma spin_keeps_hands_routed_witness :
  let l := mkHand (mkTime 0 1) "Left" [] in
  let r := mkHand (mkTime 0 2) "Right" [] in
  let n := fst (Uho.spin [Uho.MsgHand r; Uho.MsgHand l; Uho.MsgHand r]
                  (Uho.mkNode 32 5 (Uho.new_buffer 0))) in
  Uho.hand_pose_left (Uho._input_buffer n) = [l] /\
  Uho.hands_routed (Uho._input_buffer n).
Proof.
  intros l r n. split; [reflexivity|].
  apply spin_keeps_hands_routed. split; constructor.
Defined.

(** * Further properties of [activity_classifier_tcn.py] *)

(** ** The window criteria together *)

Lemma new_leading_frame_true (n : Tcn.Node) (w : Tcn.InputWindow) :
  Tcn._window_criterion_new_leading_frame n w = true <->
  exists f, last (Tcn.frames w) = Some f /\
            forall prev, Tcn._window_processed_time_ns n = Some prev ->
                         prev < Tcn.frame_time_ns f.
Proof.
  unfold Tcn._window_criterion_new_leading_frame, Tcn.window_len.
  destruct (last (Tcn.frames w)) as [f|] eqn:Hl.
  - destruct (Z.eqb_spec (Z.of_nat (length (Tcn.frames w))) 0) as [H0|_].
    { apply last_Some in Hl as [l' Hl]. rewrite Hl, length_app in H0. simpl in H0. lia. }
    destruct (Tcn._window_processed_time_ns n) as [prev|].
    + destruct (Z.ltb_spec prev (Tcn.frame_time_ns f)) as [Hlt|Hge]; simpl.
      * split; [intros _|done]. exists f. split; [done|]. by intros p [= <-].
      * split; [done|]. intros (g & [= <-] & Hp). specialize (Hp prev eq_refl). lia.
    + split; [intros _|done]. exists f. split; [done|]. intros p [=].
  - split; [|by intros (f & [=] & _)].
    apply last_None in Hl. rewrite Hl. simpl. done.
Qed.

Lemma coco_input_mode_true (n : Tcn.Node) (w : Tcn.InputWindow) :
  Tcn.frames w <> [] ->
  Tcn._window_criterion_coco_input_mode n w = true <->
  Forall is_Some (Tcn.obj_dets w).
Proof.
  intros Hne. unfold Tcn._window_criterion_coco_input_mode, Tcn.window_len.
  destruct (Z.eqb_spec (Z.of_nat (length (Tcn.frames w))) 0) as [H0|_].
  { destruct (Tcn.frames w); [done | simpl in H0; lia]. }
  induction (Tcn.obj_dets w) as [|o l IH]; simpl; [by split; [constructor|]|].
  destruct o as [d|]; simpl.
  - etrans; [exact IH|]. split; [intros; constructor; eauto | by inversion 1].
  - split; [done|]. inversion 1 as [|? ? Hs]. by destruct Hs.
Qed.

(** The three criteria of [rt_loop], spelled out. *)
Lemma window_accepted_char (n : Tcn.Node) (w : Tcn.InputWindow) :
  Tcn.window_accepted n w = true <->
  Z.of_nat (length (Tcn.frames w)) = Tcn._window_size n /\
  (exists f, last (Tcn.frames w) = Some f /\
             forall prev, Tcn._window_processed_time_ns n = Some prev ->
                          prev < Tcn.frame_time_ns f) /\
  (Tcn._coco_load_thread n = true -> Forall is_Some (Tcn.obj_dets w)).
Proof.
  unfold Tcn.window_accepted, Tcn.window_processing_criterion_fn_list.
  cbn [app forallb]. rewrite !andb_true_iff.
  unfold Tcn._window_criterion_correct_size at 1, Tcn.window_len.
  rewrite Z.eqb_eq, new_leading_frame_true.
  split.
  - intros (Hsize & (f & Hl & Hp) & Hcoco). split_and!; [done | by exists f |].
    intros Hc. rewrite Hc in Hcoco. cbn in Hcoco. rewrite andb_true_r in Hcoco.
    apply coco_input_mode_true in Hcoco; [done|]. intros He. by rewrite He in Hl.
  - intros (Hsize & (f & Hl & Hp) & Hcoco). split_and!; [done | by exists f |].
    destruct (Tcn._coco_load_thread n); [|done]. cbn. rewrite andb_true_r.
    apply coco_input_mode_true; [|by apply Hcoco]. intros He. by rewrite He in Hl.
Qed.

Section Processing.
Context `{Tcn.Classifier}.

(** X7: [rt_loop] hands a window to [_process_window] exactly when the
    window passes the criteria and has at least two frames.  The criteria
    are passed exactly when the window has as many frames as the
    configured window size, has a last frame whose time is strictly after
    the recorded processed time (if one is recorded) and, when the node
    reads from a COCO file, every detection slot is filled.  A window
    handed over leaves the memo fields as [_process_window] leaves them; a
    classification is published and the time of the window recorded as
    processed, which it also is after [NoActivityClassification], where
    nothing is published.  Any other window (refused, or accepted with one
    frame, where [window.frames[1]] fails) leaves the memo fields, the
    published messages and the processed time as they are. *)
Theorem rt_loop_processes_iff (n : Tcn.Node) (w : Tcn.InputWindow) (t : option Z) :
  let handed :=
    Tcn.window_accepted n w && (2 <=? Z.of_nat (length (Tcn.frames w))) in
  let r := Tcn.rt_handle w t n in
  let p := Tcn._process_window w (Tcn.memo n) in
  (Tcn.window_accepted n w = true <->
   Z.of_nat (length (Tcn.frames w)) = Tcn._window_size n /\
   (exists f, last (Tcn.frames w) = Some f /\
              forall prev, Tcn._window_processed_time_ns n = Some prev ->
                           prev < Tcn.frame_time_ns f) /\
   (Tcn._coco_load_thread n = true -> Forall is_Some (Tcn.obj_dets w))) /\
  (handed = true ->
   Tcn.memo (fst r) = fst p /\
   match snd p with
   | Return act_msg =>
       snd r = Return tt /\
       Tcn.published (fst r) = Tcn.published n ++ [act_msg] /\
       Tcn._window_processed_time_ns (fst r) = t
   | Raise e =>
       Tcn.published (fst r) = Tcn.published n /\
       if decide (e = NoActivityClassification)
       then snd r = Return tt /\ Tcn._window_processed_time_ns (fst r) = t
       else snd r = Raise e /\
            Tcn._window_processed_time_ns (fst r) = Tcn._window_processed_time_ns n
   end) /\
  (handed = false ->
   Tcn.memo (fst r) = Tcn.memo n /\
   Tcn.published (fst r) = Tcn.published n /\
   Tcn._window_processed_time_ns (fst r) = Tcn._window_processed_time_ns n).
Proof.
  intros handed r p. split_and!.
  - apply window_accepted_char.
  - intros Hh. apply andb_true_iff in Hh as [Hacc Hlen]. apply Z.leb_le in Hlen.
    subst r p. rewrite rt_handle_accepted by done.
    destruct (proj2 (py_index_in_range (Tcn.frames w) 1)) as [f1 ->]; [lia|].
    cbn zeta.
    destruct (Tcn._process_window w (Tcn.memo n)) as [m' [act_msg|e]];
      cbn [fst snd]; [done|].
    by destruct (decide (e = NoActivityClassification)).
  - intros Hh. subst r. apply andb_false_iff in Hh as [Hrej|Hshort].
    + by rewrite rt_handle_rejected.
    + apply Z.leb_gt in Hshort.
      destruct (Tcn.window_accepted n w) eqn:Hacc; [|by rewrite rt_handle_rejected].
      rewrite rt_handle_accepted by done.
      by rewrite py_index_not_in_range by lia.
Qed.

End Processing.

Lemma rt_loop_processes_iff_witness :
  let d n := Some (mkDets (mkTime 0 n) (mkTime 0 n) 1 []) in
  let fr n := (mkTime 0 n, None, n) : Tcn.Frame in
  let one := Tcn.mkWindow [fr 1] [d 1] [None] in
  let two := Tcn.mkWindow [fr 1; fr 2] [d 1; d 2] [None; None] in
  let n1 := Tcn.new_node 1 15000000000 false true in
  let n2 := Tcn.new_node 2 15000000000 false true in
  Tcn.window_accepted n1 one = true /\
  Tcn.memo (fst (Tcn.rt_handle (H := Tcn.example_classifier) one (Some 1) n1))
    = Tcn.memo n1 /\
  Tcn.memo (fst (Tcn.rt_handle (H := Tcn.example_classifier) two (Some 2) n2))
    = fst (Tcn._process_window (H := Tcn.example_classifier) two (Tcn.memo n2)).
Proof.
  intros d fr one two n1 n2. split_and!; [reflexivity | |].
  - apply (rt_loop_processes_iff (H := Tcn.example_classifier) n1 one (Some 1)).
    reflexivity.
  - apply (rt_loop_processes_iff (H := Tcn.example_classifier) n2 two (Some 2)).
    reflexivity.
Defined.

(** ** One iteration of [rt_loop], unfolded *)

Section Iteration.
Context `{Tcn.Classifier}.

Lemma rt_extract_Return (n : Tcn.Node) (w : Tcn.InputWindow) (t : option Z) :
  Tcn.rt_extract n = (n, Return (w, t)) ->
  snd (Tcn.get_window (Tcn._window_size n) (Tcn._window_lead_with_objects n)
         (Tcn._buffer n)) = Return w /\
  t = Tcn.frame_time_ns <$> last (Tcn.frames w).
Proof.
  unfold Tcn.rt_extract, bind, get, ret, Tcn.on_buffer.
  destruct (Tcn.get_window _ _ _) as [b' [w'|e]] eqn:E; cbn; [|done].
  intros [= _ <- <-]. done.
Qed.

Lemma rt_iteration_unfold (n : Tcn.Node) :
  Tcn.rt_iteration n =
    match Tcn.rt_extract n with
    | (n1, Return (w, t)) => Tcn.rt_handle w t (Tcn.set_window_extracted_time_ns t n1)
    | (n1, Raise e) => (n1, Raise e)
    end.
Proof.
  unfold Tcn.rt_iteration, bind. destruct (Tcn.rt_extract n) as [n1 [[w t]|e]]; done.
Qed.

End Iteration.

Section IterationFacts.
Context `{Tcn.Classifier}.

(** X8: a window that passes the criteria with fewer than two frames (the
    configured window size is then 1) makes the processing branch fail on
    [window.frames[1]]: [IndexError] escapes the loop body before anything
    is evicted, processed or recorded, and the runtime thread ends. *)
Theorem accepted_short_window_ends_thread
    (s : Tcn.System) (w : Tcn.InputWindow) (t : option Z) :
  Tcn.rt s = Tcn.RtRecorded w t ->
  Tcn.window_accepted (Tcn.node s) w = true ->
  (length (Tcn.frames w) < 2)%nat ->
  Tcn._window_size (Tcn.node s) = 1 /\
  Tcn.rt_handle w t (Tcn.node s) = (Tcn.node s, Raise IndexError) /\
  Tcn.rt_step s =
    Some (Tcn.mkSystem (Tcn.set_rt_thread_alive false (Tcn.node s)) (Tcn.loader s)
            Tcn.RtEnded (Tcn.pushed s) (Tcn.recorded s)).
Proof.
  intros Hpc Hacc Hshort.
  assert (Tcn.rt_handle w t (Tcn.node s) = (Tcn.node s, Raise IndexError)) as Hh.
  { rewrite rt_handle_accepted by done.
    rewrite py_index_not_in_range; [done|lia]. }
  split_and!.
  - apply window_accepted_char in Hacc as (Hsize & (f & Hl & _) & _).
    apply last_Some in Hl as [l' Hl]. rewrite Hl, length_app in Hsize, Hshort.
    simpl in *. lia.
  - exact Hh.
  - unfold Tcn.rt_step. by rewrite Hpc, Hh.
Qed.

End IterationFacts.

Lemma accepted_short_window_ends_thread_witness :
  let n := fst (Tcn.push_frame (mkTime 0 7) (Tcn.new_node 1 15000000000 false false)) in
  snd (Tcn.rt_iteration (H := Tcn.example_classifier) n) = Raise IndexError.
Proof.
  intros n. rewrite rt_iteration_unfold.
  destruct (Tcn.rt_extract n) as [n1 [[w t]|e]] eqn:Hx; [|discriminate Hx].
  vm_compute in Hx. injection Hx as <- <- <-.
  set (w := Tcn.mkWindow _ _ _). set (n1 := Tcn.set_window_extracted_time_ns _ _).
  destruct (accepted_short_window_ends_thread (H := Tcn.example_classifier)
              (Tcn.mkSystem n1 Tcn.LoaderDone (Tcn.RtRecorded w (Some 7)) [] [])
              w (Some 7)) as (_ & Hh & _);
    [reflexivity | vm_compute; reflexivity | simpl; lia |].
  cbn [Tcn.node] in Hh. by rewrite Hh.
Defined.

(** ** What an iteration leaves behind *)

Lemma popleft_while_app_older {A} (key : A -> Z) (t : Z) (pre l : list A) :
  Forall (fun x => key x < t) pre ->
  popleft_while key t (pre ++ l) = popleft_while key t l.
Proof.
  induction 1 as [|x pre Hx _ IH]; simpl; [done|].
  by destruct (Z.ltb_spec (key x) t) as [_|?]; [|lia].
Qed.

Lemma py_index_second {A} (l : list A) (x : A) :
  py_index l 1 = Return x -> exists a rest, l = a :: x :: rest.
Proof.
  unfold py_index. cbn. destruct l as [|a [|b rest]]; cbn; try done.
  destruct (Z.leb_spec (Z.of_nat (S (S (length rest)))) 1) as [?|_]; [lia|].
  change (Z.to_nat 1) with 1%nat. cbn. intros [= ->]. eauto.
Qed.

Section IterationEffects.
Context `{Tcn.Classifier}.

(** The buffer after an iteration that took the processing branch. *)
Lemma rt_handle_accepted_buffer (w : Tcn.InputWindow) (t : option Z)
    (n n' : Tcn.Node) (o : outcome unit) (second_frame : Tcn.Frame) :
  Tcn.window_accepted n w = true ->
  py_index (Tcn.frames w) 1 = Return second_frame ->
  Tcn.rt_handle w t n = (n', o) ->
  Tcn._buffer n' =
    fst (Tcn.clear_before (Tcn.frame_time_ns second_frame) (Tcn._buffer n)).
Proof.
  intros Hacc Hf1. rewrite rt_handle_accepted by done. rewrite Hf1. cbn zeta.
  destruct (Tcn._process_window w (Tcn.memo n)) as [m' [msg|e]]; cbn.
  - by intros [= <- _].
  - destruct (decide (e = NoActivityClassification)); by intros [= <- _].
Qed.

(** For the buffer as it is modelled here: with the latest frame leading
    the window and the frame deque in strictly ascending order, an
    iteration that processes a window of two frames or more leaves in the
    buffer exactly the frames of the window but its first, whether or not
    a classification comes out: one frame less than the window size, the
    overlap with the next window. *)
Theorem processed_iteration_keeps_overlap
    (n n' : Tcn.Node) (w : Tcn.InputWindow) (t : option Z) (o : outcome unit) :
  strictly_ascending Tcn.frame_time_ns (Tcn.b_frames (Tcn._buffer n)) ->
  Tcn._window_lead_with_objects n = false ->
  2 <= Tcn._window_size n ->
  Tcn.rt_extract n = (n, Return (w, t)) ->
  Tcn.window_accepted n w = true ->
  Tcn.rt_iteration n = (n', o) ->
  Tcn.b_frames (Tcn._buffer n') = drop 1 (Tcn.frames w) /\
  Z.of_nat (length (Tcn.b_frames (Tcn._buffer n'))) = Tcn._window_size n - 1.
Proof.
  intros Hasc Hlead Hsize Hx Hacc Hit.
  rewrite rt_iteration_unfold, Hx in Hit.
  pose proof (rt_extract_Return _ _ _ Hx) as [Hw _].
  unfold Tcn.get_window in Hw. rewrite Hlead in Hw. cbn in Hw.
  destruct (islice_tail (Tcn.b_frames (Tcn._buffer n)) (Tcn._window_size n))
    as [wf|e] eqn:Hs; [|done].
  apply islice_tail_Return in Hs as [_ Hwf]. injection Hw as <-.
  cbn [Tcn.frames] in *.
  apply window_accepted_char in Hacc as Hchar. destruct Hchar as (Hlen & _ & _).
  cbn [Tcn.frames] in Hlen.
  destruct (py_index wf 1) as [f1|e] eqn:Hf1.
  2:{ exfalso. assert (exists x, py_index wf 1 = Return x) as [x Hx'];
        [apply (proj2 (py_index_in_range wf 1)); lia | congruence]. }
  destruct (py_index_second _ _ Hf1) as (f0 & rest & Hwf').
  apply (rt_handle_accepted_buffer _ _ _ _ _ f1) in Hit; [|done|done].
  cbn [Tcn._buffer Tcn.set_window_extracted_time_ns] in Hit.
  rewrite Hit. cbn [fst Tcn.clear_before modify Tcn.b_frames].
  assert (popleft_while Tcn.frame_time_ns (Tcn.frame_time_ns f1)
            (Tcn.b_frames (Tcn._buffer n)) = f1 :: rest) as Hb.
  { rewrite <- (take_drop (length (Tcn.b_frames (Tcn._buffer n))
                           - Z.to_nat (Tcn._window_size n))
                  (Tcn.b_frames (Tcn._buffer n))) in Hasc |- * at 1.
    rewrite <- Hwf in Hasc |- *. rewrite Hwf' in Hasc |- *.
    set (pre := take _ _) in *.
    apply StronglySorted_app in Hasc as (Hcross & _ & Hw').
    apply StronglySorted_cons in Hw' as [Hf0 Hw'].
    rewrite popleft_while_app_older.
    2:{ apply Forall_forall. intros x Hin. apply (Hcross x f1 Hin).
        apply elem_of_cons. right. apply elem_of_cons. by left. }
    cbn [popleft_while].
    destruct (Z.ltb_spec (Tcn.frame_time_ns f0) (Tcn.frame_time_ns f1)) as [_|Hge].
    2:{ inversion Hf0 as [|? ? Hlt _]. lia. }
    by destruct (Z.ltb_spec (Tcn.frame_time_ns f1) (Tcn.frame_time_ns f1))
      as [?|_]; [lia|]. }
  rewrite Hb, Hwf'. split; [done|]. rewrite Hwf' in Hlen. cbn [length] in *. lia.
Qed.

End IterationEffects.

Lemma processed_iteration_keeps_overlap_witness :
  let n := fst ((Tcn.push_frame (mkTime 0 1) ;;; Tcn.push_frame (mkTime 0 2) ;;;
                 Tcn.push_frame (mkTime 0 3) ;;; Tcn.push_frame (mkTime 0 4))%py
                (Tcn.new_node 3 15000000000 false false)) in
  Tcn.b_frames (Tcn._buffer (fst (Tcn.rt_iteration (H := Tcn.example_classifier) n)))
  = [(mkTime 0 3, None, 2); (mkTime 0 4, None, 3)].
Proof.
  intros n.
  refine (eq_trans (proj1 (processed_iteration_keeps_overlap
            (H := Tcn.example_classifier) n _
            (Tcn.mkWindow [(mkTime 0 2, None, 1); (mkTime 0 3, None, 2); (mkTime 0 4, None, 3)]
               [Some (mkDets (mkTime 0 2) (mkTime 0 2) 1 []);
                Some (mkDets (mkTime 0 3) (mkTime 0 3) 1 []);
                Some (mkDets (mkTime 0 4) (mkTime 0 4) 1 [])]
               [None; None; None])
            (Some 4) _ _ _ _ _ _ (surjective_pairing _))) _).
  - vm_compute; repeat constructor.
  - reflexivity.
  - vm_compute; discriminate.
  - vm_compute; reflexivity.
  - vm_compute; reflexivity.
  - reflexivity.
Defined.

Section IterationRecords.
Context `{Tcn.Classifier}.

(** A classification message is stamped with the first and the last frame
    of its window. *)
Lemma process_window_stamps (w : Tcn.InputWindow) (m m' : Tcn.Memo)
    (msg : Tcn.ActivityDetection) :
  Tcn._process_window w m = (m', Return msg) ->
  exists first_frame last_frame,
    head (Tcn.frames w) = Some first_frame /\
    last (Tcn.frames w) = Some last_frame /\
    Tcn.source_stamp_start_frame msg = Tcn.frame_time first_frame /\
    Tcn.source_stamp_end_frame msg = Tcn.frame_time last_frame.
Proof.
  unfold Tcn._process_window, bind, lift.
  destruct (Tcn.preproc_dets _ _ _ m) as [m1 [fod|e]]; [|done].
  destruct (Tcn.preproc_poses _ _ _ m1) as [m2 [fpp|e]]; [|done].
  cbn [modify].
  destruct (Tcn.objects_to_feats fod fpp) as [feats|]; [|done].
  destruct (py_index (Tcn.frames w) 0) as [f0|e] eqn:E0; [|done].
  destruct (py_index (Tcn.frames w) (-1)) as [fl|e] eqn:El; [|done].
  destruct (Tcn.expire_preproc_input _ _) as [m4 [[]|e]]; [|done].
  destruct (Tcn.expire_objects_to_feats _ _) as [m5 [[]|e]]; [|done].
  unfold ret. intros [= _ <-]. exists f0, fl. split_and!; try done.
  - by apply py_index_head.
  - rewrite py_index_last in El. by destruct (last (Tcn.frames w)); simplify_eq.
Qed.

(** The node after an iteration, in the three ways an iteration can go. *)
Lemma rt_iteration_cases (n n' : Tcn.Node) (o : outcome unit) :
  Tcn.rt_iteration n = (n', o) ->
  (Tcn._window_processed_time_ns n' = Tcn._window_processed_time_ns n /\
   Tcn.published n' = Tcn.published n) \/
  (exists w last_frame,
     Tcn.rt_extract n = (n, Return (w, Some (Tcn.frame_time_ns last_frame))) /\
     Tcn.window_accepted n w = true /\
     last (Tcn.frames w) = Some last_frame /\
     o = Return tt /\
     Tcn._window_processed_time_ns n' = Some (Tcn.frame_time_ns last_frame) /\
     Tcn._window_extracted_time_ns n' = Some (Tcn.frame_time_ns last_frame) /\
     (Tcn.published n' = Tcn.published n \/
      exists msg, Tcn.published n' = Tcn.published n ++ [msg] /\
                  Tcn.source_stamp_end_frame msg = Tcn.frame_time last_frame)).
Proof.
  rewrite rt_iteration_unfold.
  destruct (Tcn.rt_extract n) as [n1 [[w t]|e]] eqn:Hx.
  2:{ pose proof (rt_extract_node _ _ _ Hx) as ->. intros [= <- _]. by left. }
  pose proof (rt_extract_node _ _ _ Hx) as ->.
  destruct (rt_extract_Return _ _ _ Hx) as [_ Ht].
  destruct (Tcn.window_accepted n w) eqn:Hacc.
  2:{ rewrite rt_handle_rejected by done. intros [= <- _]. by left. }
  rewrite rt_handle_accepted by done.
  destruct (py_index (Tcn.frames w) 1) as [f1|e]; [|intros [= <- _]; by left].
  cbn zeta.
  apply window_accepted_char in Hacc as Hchar.
  destruct Hchar as (_ & (fl & Hl & _) & _).
  rewrite Hl in Ht. cbn in Ht. subst t.
  cbn [Tcn.memo Tcn.set_window_extracted_time_ns].
  destruct (Tcn._process_window w (Tcn.memo n)) as [m' [msg|e]] eqn:Hp; cbn.
  - intros [= <- <-]. right. exists w, fl. split_and!; try done.
    right. exists msg. split; [done|].
    destruct (process_window_stamps _ _ _ _ Hp) as (f0 & fl' & _ & Hl' & _ & He).
    congruence.
  - destruct (decide (e = NoActivityClassification)).
    + intros [= <- <-]. right. exists w, fl. split_and!; try done. by left.
    + intros [= <- _]. by left.
Qed.

(** X9: the recorded time of the last processed window only moves
    forward: an iteration of [rt_loop], however it ends, either leaves
    [_window_processed_time_ns] as it was, or returns normally having set
    it to a time strictly greater than the one recorded before (any time,
    if none was recorded).  It never goes back to unset. *)
Theorem processed_time_moves_forward (n n' : Tcn.Node) (o : outcome unit) :
  Tcn.rt_iteration n = (n', o) ->
  Tcn._window_processed_time_ns n' = Tcn._window_processed_time_ns n \/
  (o = Return tt /\
   exists p', Tcn._window_processed_time_ns n' = Some p' /\
              forall p, Tcn._window_processed_time_ns n = Some p -> p < p').
Proof.
  intros Hit. destruct (rt_iteration_cases _ _ _ Hit) as
    [[Hp _] | (w & fl & _ & Hacc & Hl & Ho & Hp & _)]; [by left|].
  right. split; [done|]. exists (Tcn.frame_time_ns fl). split; [done|].
  apply window_accepted_char in Hacc as (_ & (f & Hl' & Hprev) & _).
  intros p Hp'. rewrite Hl in Hl'. injection Hl' as <-. by apply Hprev.
Qed.

(** X10: an iteration of [rt_loop] publishes at most one activity
    message, and only when it returns normally; the message is stamped at
    its end with the last frame of the window, which is the time the node
    records both as extracted and as processed. *)
Theorem published_message_matches_record (n n' : Tcn.Node) (o : outcome unit) :
  Tcn.rt_iteration n = (n', o) ->
  Tcn.published n' = Tcn.published n \/
  (o = Return tt /\
   exists msg,
     Tcn.published n' = Tcn.published n ++ [msg] /\
     Tcn._window_processed_time_ns n'
       = Some (time_to_int (Tcn.source_stamp_end_frame msg)) /\
     Tcn._window_extracted_time_ns n'
       = Some (time_to_int (Tcn.source_stamp_end_frame msg))).
Proof.
  intros Hit. destruct (rt_iteration_cases _ _ _ Hit) as
    [[_ Hp] | (w & fl & _ & _ & _ & Ho & Hp & Hx & [Hpub|(msg & Hpub & He)])];
    [by left | by left |].
  right. split; [done|]. exists msg. rewrite He. by split_and!.
Qed.

End IterationRecords.

Lemma processed_time_moves_forward_witness :
  let n := fst ((Tcn.push_frame (mkTime 0 1) ;;; Tcn.push_frame (mkTime 0 2))%py
                (Tcn.new_node 2 15000000000 false false)) in
  let n' := fst (Tcn.rt_iteration (H := Tcn.example_classifier) n) in
  Tcn._window_processed_time_ns n' = Some 2 /\
  (Tcn._window_processed_time_ns n' = Tcn._window_processed_time_ns n \/
   snd (Tcn.rt_iteration (H := Tcn.example_classifier) n) = Return tt).
Proof.
  intros n n'. split; [reflexivity|].
  destruct (processed_time_moves_forward (H := Tcn.example_classifier) n n'
              (snd (Tcn.rt_iteration (H := Tcn.example_classifier) n))
              (surjective_pairing _)) as [Hsame | [Ho _]];
    [by left | by right].
Defined.

Lemma published_message_matches_record_witness :
  let n := fst ((Tcn.push_frame (mkTime 0 1) ;;; Tcn.push_frame (mkTime 0 2))%py
                (Tcn.new_node 2 15000000000 false false)) in
  let n' := fst (Tcn.rt_iteration (H := Tcn.example_classifier) n) in
  length (Tcn.published n') = 1%nat /\
  (Tcn.published n' = Tcn.published n \/
   exists msg, Tcn.published n' = Tcn.published n ++ [msg] /\
               Tcn._window_processed_time_ns n'
               = Some (time_to_int (Tcn.source_stamp_end_frame msg))).
Proof.
  intros n n'. split; [reflexivity|].
  destruct (published_message_matches_record (H := Tcn.example_classifier) n n'
              (snd (Tcn.rt_iteration (H := Tcn.example_classifier) n))
              (surjective_pairing _)) as [Hsame | (_ & msg & Hpub & Hp & _)];
    [by left | right; by exists msg].
Defined.

Section IterationExtraction.
Context `{Tcn.Classifier}.

Lemma rt_extract_total (n : Tcn.Node) :
  (Tcn._window_size n < 0 -> Tcn.rt_extract n = (n, Raise ValueError)) /\
  (0 <= Tcn._window_size n <= sys_maxsize ->
   exists w, Tcn.rt_extract n
             = (n, Return (w, Tcn.frame_time_ns <$> last (Tcn.frames w))) /\
             (Tcn.b_frames (Tcn._buffer n) = [] -> Tcn.frames w = [])).
Proof.
  unfold Tcn.rt_extract, bind, get, ret, Tcn.on_buffer, Tcn.get_window, islice_tail.
  cbn [fst snd]. rewrite set_buffer_same.
  destruct (Z.ltb_spec (Tcn._window_size n) 0) as [Hneg|Hpos].
  - split; [done|lia].
  - split; [lia|]. intros [_ Hmax].
    destruct (Z.ltb_spec sys_maxsize (Tcn._window_size n)) as [?|_]; [lia|].
    cbn [orb]. eexists. split; [reflexivity|].
    cbn [Tcn.frames]. intros ->.
    destruct (Tcn._window_lead_with_objects n); cbn; by rewrite take_nil.
Qed.

(** For the buffer as it is modelled here: an iteration of [rt_loop]
    that extracts a window records in [_window_extracted_time_ns] the
    time of the last frame of that window,
    whatever happens to the window afterwards; with no frame buffered it
    records "no time", the window is refused, the eviction finds nothing
    to clear, and nothing else of the node changes. *)
Theorem iteration_records_extraction (n : Tcn.Node) :
  0 <= Tcn._window_size n <= sys_maxsize ->
  (exists w,
     Tcn.rt_extract n = (n, Return (w, Tcn.frame_time_ns <$> last (Tcn.frames w))) /\
     Tcn._window_extracted_time_ns (fst (Tcn.rt_iteration n))
     = Tcn.frame_time_ns <$> last (Tcn.frames w)) /\
  (Tcn.b_frames (Tcn._buffer n) = [] ->
   Tcn.rt_iteration n = (Tcn.set_window_extracted_time_ns None n, Return tt)).
Proof.
  intros Hs. destruct (rt_extract_total n) as [_ Hpos].
  destruct (Hpos Hs) as (w & Hx & Hw). split.
  - exists w. split; [done|].
    rewrite rt_iteration_unfold, Hx. by rewrite rt_handle_extracted.
  - intros Hempty. specialize (Hw Hempty).
    rewrite (rt_iteration_rejected n w _ Hx).
    + rewrite Hw. cbn. unfold Tcn.evicted_to_bound. rewrite Hempty. cbn.
      by destruct n.
    + destruct (Tcn.window_accepted n w) eqn:Hacc; [|done].
      apply window_accepted_char in Hacc as (_ & (f & Hl & _) & _).
      by rewrite Hw in Hl.
Qed.

End IterationExtraction.

Lemma iteration_records_extraction_witness :
  let n := Tcn.new_node 25 15000000000 false false in
  Tcn.rt_iteration (H := Tcn.example_classifier) n
  = (Tcn.set_window_extracted_time_ns None n, Return tt).
Proof.
  intros n.
  apply (iteration_records_extraction (H := Tcn.example_classifier) n);
    [by vm_compute | reflexivity].
Defined.

(** ** The memo dictionaries and their id heaps *)

Lemma heappush_elem (h : list Z) (x y : Z) :
  x ∈ Tcn.heappush h y <-> x = y \/ x ∈ h.
Proof.
  induction h as [|z h IH]; simpl.
  - rewrite list_elem_of_singleton. split; [by left | intros [?|Hn]; [done|]].
    by apply elem_of_nil in Hn.
  - destruct (y <=? z).
    + by rewrite elem_of_cons.
    + rewrite !elem_of_cons, IH. tauto.
Qed.

Lemma heappush_sorted (h : list Z) (y : Z) :
  StronglySorted Z.le h -> StronglySorted Z.le (Tcn.heappush h y).
Proof.
  induction 1 as [|z h Hs IH Hz]; simpl; [repeat constructor|].
  destruct (Z.leb_spec y z) as [Hle|Hgt].
  - constructor; [by constructor|]. constructor; [done|].
    eapply Forall_impl; [exact Hz|]. simpl. intros. lia.
  - constructor; [done|]. apply Forall_forall. intros x Hx.
    apply heappush_elem in Hx as [->|Hx]; [lia|].
    by apply (proj1 (Forall_forall _ _) Hz).
Qed.

Lemma heappush_NoDup (h : list Z) (y : Z) :
  NoDup h -> y ∉ h -> NoDup (Tcn.heappush h y).
Proof.
  induction 1 as [|z h Hz Hnd IH]; simpl; intros Hy; [repeat constructor; by intros ?%elem_of_nil|].
  apply not_elem_of_cons in Hy as [Hne Hy].
  destruct (y <=? z).
  - constructor; [|by constructor]. rewrite elem_of_cons. tauto.
  - constructor; [|by apply IH]. rewrite heappush_elem. intros [->|?]; done.
Qed.

Lemma preproc_dets_consistent (dets : list (option ObjectDetection2dSet)) :
  forall i acc m,
    Tcn.memo_consistent m ->
    Tcn.memo_consistent (fst (Tcn.preproc_dets i dets acc m)) /\
    snd (Tcn.preproc_dets i dets acc m) <> Raise KeyError.
Proof.
  induction dets as [|[d|] dets IH]; intros i acc m Hm; cbn [Tcn.preproc_dets].
  - done.
  - unfold bind, get. cbn.
    destruct (Tcn._memo_preproc_input m !! time_to_int (source_stamp d))
      as [v|] eqn:Hlk; cbn.
    + unfold lift, Tcn.assign. case_decide; cbn; [by apply IH|done].
    + set (m1 := Tcn.store_preproc_input _ _ m).
      assert (Tcn.memo_consistent m1) as Hm1.
      { destruct Hm as (Hnd & Hs & Hdom & Hf). unfold Tcn.memo_consistent, m1. cbn.
        split_and!; [| by apply heappush_sorted | | done].
        - apply heappush_NoDup; [done|]. rewrite Hdom, Hlk. by intros [? ?].
        - intros k. rewrite heappush_elem, Hdom.
          destruct (decide (k = time_to_int (source_stamp d))) as [->|Hne].
          + rewrite lookup_insert_eq. split; [eauto | by left].
          + rewrite lookup_insert_ne by done. split; [intros [?|?]; done | by right]. }
      unfold lift, Tcn.assign. case_decide; cbn; [by apply IH|done].
  - by apply IH.
Qed.

Lemma preproc_poses_frame (poses : list (option Tcn.PoseUpdate)) :
  forall i acc m,
    let r := Tcn.preproc_poses i poses acc m in
    Tcn._memo_preproc_input (fst r) = Tcn._memo_preproc_input m /\
    Tcn._memo_preproc_input_id_heap (fst r) = Tcn._memo_preproc_input_id_heap m /\
    Tcn._memo_objects_to_feats_id_heap (fst r) = Tcn._memo_objects_to_feats_id_heap m /\
    snd r <> Raise KeyError /\
    (forall k v, Tcn._memo_preproc_input_poses m !! k = Some v ->
                 Tcn._memo_preproc_input_poses (fst r) !! k = Some v).
Proof.
  induction poses as [|[p|] poses IH]; intros i acc m; cbn [Tcn.preproc_poses].
  - done.
  - unfold bind, get. cbn.
    destruct (Tcn._memo_preproc_input_poses m !! time_to_int (Tcn.pose_source_stamp p))
      as [v|] eqn:Hlk; cbn.
    + unfold lift, Tcn.assign. case_decide; cbn; [by apply IH|done].
    + assert (forall e, Tcn.patient_poses (time_to_int (Tcn.pose_source_stamp p)) 0
                          (Tcn.joints p) = Raise e -> e = IndexError) as Hpp.
      { generalize 0. generalize (time_to_int (Tcn.pose_source_stamp p)).
        induction (Tcn.joints p) as [|j js IHj]; intros id z e; cbn; [done|].
        destruct (py_index Tcn.keypoints_cats z) as [lab|e'] eqn:Ei.
        - destruct (Tcn.patient_poses id (z + 1) js) eqn:Er; [done|].
          intros [= <-]. by eapply IHj.
        - intros [= <-]. unfold py_index in Ei. repeat case_match; congruence. }
      destruct (Tcn.patient_poses _ 0 (Tcn.joints p)) as [v|e] eqn:Ep; cbn.
      2:{ split_and!; try done. rewrite (Hpp e eq_refl). done. }
      set (m1 := Tcn.store_preproc_input_poses _ _ m).
      unfold Tcn.assign. case_decide; cbn.
      * destruct (IH (S i) (<[i:=Some v]> acc) m1) as (I1 & I2 & I3 & I4 & I5).
        split_and!; try done.
        intros k v' Hk. apply I5. unfold m1. cbn.
        rewrite lookup_insert_ne; [done|]. intros <-. congruence.
      * split_and!; try done. intros k v' Hk. cbn.
        rewrite lookup_insert_ne; [done|]. intros <-. congruence.
  - by apply IH.
Qed.

Lemma expire_consistent {V} (t : Z) (h : list Z) :
  forall memo : gmap Z V,
    NoDup h -> StronglySorted Z.le h ->
    (forall k, k ∈ h <-> is_Some (memo !! k)) ->
    let r := Tcn.expire t h memo in
    snd r = Return tt /\
    NoDup (fst (fst r)) /\ StronglySorted Z.le (fst (fst r)) /\
    (forall k, k ∈ fst (fst r) <-> is_Some (snd (fst r) !! k)) /\
    Forall (fun k => t < k) (fst (fst r)).
Proof.
  induction h as [|x h IH]; intros memo Hnd Hs Hdom; simpl.
  - split_and!; [done | done | done | done | constructor].
  - apply NoDup_cons in Hnd as [Hx Hnd]. apply StronglySorted_cons in Hs as [Hxs Hs].
    destruct (Z.leb_spec x t) as [Hle|Hgt].
    + destruct (memo !! x) as [v|] eqn:Hlk.
      2:{ exfalso. destruct (proj1 (Hdom x)) as [? ?]; [apply elem_of_cons; by left|].
          congruence. }
      apply IH; [done | done |].
      intros k. destruct (decide (k = x)) as [->|Hne].
      * rewrite lookup_delete_eq. split; [done | by intros [? ?]].
      * rewrite lookup_delete_ne by done. rewrite <- Hdom, elem_of_cons. tauto.
    + simpl. split_and!; [done | by apply NoDup_cons | by apply StronglySorted_cons | done |].
      constructor; [done|]. eapply Forall_impl; [exact Hxs|]. simpl. intros. lia.
Qed.

Lemma new_memo_consistent : Tcn.memo_consistent Tcn.new_memo.
Proof.
  split_and!; [constructor | constructor | | done].
  intros k. cbn. rewrite lookup_empty.
  split; [by intros ?%elem_of_nil | by intros [? ?]].
Qed.

Section MemoConsistency.
Context `{Tcn.Classifier}.

Lemma process_window_consistent (w : Tcn.InputWindow) (m : Tcn.Memo) :
  Tcn.memo_consistent m ->
  let r := Tcn._process_window w m in
  Tcn.memo_consistent (fst r) /\
  snd r <> Raise KeyError /\
  (forall msg, snd r = Return msg ->
     exists first_frame,
       head (Tcn.frames w) = Some first_frame /\
       forall k, is_Some (Tcn._memo_preproc_input (fst r) !! k) ->
                 Tcn.frame_time_ns first_frame < k).
Proof.
  intros Hm. unfold Tcn._process_window, bind.
  generalize (preproc_dets_consistent (Tcn.obj_dets w) 0
              (replicate (length (Tcn.frames w)) None) m Hm).
  destruct (Tcn.preproc_dets _ _ _ m) as [m1 [fod|e]]; cbn [fst snd];
    intros [H1 E1].
  2:{ split_and!; [done | congruence | done]. }
  generalize (preproc_poses_frame (Tcn.patient_joint_kps w) 0
              (replicate (length (Tcn.frames w)) None) m1).
  destruct (Tcn.preproc_poses _ _ _ m1) as [m2 [fpp|e]]; cbn [fst snd];
    intros (P1 & P2 & P3 & P4 & _).
  2:{ split_and!; [|congruence|done]. destruct H1 as (A & B & C & D).
      unfold Tcn.memo_consistent. by rewrite P1, P2, P3. }
  assert (Tcn.memo_consistent m2) as (A & B & C & D).
  { destruct H1 as (A & B & C & D). unfold Tcn.memo_consistent. by rewrite P1, P2, P3. }
  cbn [modify].
  destruct (Tcn.objects_to_feats fod fpp) as [feats|]; [|by split_and!].
  unfold lift.
  destruct (py_index (Tcn.frames w) 0) as [f0|e] eqn:E0.
  2:{ cbn. split_and!; [done | | done].
      unfold py_index in E0. repeat case_match; congruence. }
  destruct (py_index (Tcn.frames w) (-1)) as [fl|e] eqn:El.
  2:{ cbn. split_and!; [done | | done].
      unfold py_index in El. repeat case_match; congruence. }
  unfold Tcn.expire_preproc_input, Tcn.expire_objects_to_feats. cbn.
  generalize (expire_consistent (Tcn.frame_time_ns f0) _ _ A B C).
  destruct (Tcn.expire _ _ _) as [[h4 d4] o4]; cbn [fst snd].
  intros (X1 & X2 & X3 & X4 & X5). subst o4.
  cbn. rewrite D. cbn. split_and!; [by split_and! | done |].
  intros msg _. exists f0. split; [by apply py_index_head|].
  intros k Hk. apply X4 in Hk. by apply (proj1 (Forall_forall _ _) X5).
Qed.

Lemma process_windows_consistent (windows : list Tcn.InputWindow) (m : Tcn.Memo) :
  Tcn.memo_consistent m -> Tcn.memo_consistent (Tcn.process_windows windows m).
Proof.
  revert m. induction windows as [|w ws IH]; intros m Hm; [done|].
  cbn. apply IH. by apply process_window_consistent.
Qed.

(** X11: the clean-up loops of [_process_window] never meet a missing key.
    Starting from the empty memo fields of a new node and whatever windows
    have been processed, the id heap of the preprocessed detections lists
    exactly the keys their dictionary holds, once each, and processing one
    more window does not raise [KeyError]. *)
Theorem process_window_never_KeyError
    (windows : list Tcn.InputWindow) (w : Tcn.InputWindow) :
  let m := Tcn.process_windows windows Tcn.new_memo in
  NoDup (Tcn._memo_preproc_input_id_heap m) /\
  (forall k, k ∈ Tcn._memo_preproc_input_id_heap m <->
             is_Some (Tcn._memo_preproc_input m !! k)) /\
  snd (Tcn._process_window w m) <> Raise KeyError.
Proof.
  intros m.
  assert (Tcn.memo_consistent m) as Hm.
  { apply process_windows_consistent, new_memo_consistent. }
  destruct (process_window_consistent w m Hm) as (_ & B & _).
  destruct Hm as (A & _ & C & _). by split_and!.
Qed.

(** X12: when [_process_window] returns a classification, from consistent
    memo fields, every key left in the memo of the preprocessed detections
    is strictly after the first frame of the window: everything at or
    before the window start has been evicted. *)
Theorem process_window_evicts_to_window_start
    (w : Tcn.InputWindow) (m m' : Tcn.Memo) (msg : Tcn.ActivityDetection) :
  Tcn.memo_consistent m ->
  Tcn._process_window w m = (m', Return msg) ->
  exists first_frame,
    head (Tcn.frames w) = Some first_frame /\
    forall k, is_Some (Tcn._memo_preproc_input m' !! k) ->
              Tcn.frame_time_ns first_frame < k.
Proof.
  intros Hm Hp. destruct (process_window_consistent w m Hm) as (_ & _ & C).
  rewrite Hp in C. by apply (C msg).
Qed.

(** X13: the memo of the preprocessed poses is never evicted: whatever
    windows are processed, and however each processing ends, a pose
    structure stored under a key stays stored under it, unchanged. *)
Theorem pose_memo_never_evicted
    (windows : list Tcn.InputWindow) (m : Tcn.Memo) (k : Z)
    (v : list Tcn.PatientPose) :
  Tcn._memo_preproc_input_poses m !! k = Some v ->
  Tcn._memo_preproc_input_poses (Tcn.process_windows windows m) !! k = Some v.
Proof.
  revert m. induction windows as [|w ws IH]; intros m Hk; [done|].
  cbn. apply IH.
  unfold Tcn._process_window, bind.
  assert (forall i acc, Tcn._memo_preproc_input_poses
            (fst (Tcn.preproc_dets i (Tcn.obj_dets w) acc m)) !! k = Some v) as Hd.
  { generalize m Hk. clear. induction (Tcn.obj_dets w) as [|[d|] dets IHd];
      intros m Hk i acc; cbn [Tcn.preproc_dets]; [done| |by apply IHd].
    unfold bind, get. cbn.
    destruct (Tcn._memo_preproc_input m !! _) as [v0|]; cbn;
      unfold lift, Tcn.assign; case_decide; cbn; try done; by apply IHd. }
  generalize (Hd 0%nat (replicate (length (Tcn.frames w)) None)). clear Hd.
  destruct (Tcn.preproc_dets _ _ _ m) as [m1 [fod|e]]; cbn [fst]; intros Hd; [|done].
  generalize (preproc_poses_frame (Tcn.patient_joint_kps w) 0
              (replicate (length (Tcn.frames w)) None) m1).
  destruct (Tcn.preproc_poses _ _ _ m1) as [m2 [fpp|e]]; cbn [fst snd];
    intros (_ & _ & _ & _ & P5); specialize (P5 k v Hd); [|done].
  cbn [modify].
  destruct (Tcn.objects_to_feats fod fpp) as [feats|]; [|done].
  unfold lift.
  destruct (py_index (Tcn.frames w) 0) as [f0|e]; [|done].
  destruct (py_index (Tcn.frames w) (-1)) as [fl|e]; [|done].
  unfold Tcn.expire_preproc_input, Tcn.expire_objects_to_feats. cbn.
  destruct (Tcn.expire _ _ _) as [[h4 d4] [[]|e]]; cbn; [|done].
  destruct (Tcn.expire_feats _ _ _ _) as [[[h5 d5] q5] [[]|e]]; cbn; done.
Qed.

End MemoConsistency.

Lemma process_window_evicts_to_window_start_witness :
  let d n := Some (mkDets (mkTime 0 n) (mkTime 0 n) 1 []) in
  let fr n := (mkTime 0 n, None, n) : Tcn.Frame in
  let w0 := Tcn.mkWindow [fr 0; fr 1] [None; d 1] [None; None] in
  let w1 := Tcn.mkWindow [fr 2; fr 3; fr 4] [d 2; d 3; d 4] [None; None; None] in
  let m := Tcn.process_windows (H := Tcn.example_classifier) [w0] Tcn.new_memo in
  let r := Tcn._process_window (H := Tcn.example_classifier) w1 m in
  is_Some (Tcn._memo_preproc_input m !! 1) /\
  Tcn._memo_preproc_input (fst r) !! 1 = None /\
  Tcn._memo_preproc_input (fst r) !! 2 = None /\
  is_Some (Tcn._memo_preproc_input (fst r) !! 3) /\
  exists first_frame,
    head (Tcn.frames w1) = Some first_frame /\
    forall k, is_Some (Tcn._memo_preproc_input (fst r) !! k) ->
              Tcn.frame_time_ns first_frame < k.
Proof.
  intros d fr w0 w1 m r.
  split_and!; [vm_compute; eauto | reflexivity | reflexivity | vm_compute; eauto |].
  destruct (snd r) as [msg|e] eqn:E; [|vm_compute in E; discriminate].
  apply (process_window_evicts_to_window_start (H := Tcn.example_classifier)
           w1 m (fst r) msg).
  - apply process_windows_consistent, new_memo_consistent.
  - rewrite <- E. apply surjective_pairing.
Defined.

Lemma pose_memo_never_evicted_witness :
  let d n := Some (mkDets (mkTime 0 n) (mkTime 0 n) 1 []) in
  let p n := Some (Tcn.mkPose (mkTime 0 n) (mkTime 0 n) [7; 8]) in
  let fr n := (mkTime 0 n, None, n) : Tcn.Frame in
  let w1 := Tcn.mkWindow [fr 1; fr 2] [d 1; d 2] [p 1; None] in
  let w2 := Tcn.mkWindow [fr 5; fr 6] [d 5; d 6] [None; p 6] in
  let m := Tcn.process_windows (H := Tcn.example_classifier) [w1] Tcn.new_memo in
  Tcn._memo_preproc_input m !! 1 = None /\
  exists v,
    Tcn._memo_preproc_input_poses m !! 1 = Some v /\
    Tcn._memo_preproc_input_poses
      (Tcn.process_windows (H := Tcn.example_classifier) [w2] m) !! 1 = Some v.
Proof.
  intros d p fr w1 w2 m. split; [reflexivity|].
  destruct (Tcn._memo_preproc_input_poses m !! 1) as [v|] eqn:E.
  - exists v. split; [done|].
    by apply (pose_memo_never_evicted (H := Tcn.example_classifier) [w2] m 1 v).
  - vm_compute in E. discriminate.
Defined.

(** ** Subscriptions, shutdown and the order of the replay *)

Lemma set_current_frame_number_same (n : Tcn.Node) :
  Tcn.set_current_frame_number (Tcn._current_frame_number n + 0) n = n.
Proof. rewrite Z.add_0_r. by destruct n. Qed.

(** X14: once the runtime thread is no longer alive the node drops
    everything it receives: whatever messages arrive, every callback
    returns, and the buffer, the wake-up event and all the rest of the
    node stay as they are, but for the frame counter, which still
    advances by one for each image timestamp. *)
Theorem dead_runtime_drops_messages (msgs : list Tcn.Message) (n : Tcn.Node) :
  Tcn._rt_thread_alive n = false ->
  Tcn.spin msgs n
  = (Tcn.set_current_frame_number
       (Tcn._current_frame_number n + Tcn.image_count msgs) n, Return tt).
Proof.
  revert n. induction msgs as [|[t|d|p] msgs IH]; intros n Hdead;
    cbn [Tcn.spin Tcn.image_count Tcn.deliver].
  - by rewrite set_current_frame_number_same.
  - unfold bind at 1. unfold Tcn.img_ts_callback, bind, get, modify. cbn.
    rewrite Hdead. cbn. rewrite IH by done.
    unfold Tcn.set_current_frame_number. cbn. by rewrite Z.add_assoc.
  - unfold bind at 1. unfold Tcn.det_callback, bind, get. rewrite Hdead. cbn.
    by apply IH.
  - unfold bind at 1. unfold Tcn.pose_callback, bind, get. rewrite Hdead. cbn.
    by apply IH.
Qed.

Lemma dead_runtime_drops_messages_witness :
  let n := Tcn.set_rt_thread_alive false (Tcn.new_node 3 100 false false) in
  let msgs := [Tcn.MsgImageTs (mkTime 0 1);
               Tcn.MsgDets (mkDets (mkTime 0 1) (mkTime 0 1) 1 []);
               Tcn.MsgImageTs (mkTime 0 2)] in
  Tcn._buffer (fst (Tcn.spin msgs n)) = Tcn.new_buffer 0 /\
  Tcn._current_frame_number (fst (Tcn.spin msgs n)) = 1.
Proof.
  intros n msgs.
  rewrite (dead_runtime_drops_messages msgs n) by reflexivity.
  split; reflexivity.
Defined.

Lemma det_callback_active (msg : ObjectDetection2dSet) (n : Tcn.Node) :
  Tcn._rt_active (fst (Tcn.det_callback msg n)) = Tcn._rt_active n.
Proof.
  unfold Tcn.det_callback, bind, get, ret, modify, Tcn.on_buffer. cbn.
  repeat (case_match; cbn in *; simplify_eq); done.
Qed.

Lemma img_ts_callback_active (msg : Time) (n : Tcn.Node) :
  Tcn._rt_active (fst (Tcn.img_ts_callback msg n)) = Tcn._rt_active n.
Proof.
  unfold Tcn.img_ts_callback, bind, get, ret, modify, Tcn.on_buffer. cbn.
  repeat (case_match; cbn in *; simplify_eq); done.
Qed.

Lemma loader_step_inactive (s s' : Tcn.System) :
  Tcn.loader_step s = Some s' ->
  Tcn._rt_active (Tcn.node s) = false ->
  Tcn._rt_active (Tcn.node s') = false /\ Tcn.rt s' = Tcn.rt s.
Proof.
  unfold Tcn.loader_step. intros Hstep Hoff.
  destruct (Tcn.loader s) as [[|img todo]|img rest|ts rest|].
  - by injection Hstep as <-.
  - injection Hstep as <-. cbn [Tcn.node Tcn.rt]. by rewrite det_callback_active.
  - injection Hstep as <-. cbn [Tcn.node Tcn.rt]. by rewrite img_ts_callback_active.
  - destruct (Tcn.window_extracted_reached _ _); [|done]. by injection Hstep as <-.
  - done.
Qed.

Section Shutdown.
Context `{Tcn.Classifier}.

Lemma rt_handle_active (w : Tcn.InputWindow) (t : option Z) (n : Tcn.Node) :
  Tcn._rt_active (fst (Tcn.rt_handle w t n)) = Tcn._rt_active n.
Proof.
  unfold Tcn.rt_handle, Tcn.window_accepted, bind, get, lift, try_except, modify, ret.
  destruct (forallb _ _) eqn:Hacc;
    unfold Tcn.on_buffer, Tcn.on_memo, Tcn.publish, Tcn.latest_time, modify; cbn;
    repeat (case_match; cbn in *; simplify_eq); done.
Qed.

Lemma rt_step_inactive (s : Tcn.System) :
  Tcn._rt_active (Tcn.node s) = false ->
  Tcn.rt s <> Tcn.RtEnded ->
  exists s',
    Tcn.rt_step s = Some s' /\
    Tcn._rt_active (Tcn.node s') = false /\
    (Tcn.rt_steps_left (Tcn.rt s') < Tcn.rt_steps_left (Tcn.rt s))%nat.
Proof.
  intros Hoff Hpc. unfold Tcn.rt_step.
  destruct (Tcn.rt s) as [| | |w t|w t|] eqn:Epc; [| | | | |done].
  - rewrite Hoff. eexists. split; [done|]. cbn. split; [done|lia].
  - destruct (Tcn._rt_awake_evt (Tcn.node s)); eexists; (split; [done|]);
      cbn; (split; [done|lia]).
  - destruct (Tcn.rt_extract (Tcn.node s)) as [n [[w t]|e]] eqn:Ex;
      apply rt_extract_node in Ex as ->; eexists; (split; [done|]);
      cbn; (split; [done|lia]).
  - unfold Tcn.rt_record, modify. eexists. split; [done|]. cbn. split; [done|lia].
  - pose proof (rt_handle_active w t (Tcn.node s)) as Ha.
    destruct (Tcn.rt_handle w t (Tcn.node s)) as [n [[]|e]]; cbn [fst] in Ha;
      eexists; (split; [done|]); cbn; (split; [congruence|lia]).
Qed.

Lemma inactive_runtime_ends (schedule : list Tcn.thread) :
  forall s,
    Tcn._rt_active (Tcn.node s) = false ->
    (Tcn.rt_steps_left (Tcn.rt s) <= Tcn.rt_turns schedule)%nat ->
    Tcn.rt (Tcn.run schedule s) = Tcn.RtEnded.
Proof.
  induction schedule as [|[|] schedule IH]; intros s Hoff Hleft;
    cbn [Tcn.run foldl Tcn.rt_turns] in *.
  - destruct (Tcn.rt s); cbn in Hleft; (done || lia).
  - assert (Tcn._rt_active (Tcn.node (Tcn.step Tcn.LoaderThread s)) = false /\
            Tcn.rt (Tcn.step Tcn.LoaderThread s) = Tcn.rt s) as [Hoff' Hpc].
    { unfold Tcn.step. destruct (Tcn.loader_step s) as [s'|] eqn:E; cbn [default];
        [by apply (loader_step_inactive s)|done]. }
    apply IH; [done|by rewrite Hpc].
  - destruct (Tcn.rt s) as [| | |w t|w t|] eqn:Hpc.
    6:{ apply IH; unfold Tcn.step, Tcn.rt_step; rewrite Hpc; cbn [default]; [done|].
        rewrite Hpc. cbn. lia. }
    all: destruct (rt_step_inactive s Hoff) as (s' & Hs & Hoff' & Hlt);
      [by rewrite Hpc|];
      apply IH; unfold Tcn.step; rewrite Hs; cbn [default]; [done|];
      rewrite Hpc in Hlt; try rewrite Hpc in Hleft; cbn in Hlt, Hleft;
      unfold id; lia.
Qed.

(** X15: [rt_stop] ends the runtime thread.  After it, whatever the two
    threads do and wherever [rt_loop] stood, the runtime thread has left
    its loop once it has been given five turns: a pass over a window that
    is under way is finished, no new pass is begun after the next loop
    test. *)
Theorem rt_stop_ends_runtime (s : Tcn.System) (schedule : list Tcn.thread) :
  (5 <= Tcn.rt_turns schedule)%nat ->
  Tcn.rt (Tcn.run schedule
            (Tcn.mkSystem (fst (Tcn.rt_stop (Tcn.node s))) (Tcn.loader s)
                          (Tcn.rt s) (Tcn.pushed s) (Tcn.recorded s)))
  = Tcn.RtEnded.
Proof.
  intros Hturns. apply inactive_runtime_ends; [done|].
  cbn [Tcn.rt]. destruct (Tcn.rt s); cbn; lia.
Qed.

(** X16: the end of the dataset ends the runtime thread.  When the loader
    has no image left, its next step clears [_rt_active], and from then
    on five turns of the runtime thread, interleaved in any way, bring
    [rt_loop] to its end. *)
Theorem finished_replay_ends_runtime (s : Tcn.System) (schedule : list Tcn.thread) :
  Tcn.loader s = Tcn.LoaderDet [] ->
  (5 <= Tcn.rt_turns schedule)%nat ->
  Tcn.loader (Tcn.step Tcn.LoaderThread s) = Tcn.LoaderDone /\
  Tcn._rt_active (Tcn.node (Tcn.step Tcn.LoaderThread s)) = false /\
  Tcn.rt (Tcn.run (Tcn.LoaderThread :: schedule) s) = Tcn.RtEnded.
Proof.
  intros Hpc Hturns.
  assert (Tcn.step Tcn.LoaderThread s
          = Tcn.mkSystem (Tcn.set_rt_active false (Tcn.node s)) Tcn.LoaderDone
                         (Tcn.rt s) (Tcn.pushed s) (Tcn.recorded s)) as E.
  { unfold Tcn.step, Tcn.loader_step. by rewrite Hpc. }
  change (Tcn.run (Tcn.LoaderThread :: schedule) s)
    with (Tcn.run schedule (Tcn.step Tcn.LoaderThread s)).
  rewrite E. split_and!; [done | done |].
  apply inactive_runtime_ends; [done|].
  cbn [Tcn.rt]. destruct (Tcn.rt s); cbn; lia.
Qed.

Lemma rt_step_loader (s s' : Tcn.System) :
  Tcn.rt_step s = Some s' ->
  Tcn.loader s' = Tcn.loader s /\ Tcn.pushed s' = Tcn.pushed s.
Proof.
  unfold Tcn.rt_step. intros Hstep.
  repeat (case_match; cbn in *; simplify_eq); done.
Qed.

Lemma loader_step_order (s s' : Tcn.System) :
  Tcn.loader_step s = Some s' ->
  exists done_now,
    Tcn.pushed s' = Tcn.pushed s ++ done_now /\
    done_now `prefix_of` Tcn.pending (Tcn.loader s) /\
    (Tcn.loader s' <> Tcn.LoaderDone ->
     done_now ++ Tcn.pending (Tcn.loader s') = Tcn.pending (Tcn.loader s)).
Proof.
  unfold Tcn.loader_step. intros Hstep.
  destruct (Tcn.loader s) as [[|img todo]|img rest|ts rest|].
  - injection Hstep as <-. exists []. cbn. by rewrite app_nil_r.
  - injection Hstep as <-. exists []. cbn [Tcn.pushed Tcn.loader].
    rewrite app_nil_r. split_and!; [done | by apply prefix_nil |].
    by destruct (snd _).
  - injection Hstep as <-. exists [time_to_int (Tcn.coco_image_ts img)].
    cbn [Tcn.pushed Tcn.loader]. split_and!; [done | by eexists |].
    by destruct (snd _).
  - destruct (Tcn.window_extracted_reached _ _); [|done]. injection Hstep as <-.
    exists []. cbn. rewrite app_nil_r. split_and!; [done | by apply prefix_nil | done].
  - done.
Qed.

Lemma loader_done_dec (pc : Tcn.loader_pc) :
  pc = Tcn.LoaderDone \/ pc <> Tcn.LoaderDone.
Proof. destruct pc; (by left) || (by right). Qed.

Lemma run_order (schedule : list Tcn.thread) :
  forall s all,
    (exists pre, pre ++ Tcn.pending (Tcn.loader s) = all /\
                 (Tcn.loader s <> Tcn.LoaderDone -> pre = Tcn.pushed s) /\
                 Tcn.pushed s `prefix_of` all) ->
    Tcn.pushed (Tcn.run schedule s) `prefix_of` all.
Proof.
  induction schedule as [|t schedule IH]; intros s all (pre & Hall & Hpre & Hpush);
    cbn [Tcn.run foldl]; [done|].
  apply IH. unfold Tcn.step.
  destruct t.
  - destruct (Tcn.loader_step s) as [s'|] eqn:E; cbn [default]; unfold id;
      [|by exists pre].
    destruct (loader_step_order s s' E) as (now & Hp & Hpf & Hrest).
    destruct (loader_done_dec (Tcn.loader s)) as [Hd|Hnd].
    { unfold Tcn.loader_step in E. by rewrite Hd in E. }
    specialize (Hpre Hnd). subst pre.
    destruct (loader_done_dec (Tcn.loader s')) as [Hd'|Hnd'].
    + exists all. rewrite Hd'. cbn. rewrite app_nil_r. split_and!; [done | done |].
      rewrite Hp, <- Hall. by apply prefix_app.
    + exists (Tcn.pushed s'). rewrite Hp. split_and!; [| done |].
      * rewrite <- app_assoc, (Hrest Hnd'). done.
      * rewrite <- Hall. by apply prefix_app.
  - destruct (Tcn.rt_step s) as [s'|] eqn:E; cbn [default]; unfold id;
      [|by exists pre].
    destruct (rt_step_loader s s' E) as [-> ->]. by exists pre.
Qed.

Lemma insert_by_frame_index_perm (x : Tcn.CocoImage) (l : list Tcn.CocoImage) :
  Tcn.insert_by_frame_index x l ≡ₚ x :: l.
Proof.
  induction l as [|y l IH]; cbn; [done|].
  destruct (_ <? _); [done|]. rewrite IH. apply Permutation_swap.
Qed.

Lemma insert_by_frame_index_sorted (x : Tcn.CocoImage) (l : list Tcn.CocoImage) :
  StronglySorted Z.le (Tcn.frame_index <$> l) ->
  StronglySorted Z.le (Tcn.frame_index <$> Tcn.insert_by_frame_index x l).
Proof.
  induction l as [|y l IH]; cbn; intros Hs; [repeat constructor|].
  apply StronglySorted_cons in Hs as [Hy Hs].
  destruct (Z.ltb_spec (Tcn.frame_index x) (Tcn.frame_index y)) as [Hlt|Hge]; cbn.
  - apply StronglySorted_cons. split; [|by apply StronglySorted_cons].
    constructor; [lia|]. eapply Forall_impl; [exact Hy|]. cbn. intros. lia.
  - apply StronglySorted_cons. split; [|by apply IH].
    apply Forall_forall. intros z Hz.
    apply list_elem_of_fmap in Hz as (i & -> & Hi).
    rewrite insert_by_frame_index_perm in Hi.
    apply elem_of_cons in Hi as [->|Hi]; [done|].
    apply (proj1 (Forall_forall _ _) Hy). by apply list_elem_of_fmap_2.
Qed.

Lemma sorted_by_frame_index_spec (l : list Tcn.CocoImage) :
  Tcn.sorted_by_frame_index l ≡ₚ l /\
  StronglySorted Z.le (Tcn.frame_index <$> Tcn.sorted_by_frame_index l).
Proof.
  unfold Tcn.sorted_by_frame_index.
  rewrite <- (reverse_Permutation l) at 2.
  induction (reverse l) as [|x r [IHp IHs]]; cbn; [split; [done|constructor]|].
  split; [by rewrite insert_by_frame_index_perm, IHp|].
  by apply insert_by_frame_index_sorted.
Qed.

(** X17: the replay pushes the images in ascending order of
    [frame_index], each at most once.  At every point of every
    interleaving of the loader and the runtime thread, the timestamps of
    the tuples pushed so far are an initial part of the scan order of the
    dataset; and that order lists the frame indices of the dataset, each
    image once, from the smallest to the largest. *)
Theorem replay_pushes_in_frame_order
    (n : Tcn.Node) (dataset : list Tcn.CocoImage) (schedule : list Tcn.thread) :
  Tcn.pushed (Tcn.run schedule (Tcn.init_system n dataset))
    `prefix_of` Tcn.replay_order dataset /\
  Tcn.replay_order dataset ≡ₚ Tcn.frame_index <$> dataset /\
  StronglySorted Z.le (Tcn.replay_order dataset).
Proof.
  assert (Tcn.replay_order dataset
          = Tcn.frame_index <$> Tcn.sorted_by_frame_index dataset) as Eo.
  { unfold Tcn.replay_order. apply list_fmap_ext. intros _ img _.
    unfold time_to_int, Tcn.coco_image_ts. cbn. lia. }
  destruct (sorted_by_frame_index_spec dataset) as [Hp Hs].
  split_and!.
  - apply run_order. exists []. cbn. split_and!; [done | done | by apply prefix_nil].
  - by rewrite Eo, Hp.
  - by rewrite Eo.
Qed.

End Shutdown.

Lemma rt_stop_ends_runtime_witness :
  let n := Tcn.new_node 2 100 false true in
  let s := Tcn.run (H := Tcn.example_classifier)
             [Tcn.LoaderThread; Tcn.LoaderThread; Tcn.RtThread]
             (Tcn.init_system n [Tcn.mkCocoImage 1 [7]; Tcn.mkCocoImage 2 [8]]) in
  let stopped := Tcn.mkSystem (fst (Tcn.rt_stop (Tcn.node s))) (Tcn.loader s)
                              (Tcn.rt s) (Tcn.pushed s) (Tcn.recorded s) in
  let schedule := [Tcn.RtThread; Tcn.LoaderThread; Tcn.RtThread; Tcn.RtThread;
                   Tcn.RtThread; Tcn.RtThread] in
  Tcn.rt s = Tcn.RtWait /\
  Tcn.rt (Tcn.run (H := Tcn.example_classifier) schedule stopped) = Tcn.RtEnded.
Proof.
  intros n s stopped schedule. split; [reflexivity|].
  apply (rt_stop_ends_runtime (H := Tcn.example_classifier) s schedule).
  cbn. lia.
Defined.

Lemma finished_replay_ends_runtime_witness :
  let s := Tcn.init_system (Tcn.new_node 2 100 false true) [] in
  let schedule := [Tcn.RtThread; Tcn.RtThread; Tcn.RtThread; Tcn.RtThread;
                   Tcn.RtThread] in
  Tcn.rt (Tcn.run (H := Tcn.example_classifier)
            (Tcn.LoaderThread :: schedule) s) = Tcn.RtEnded.
Proof.
  intros s schedule.
  apply (finished_replay_ends_runtime (H := Tcn.example_classifier) s schedule);
    [reflexivity | cbn; lia].
Defined.
